(** * clockify-cli: the timer commands ([src/commands/timer.ts])

    A shallow embedding of [timerCommands] (start, stop, status, add, edit)
    and the properties of its timer reconciliation and entry mutation logic.

    Modelling conventions.
    - JavaScript strings are [string]s.  [String.prototype.toLowerCase] maps
      the letters of every script, so it is an operation of the runtime
      ([toLowerCase]), not a function on ASCII letters.
    - An optional string property ([projectId], an option of the command
      line) is an [option string]; JavaScript truthiness makes both the absent
      value and the empty string falsy ([JS.truthy]).  The interval's [end],
      which the commands also hand to [new Date], keeps apart what JSON can
      give for it: nothing, [null], or a text ([JS.Value]).
    - A [Date] is its time value: [Some t] with [t] the milliseconds since the
      epoch, or [None] for an Invalid Date (time value NaN).  A time value that
      the code computes is clipped to the range of a Date
      ([DateOps.TimeClip], 8.64e15 ms either side of the epoch).  Numbers
      that may be NaN are [option Z] likewise.
    - The local time zone is the runtime's [LocalTZA]: its offset from UTC at
      a UTC time value, and at a local time value, so that zones with daylight
      saving transitions are instances.
    - A command is a computation in the [Cmd] monad: it produces the trace of
      its console messages and collaborator calls, and completes normally, by
      an early [return], by [process.exit], or by a thrown exception. *)

From Stdlib Require Import ZArith List String Ascii Bool Lia.
Import ListNotations.

Open Scope string_scope.
Open Scope Z_scope.

(* ================================================================= *)
(** ** The JavaScript runtime operations the commands use *)

Module JS.

(** Truthiness of an optional string: [undefined], [null] and [""] are falsy. *)
Definition truthy (o : option string) : bool :=
  match o with
  | Some s => negb (s =? "")%string
  | None => false
  end.

(** The value seen by the body of [if (x) { ... x ... }]. *)
Definition whenTruthy (o : option string) : option string :=
  match o with
  | Some s => if (s =? "")%string then None else Some s
  | None => None
  end.

(** What a string property of a JSON object holds: nothing (the key is
    absent and reads as [undefined]), [null], or a text. *)
Inductive Value :=
| Undefined
| Null
| Text (s : string).

(** The text of a value that holds one. *)
Definition text (v : Value) : option string :=
  match v with
  | Text s => Some s
  | Undefined | Null => None
  end.

(** An optional text as a value: absent when there is none. *)
Definition ofText (o : option string) : Value :=
  match o with
  | Some s => Text s
  | None => Undefined
  end.

(** [s.includes(sub)] *)
Fixpoint includes (s sub : string) : bool :=
  String.prefix sub s ||
  match s with
  | EmptyString => false
  | String _ s' => includes s' sub
  end.

(** [s.split('T')[0]]: the text before the first ['T'] (all of [s] when
    there is none). *)
Fixpoint beforeT (s : string) : string :=
  match s with
  | EmptyString => EmptyString
  | String c s' => if (c =? "T")%char then EmptyString else String c (beforeT s')
  end.

(** [\d] *)
Definition isDigit (c : ascii) : bool :=
  let n := nat_of_ascii c in ((48 <=? n) && (n <=? 57))%nat.

Definition digitValue (c : ascii) : Z := Z.of_nat (nat_of_ascii c) - 48.

Fixpoint parseDigits (acc : Z) (s : string) : Z :=
  match s with
  | EmptyString => acc
  | String c s' => parseDigits (10 * acc + digitValue c) s'
  end.

(** [parseInt(s)] on a capture group of [\d]s. *)
Definition parseInt (s : string) : Z := parseDigits 0 s.

(** [text.match(/^(\d{1,2}):(\d{2})$/)]: the two capture groups. *)
Definition matchClock (text : string) : option (string * string) :=
  match text with
  | String c1 (String c2 (String c3 (String c4 rest))) =>
      match rest with
      | EmptyString =>
          if isDigit c1 && (c2 =? ":")%char && isDigit c3 && isDigit c4
          then Some (String c1 EmptyString, String c3 (String c4 EmptyString))
          else None
      | String c5 EmptyString =>
          if isDigit c1 && isDigit c2 && (c3 =? ":")%char
             && isDigit c4 && isDigit c5
          then Some (String c1 (String c2 EmptyString),
                     String c4 (String c5 EmptyString))
          else None
      | String _ (String _ _) => None
      end
  | _ => None
  end.

(** Numbers that may be NaN. *)
Definition Num := option Z.

Definition sub (a b : Num) : Num :=
  match a, b with
  | Some x, Some y => Some (x - y)
  | _, _ => None
  end.

Definition add (a b : Num) : Num :=
  match a, b with
  | Some x, Some y => Some (x + y)
  | _, _ => None
  end.

(** [Math.round(ms / 60000)] on an integer [ms]: the nearest integer, a tie
    going up. *)
Definition roundMinutesZ (ms : Z) : Z := (ms + 30000) / 60000.

Definition roundMinutes (ms : Num) : Num := option_map roundMinutesZ ms.

End JS.

(** The [Date] operations, on time values (ECMAScript, 21.4.1). *)
Module DateOps.

Definition msPerDay : Z := 86400000.
Definition msPerHour : Z := 3600000.
Definition msPerMinute : Z := 60000.
Definition msPerSecond : Z := 1000.

Definition Day (t : Z) : Z := t / msPerDay.
Definition TimeWithinDay (t : Z) : Z := t mod msPerDay.
Definition HourFromTime (t : Z) : Z := (t / msPerHour) mod 24.
Definition MinFromTime (t : Z) : Z := (t / msPerMinute) mod 60.
Definition SecFromTime (t : Z) : Z := (t / msPerSecond) mod 60.
Definition msFromTime (t : Z) : Z := t mod msPerSecond.

Definition MakeTime (hour min sec ms : Z) : Z :=
  hour * msPerHour + min * msPerMinute + sec * msPerSecond + ms.
Definition MakeDate (day time : Z) : Z := day * msPerDay + time.

(** The largest time value of a [Date]: 100,000,000 days. *)
Definition maxTime : Z := 8640000000000000.

(** A time value within the range of a [Date]. *)
Definition inRange (time : Z) : bool := Z.abs time <=? maxTime.

(** [TimeClip(time)]: a time value beyond the range is NaN. *)
Definition TimeClip (time : Z) : option Z :=
  if inRange time then Some time else None.

Section LocalZone.
(** [LocalTZA(t, isUTC)]: the zone's offset from UTC in milliseconds, at the
    UTC time value [t] when [isUTC] is [true], at the local time value [t]
    when it is [false]. *)
Variable LocalTZA : Z -> bool -> Z.

Definition LocalTime (t : Z) : Z := t + LocalTZA t true.
Definition UTC (t : Z) : Z := t - LocalTZA t false.

(** The zone has the local time [t]: [t] is the local time of the instant
    it is read as.  A local time that a transition skips is read with the
    offset before the transition, and is the local time of no instant. *)
Definition isLocalTime (t : Z) : Prop := LocalTime (UTC t) = t.

(** [d.setHours(hour, min, sec, ms)]: the new time value of [d]. *)
Definition setHours (d : option Z) (hour min sec ms : Z) : option Z :=
  match d with
  | Some tv =>
      let t := LocalTime tv in
      TimeClip (UTC (MakeDate (Day t) (MakeTime hour min sec ms)))
  | None => None
  end.
End LocalZone.

End DateOps.

(** What the commands take from the JavaScript runtime: the time value of
    [new Date(text)] ([None] is an Invalid Date), [toISOString] on a valid
    time value, the local zone, and [String.prototype.toLowerCase]. *)
Class Runtime := {
  dateParse : string -> option Z;
  toISOString : Z -> string;
  LocalTZA : Z -> bool -> Z;
  toLowerCase : string -> string
}.

(** A call that resolves to a value or fails with an error message. *)
Inductive Result (A : Type) : Type :=
| Ok (a : A)
| Err (message : string).
Arguments Ok {A} a.
Arguments Err {A} message.

(** What the commands import from [../lib/utils], which is not among the
    sources: [sanitizeInput], and [parseDuration] ([Err] when it throws
    [InvalidDurationFormat]).  [formatDuration] only renders a number of
    minutes for the console; the messages below carry the number itself. *)
Class Utils := {
  sanitizeInput : string -> string;
  parseDuration : string -> Result Z
}.

(* ================================================================= *)
(** ** Data model *)

(** Modelled from the spec: the [TimeEntry], [Project] and [TimeEntryRequest]
    declarations of [../types/clockify], which are not among the sources
    (section 3: description, billable flag and tag id set are always there;
    project, task and the interval's end are optional). *)
Record NamedRef := { name : string }.

Record TimeInterval := {
  ti_start : string;
  ti_endValue : JS.Value
}.

(** The text of the interval's [end], when it holds one. *)
Definition ti_end (interval : TimeInterval) : option string :=
  JS.text (ti_endValue interval).

Record TimeEntry := {
  entry_id : string;
  description : string;
  billable : bool;
  tagIds : list string;
  projectId : option string;
  taskId : option string;
  project : option NamedRef;
  task : option NamedRef;
  timeInterval : TimeInterval
}.

Record Project := {
  project_id : string;
  project_name : string
}.

Record User := { user_id : string }.

(** The body of [startTimer] and [createTimeEntry]. *)
Record TimeEntryRequest := {
  req_start : string;
  req_end : option string;
  req_description : string;
  req_billable : bool;
  req_projectId : option string
}.

(** The body of [createProject]. *)
Record ProjectRequest := {
  pr_name : string;
  pr_isPublic : bool;
  pr_billable : bool;
  pr_color : string
}.

(** [updateData] of [edit]: a record with the keys the command may set; an
    absent key is [None]. *)
Record UpdateData := {
  upd_start : string;
  upd_description : string;
  upd_billable : bool;
  upd_tagIds : list string;
  upd_end : option string;
  upd_projectId : option string;
  upd_taskId : option string
}.

(** The options object of a command. *)
Record Options := {
  opt_description : option string;
  opt_billable : option bool;
  opt_project : option string;
  opt_startTime : option string;
  opt_endTime : option string
}.

Definition noOptions : Options :=
  {| opt_description := None; opt_billable := None; opt_project := None;
     opt_startTime := None; opt_endTime := None |}.

(* ================================================================= *)
(** ** Collaborators, traces and the command monad *)

(** The configuration store, the clock and the remote service client, as
    one command invocation sees them. *)
Record World := {
  hasApiKey : bool;
  workspaceId : option string;
  billableByDefault : bool;
  now : Z;
  getCurrentUser : Result User;
  getTimeEntries : string -> string -> Result (list TimeEntry);
  getProjects : string -> Result (list Project);
  createProject : string -> ProjectRequest -> Result Project;
  startTimer : string -> TimeEntryRequest -> Result TimeEntry;
  stopTimer : string -> string -> Result TimeEntry;
  createTimeEntry : string -> TimeEntryRequest -> Result TimeEntry;
  updateTimeEntry : string -> string -> UpdateData -> Result TimeEntry
}.

Inductive Command := CmdStart | CmdStop | CmdStatus | CmdAdd | CmdEdit.

(** What a command writes to the console, one constructor per message (a
    message of several lines is one constructor carrying what it shows). *)
Inductive Message :=
| MsgBanner (c : Command)
| MsgAddBanner (duration : string)
| MsgNotAuthenticated
| MsgNoWorkspace
| MsgAlreadyRunning (running : TimeEntry)
| MsgProject (projectName : string)
| MsgCreatingProject (requested : string)
| MsgProjectCreated (projectName : string)
| MsgProjectCreationFailed (requested : string) (error : string)
| MsgTimerStarted (entry : TimeEntry)
| MsgNoTimerRunning
| MsgTimerStopped (entry : TimeEntry) (durationMinutes : JS.Num)
| MsgIdle
| MsgTodaySummary (entries : nat) (totalMinutes : JS.Num)
| MsgTimerRunning (entry : TimeEntry) (elapsedMinutes : JS.Num)
| MsgDuration (durationMinutes : Z)
| MsgProjectNotFound (c : Command) (requested : string)
| MsgEntryAdded (entry : TimeEntry) (durationMinutes : Z)
| MsgNoCompletedEntries
| MsgEntryNotFound (entryId : string)
| MsgEditingEntry (entryDescription : string)
| MsgNoChanges
| MsgEntryUpdated (changes : list string) (entry : TimeEntry)
    (durationMinutes : option JS.Num)
| MsgFailed (c : Command) (error : string).

Inductive Event :=
| Log (m : Message)
| CallGetCurrentUser
| CallGetTimeEntries (workspace user : string)
| CallGetProjects (workspace : string)
| CallCreateProject (workspace : string) (request : ProjectRequest)
| CallStartTimer (workspace : string) (request : TimeEntryRequest)
| CallStopTimer (workspace user : string)
| CallCreateTimeEntry (workspace : string) (request : TimeEntryRequest)
| CallUpdateTimeEntry (workspace entryId : string) (data : UpdateData).

(** How a block of statements completes. *)
Inductive Completion (A : Type) : Type :=
| Normal (a : A)
| Returned
| Exited (code : Z)
| Thrown (error : string).
Arguments Normal {A} a.
Arguments Returned {A}.
Arguments Exited {A} code.
Arguments Thrown {A} error.

Definition Cmd (A : Type) : Type := (list Event * Completion A)%type.

Definition pure {A} (a : A) : Cmd A := ([], Normal a).

Definition bind {A B} (m : Cmd A) (k : A -> Cmd B) : Cmd B :=
  match m with
  | (t, Normal a) => let (t', c) := k a in ((t ++ t')%list, c)
  | (t, Returned) => (t, Returned)
  | (t, Exited code) => (t, Exited code)
  | (t, Thrown e) => (t, Thrown e)
  end.

Declare Scope cmd_scope.
Delimit Scope cmd_scope with cmd.
Notation "x <- m ;; k" := (bind m (fun x => k))
  (at level 61, m at next level, right associativity) : cmd_scope.
Notation "m ;; k" := (bind m (fun _ => k))
  (at level 61, right associativity) : cmd_scope.
Open Scope cmd_scope.

(** [console.log(...)] *)
Definition log (m : Message) : Cmd unit := ([Log m], Normal tt).

(** [return;] *)
Definition ret {A} : Cmd A := ([], Returned).

(** [process.exit(code)] *)
Definition exit {A} (code : Z) : Cmd A := ([], Exited code).

(** [throw new Error(message)] (from the runtime or a collaborator). *)
Definition throw {A} (error : string) : Cmd A := ([], Thrown error).

(** [await] of a collaborator call: the call is recorded, a rejection is
    thrown. *)
Definition call {A} (e : Event) (r : Result A) : Cmd A :=
  match r with
  | Ok a => ([e], Normal a)
  | Err error => ([e], Thrown error)
  end.

(** [try { body } catch (error) { console.log(failed); process.exit(1) }]
    around the body of an [async] function returning nothing. *)
Definition tryCatch (c : Command) (body : Cmd unit) : Cmd unit :=
  match body with
  | (t, Thrown error) => ((t ++ [Log (MsgFailed c error)])%list, Exited 1)
  | (t, Normal _) => (t, Returned)
  | (t, Returned) => (t, Returned)
  | (t, Exited code) => (t, Exited code)
  end.

Definition trace {A} (c : Cmd A) : list Event := fst c.
Definition completion {A} (c : Cmd A) : Completion A := snd c.

(** [try { body } catch (error) { ... }] around a block whose failure the
    command recovers from: a thrown error becomes a value. *)
Definition attempt {A} (body : Cmd A) : Cmd (Result A) :=
  match body with
  | (t, Normal a) => (t, Normal (Ok a))
  | (t, Thrown error) => (t, Normal (Err error))
  | (t, Returned) => (t, Returned)
  | (t, Exited code) => (t, Exited code)
  end.

(* ================================================================= *)
(** ** The commands *)

Module timerCommands.
Section Commands.

Context {U : Utils} {R : Runtime}.

(** [entry => !entry.timeInterval.end] *)
Definition isOpen (entry : TimeEntry) : bool :=
  negb (JS.truthy (ti_end (timeInterval entry))).

(** [entries.find(entry => !entry.timeInterval.end)] (start, stop, status) *)
Definition runningEntry (entries : list TimeEntry) : option TimeEntry :=
  find isOpen entries.

(** [p => p.name.toLowerCase().includes(requested.toLowerCase()) ||
          p.id === requested] *)
Definition matchesProject (requested : string) (p : Project) : bool :=
  JS.includes (toLowerCase (project_name p)) (toLowerCase requested)
  || (project_id p =? requested)%string.

(** [projects.find(...)] (start, add, edit) *)
Definition findProject (projects : list Project) (requested : string)
  : option Project :=
  find (matchesProject requested) projects.

(** [new Date(value)] on what a property holds: a text is parsed, [null]
    converts to the number 0, the epoch, and [undefined] to NaN, an Invalid
    Date. *)
Definition newDate (value : JS.Value) : option Z :=
  match value with
  | JS.Text s => dateParse s
  | JS.Null => Some 0
  | JS.Undefined => None
  end.

(** [d.toISOString()], which throws a RangeError on an Invalid Date. *)
Definition isoString (d : option Z) : Cmd string :=
  match d with
  | Some t => pure (toISOString t)
  | None => throw "Invalid time value"
  end.

(** The anchor of a start or end time text on a reference date (add, and
    twice in edit):
    [const timeMatch = text.match(/^(\d{1,2}):(\d{2})$/);
     if (timeMatch) { d = new Date(reference);
                      d.setHours(parseInt(timeMatch[1]), parseInt(timeMatch[2]), 0, 0) }
     else { d = new Date(text) }] *)
Definition resolveAnchor (text : string) (reference : option Z) : option Z :=
  match JS.matchClock text with
  | Some (h, m) =>
      DateOps.setHours LocalTZA reference (JS.parseInt h) (JS.parseInt m) 0 0
  | None => dateParse text
  end.

(** [Math.round((end.getTime() - start.getTime()) / 60000)] of two texts
    ([None] where there is none: [new Date(undefined)]). *)
Definition minutesBetween (startText endText : option string) : JS.Num :=
  JS.roundMinutes
    (JS.sub (newDate (JS.ofText endText)) (newDate (JS.ofText startText))).

(** The same of an interval as the service returned it (stop, and the
    summary of status):
    [const startTime = new Date(entry.timeInterval.start);
     const endTime = new Date(entry.timeInterval.end!);
     Math.round((endTime.getTime() - startTime.getTime()) / 60000)] *)
Definition intervalMinutes (interval : TimeInterval) : JS.Num :=
  JS.roundMinutes
    (JS.sub (newDate (ti_endValue interval))
            (dateParse (ti_start interval))).

Definition withProjectId (r : TimeEntryRequest) (p : string)
  : TimeEntryRequest :=
  {| req_start := req_start r; req_end := req_end r;
     req_description := req_description r; req_billable := req_billable r;
     req_projectId := Some p |}.

(** [options.description ? sanitizeInput(options.description) : ''] *)
Definition requestDescription (options : Options) : string :=
  match JS.whenTruthy (opt_description options) with
  | Some d => sanitizeInput d
  | None => ""
  end.

(** [options.billable ?? configManager.get('billableByDefault')] *)
Definition requestBillable (w : World) (options : Options) : bool :=
  match opt_billable options with
  | Some b => b
  | None => billableByDefault w
  end.

(** The two precondition checks that open start, stop, add and edit. *)
Definition configured (w : World) : Cmd string :=
  (if hasApiKey w then pure tt else log MsgNotAuthenticated ;; exit 1) ;;
  match JS.whenTruthy (workspaceId w) with
  | Some ws => pure ws
  | None => log MsgNoWorkspace ;; exit 1
  end.

(** [if (options.project) { ... }] of start: the project is looked up and,
    when none matches, created; a failed creation is reported and the timer
    starts without a project. *)
Definition startProject (w : World) (ws : string) (options : Options)
    (timeEntry : TimeEntryRequest) : Cmd TimeEntryRequest :=
  match JS.whenTruthy (opt_project options) with
  | Some requested =>
      projects <- call (CallGetProjects ws) (getProjects w ws) ;;
      match findProject projects requested with
      | Some p =>
          log (MsgProject (project_name p)) ;;
          pure (withProjectId timeEntry (project_id p))
      | None =>
          log (MsgCreatingProject requested) ;;
          let spec :=
            {| pr_name := sanitizeInput requested;
               pr_isPublic := true;
               pr_billable := requestBillable w options;
               pr_color := "#4CAF50" |} in
          created <- attempt (call (CallCreateProject ws spec)
                                   (createProject w ws spec)) ;;
          match created with
          | Ok newProject =>
              log (MsgProjectCreated (project_name newProject)) ;;
              pure (withProjectId timeEntry (project_id newProject))
          | Err error =>
              log (MsgProjectCreationFailed requested error) ;;
              pure timeEntry
          end
      end
  | None => pure timeEntry
  end.

Definition start (w : World) (options : Options) : Cmd unit :=
  tryCatch CmdStart (
    log (MsgBanner CmdStart) ;;
    ws <- configured w ;;
    user <- call CallGetCurrentUser (getCurrentUser w) ;;
    currentEntries <- call (CallGetTimeEntries ws (user_id user))
                           (getTimeEntries w ws (user_id user)) ;;
    match runningEntry currentEntries with
    | Some running => log (MsgAlreadyRunning running) ;; ret
    | None =>
        let timeEntry :=
          {| req_start := toISOString (now w);
             req_end := None;
             req_description := requestDescription options;
             req_billable := requestBillable w options;
             req_projectId := None |} in
        timeEntry <- startProject w ws options timeEntry ;;
        entry <- call (CallStartTimer ws timeEntry) (startTimer w ws timeEntry) ;;
        log (MsgTimerStarted entry)
    end).

Definition stop (w : World) (options : Options) : Cmd unit :=
  tryCatch CmdStop (
    log (MsgBanner CmdStop) ;;
    ws <- configured w ;;
    user <- call CallGetCurrentUser (getCurrentUser w) ;;
    currentEntries <- call (CallGetTimeEntries ws (user_id user))
                           (getTimeEntries w ws (user_id user)) ;;
    match runningEntry currentEntries with
    | None => log MsgNoTimerRunning ;; ret
    | Some _ =>
        stoppedEntry <- call (CallStopTimer ws (user_id user))
                             (stopTimer w ws (user_id user)) ;;
        let durationMinutes := intervalMinutes (timeInterval stoppedEntry) in
        log (MsgTimerStopped stoppedEntry durationMinutes)
    end).

(** The filter of today's summary:
    [entry => entry.timeInterval.start.split('T')[0] === today &&
              entry.timeInterval.end] *)
Definition closedToday (today : string) (entry : TimeEntry) : bool :=
  (JS.beforeT (ti_start (timeInterval entry)) =? today)%string
  && JS.truthy (ti_end (timeInterval entry)).

(** The reduction of today's summary:
    [todayEntries.reduce((total, entry) => total + Math.round(duration / 60000), 0)] *)
Definition totalMinutes (todayEntries : list TimeEntry) : JS.Num :=
  fold_left
    (fun total entry => JS.add total (intervalMinutes (timeInterval entry)))
    todayEntries (Some 0).

Definition status (w : World) (options : Options) : Cmd unit :=
  tryCatch CmdStatus (
    log (MsgBanner CmdStatus) ;;
    (if hasApiKey w then pure tt else log MsgNotAuthenticated ;; ret) ;;
    ws <- match JS.whenTruthy (workspaceId w) with
          | Some ws => pure ws
          | None => log MsgNoWorkspace ;; ret
          end ;;
    user <- call CallGetCurrentUser (getCurrentUser w) ;;
    currentEntries <- call (CallGetTimeEntries ws (user_id user))
                           (getTimeEntries w ws (user_id user)) ;;
    match runningEntry currentEntries with
    | None =>
        log MsgIdle ;;
        let today := JS.beforeT (toISOString (now w)) in
        let todayEntries := filter (closedToday today) currentEntries in
        (if (0 <? List.length todayEntries)%nat
         then log (MsgTodaySummary (List.length todayEntries)
                                   (totalMinutes todayEntries))
         else pure tt) ;;
        ret
    | Some running =>
        let startTime := dateParse (ti_start (timeInterval running)) in
        let elapsed := JS.sub (Some (now w)) startTime in
        log (MsgTimerRunning running (JS.roundMinutes elapsed))
    end).

(** [new Date(number)]: the time value is the number clipped, NaN for NaN. *)
Definition newDateNumber (number : JS.Num) : option Z :=
  match number with
  | Some t => DateOps.TimeClip t
  | None => None
  end.

(** The start and end of a manual entry: from the start time text when there
    is one, else ending now. *)
Definition addInterval (w : World) (options : Options) (durationMinutes : Z)
  : option Z * option Z :=
  match JS.whenTruthy (opt_startTime options) with
  | Some text =>
      let startTime := resolveAnchor text (Some (now w)) in
      (startTime,
       newDateNumber (JS.add startTime (Some (durationMinutes * 60000))))
  | None =>
      let endTime := Some (now w) in
      (newDateNumber (JS.sub endTime (Some (durationMinutes * 60000))),
       endTime)
  end.

(** [if (options.project) { ... }] of add: the project is looked up; when
    none matches the entry is added without a project. *)
Definition addProject (w : World) (ws : string) (options : Options)
    (timeEntry : TimeEntryRequest) : Cmd TimeEntryRequest :=
  match JS.whenTruthy (opt_project options) with
  | Some requested =>
      projects <- call (CallGetProjects ws) (getProjects w ws) ;;
      match findProject projects requested with
      | Some p =>
          log (MsgProject (project_name p)) ;;
          pure (withProjectId timeEntry (project_id p))
      | None =>
          log (MsgProjectNotFound CmdAdd requested) ;;
          pure timeEntry
      end
  | None => pure timeEntry
  end.

Definition add (w : World) (duration : string) (options : Options) : Cmd unit :=
  tryCatch CmdAdd (
    log (MsgAddBanner duration) ;;
    ws <- configured w ;;
    durationMinutes <- match parseDuration duration with
                       | Ok minutes => pure minutes
                       | Err error => throw error
                       end ;;
    log (MsgDuration durationMinutes) ;;
    let (startTime, endTime) := addInterval w options durationMinutes in
    startText <- isoString startTime ;;
    endText <- isoString endTime ;;
    let timeEntry :=
      {| req_start := startText;
         req_end := Some endText;
         req_description := requestDescription options;
         req_billable := requestBillable w options;
         req_projectId := None |} in
    timeEntry <- addProject w ws options timeEntry ;;
    entry <- call (CallCreateTimeEntry ws timeEntry)
                  (createTimeEntry w ws timeEntry) ;;
    log (MsgEntryAdded entry durationMinutes)).

(** [entries.filter(entry => entry.timeInterval.end)] *)
Definition completedEntries (entries : list TimeEntry) : list TimeEntry :=
  filter (fun entry => JS.truthy (ti_end (timeInterval entry))) entries.

(** The target of an edit: the first completed entry for ["last"] (in any
    letter case), else the entry of that id. *)
Definition findTarget (entries : list TimeEntry) (entryId : string)
  : Cmd (option TimeEntry) :=
  if (toLowerCase entryId =? "last")%string then
    match completedEntries entries with
    | [] => log MsgNoCompletedEntries ;; ret
    | first :: _ => pure (Some first)
    end
  else
    pure (find (fun entry => (entry_id entry =? entryId)%string) entries).

(** [updateData], seeded with the current values; the optional keys are set
    only when the entry's value is truthy.  [targetEntry.description || '']
    and [targetEntry.tagIds || []] are the entry's own values: both fields
    are always there in the data model, the empty text falls back to the
    empty text, and an array is truthy. *)
Definition seedUpdate (targetEntry : TimeEntry) : UpdateData :=
  {| upd_start := ti_start (timeInterval targetEntry);
     upd_description := description targetEntry;
     upd_billable := billable targetEntry;
     upd_tagIds := tagIds targetEntry;
     upd_end := JS.whenTruthy (ti_end (timeInterval targetEntry));
     upd_projectId := JS.whenTruthy (projectId targetEntry);
     upd_taskId := JS.whenTruthy (taskId targetEntry) |}.

Definition setDescription (d : UpdateData) (v : string) : UpdateData :=
  {| upd_start := upd_start d; upd_description := v;
     upd_billable := upd_billable d; upd_tagIds := upd_tagIds d;
     upd_end := upd_end d; upd_projectId := upd_projectId d;
     upd_taskId := upd_taskId d |}.

Definition setBillable (d : UpdateData) (v : bool) : UpdateData :=
  {| upd_start := upd_start d; upd_description := upd_description d;
     upd_billable := v; upd_tagIds := upd_tagIds d;
     upd_end := upd_end d; upd_projectId := upd_projectId d;
     upd_taskId := upd_taskId d |}.

Definition setProjectId (d : UpdateData) (v : string) : UpdateData :=
  {| upd_start := upd_start d; upd_description := upd_description d;
     upd_billable := upd_billable d; upd_tagIds := upd_tagIds d;
     upd_end := upd_end d; upd_projectId := Some v;
     upd_taskId := upd_taskId d |}.

Definition setStart (d : UpdateData) (v : string) : UpdateData :=
  {| upd_start := v; upd_description := upd_description d;
     upd_billable := upd_billable d; upd_tagIds := upd_tagIds d;
     upd_end := upd_end d; upd_projectId := upd_projectId d;
     upd_taskId := upd_taskId d |}.

Definition setEnd (d : UpdateData) (v : string) : UpdateData :=
  {| upd_start := upd_start d; upd_description := upd_description d;
     upd_billable := upd_billable d; upd_tagIds := upd_tagIds d;
     upd_end := Some v; upd_projectId := upd_projectId d;
     upd_taskId := upd_taskId d |}.

(** The state of the edit while the options are applied: [updateData] and
    [changes]. *)
Definition Draft : Type := (UpdateData * list string)%type.

(** [if (options.description !== undefined) { ... }] *)
Definition applyDescription (options : Options) (s : Draft) : Cmd Draft :=
  match opt_description options with
  | Some d =>
      pure (setDescription (fst s) (sanitizeInput d),
            (snd s ++ ["description"])%list)
  | None => pure s
  end.

(** [if (options.billable !== undefined) { ... }] *)
Definition applyBillable (options : Options) (s : Draft) : Cmd Draft :=
  match opt_billable options with
  | Some b =>
      pure (setBillable (fst s) b,
            (snd s ++ [if b then "marked billable" else "marked non-billable"])%list)
  | None => pure s
  end.

(** [if (options.project) { ... }] *)
Definition applyProject (w : World) (ws : string) (options : Options)
    (s : Draft) : Cmd Draft :=
  match JS.whenTruthy (opt_project options) with
  | Some requested =>
      projects <- call (CallGetProjects ws) (getProjects w ws) ;;
      match findProject projects requested with
      | Some p =>
          pure (setProjectId (fst s) (project_id p),
                (snd s ++ [("project → " ++ project_name p)%string])%list)
      | None =>
          log (MsgProjectNotFound CmdEdit requested) ;;
          pure s
      end
  | None => pure s
  end.

(** [if (options.startTime) { ... }]: the reference date is the entry's
    start. *)
Definition applyStartTime (targetEntry : TimeEntry) (options : Options)
    (s : Draft) : Cmd Draft :=
  match JS.whenTruthy (opt_startTime options) with
  | Some text =>
      let reference := dateParse (ti_start (timeInterval targetEntry)) in
      startText <- isoString (resolveAnchor text reference) ;;
      pure (setStart (fst s) startText, (snd s ++ ["start time"])%list)
  | None => pure s
  end.

(** [if (options.endTime) { ... }]: the reference date is
    [new Date(targetEntry.timeInterval.end || new Date())]. *)
Definition applyEndTime (w : World) (targetEntry : TimeEntry)
    (options : Options) (s : Draft) : Cmd Draft :=
  match JS.whenTruthy (opt_endTime options) with
  | Some text =>
      let reference :=
        match JS.whenTruthy (ti_end (timeInterval targetEntry)) with
        | Some endText => dateParse endText
        | None => Some (now w)
        end in
      endText <- isoString (resolveAnchor text reference) ;;
      pure (setEnd (fst s) endText, (snd s ++ ["end time"])%list)
  | None => pure s
  end.

(** The update request and the change list of an edit: the current values,
    then the options applied in the order description, billable, project,
    start time, end time. *)
Definition buildUpdate (w : World) (ws : string) (targetEntry : TimeEntry)
    (options : Options) : Cmd Draft :=
  s <- applyDescription options (seedUpdate targetEntry, []) ;;
  s <- applyBillable options s ;;
  s <- applyProject w ws options s ;;
  s <- applyStartTime targetEntry options s ;;
  applyEndTime w targetEntry options s.

(** What edit does once its target is found. *)
Definition editTarget (w : World) (ws : string) (targetEntry : TimeEntry)
    (options : Options) : Cmd unit :=
  log (MsgEditingEntry (description targetEntry)) ;;
  s <- buildUpdate w ws targetEntry options ;;
  let (updateData, changes) := s in
  match changes with
  | [] => log MsgNoChanges ;; ret
  | _ :: _ =>
      updatedEntry <-
        call (CallUpdateTimeEntry ws (entry_id targetEntry) updateData)
             (updateTimeEntry w ws (entry_id targetEntry) updateData) ;;
      let interval := timeInterval updatedEntry in
      let durationMinutes :=
        match JS.whenTruthy (ti_end interval) with
        | Some endText =>
            Some (minutesBetween (Some (ti_start interval)) (Some endText))
        | None => None
        end in
      log (MsgEntryUpdated changes updatedEntry durationMinutes)
  end.

Definition edit (w : World) (entryId : string) (options : Options)
  : Cmd unit :=
  tryCatch CmdEdit (
    log (MsgBanner CmdEdit) ;;
    ws <- configured w ;;
    user <- call CallGetCurrentUser (getCurrentUser w) ;;
    entries <- call (CallGetTimeEntries ws (user_id user))
                    (getTimeEntries w ws (user_id user)) ;;
    found <- findTarget entries entryId ;;
    match found with
    | None => log (MsgEntryNotFound entryId) ;; ret
    | Some targetEntry => editTarget w ws targetEntry options
    end).

End Commands.
End timerCommands.

(* ================================================================= *)
(** ** Reference instances of the imported operations *)

(** [toLowerCase] on texts of ASCII characters, where it folds the letters
    [A] to [Z] and keeps every other character. *)
Module AsciiText.

Definition lowerChar (c : ascii) : ascii :=
  let n := nat_of_ascii c in
  if ((65 <=? n) && (n <=? 90))%nat then ascii_of_nat (n + 32) else c.

Fixpoint toLowerCase (s : string) : string :=
  match s with
  | EmptyString => EmptyString
  | String c s' => String (lowerChar c) (toLowerCase s')
  end.

End AsciiText.

Module SpecUtils.

(** A control character: below the space, or DEL. *)
Definition isControl (c : ascii) : bool :=
  let n := nat_of_ascii c in ((n <? 32) || (n =? 127))%nat.

(** Modelled from the spec: [sanitizeInput] of [../lib/utils], which is not
    among the sources (section 3: a description is "sanitized to strip
    control characters"). *)
Fixpoint stripControl (s : string) : string :=
  match s with
  | EmptyString => EmptyString
  | String c s' =>
      if isControl c then stripControl s' else String c (stripControl s')
  end.

Definition isSpace (c : ascii) : bool :=
  let n := nat_of_ascii c in ((n =? 32) || ((9 <=? n) && (n <=? 13)))%nat.

Fixpoint trimLeft (s : string) : string :=
  match s with
  | EmptyString => EmptyString
  | String c s' => if isSpace c then trimLeft s' else s
  end.

Fixpoint trimRight (s : string) : string :=
  match s with
  | EmptyString => EmptyString
  | String c s' =>
      let r := trimRight s' in
      if isSpace c && (r =? "")%string then EmptyString else String c r
  end.

(** The leading digits of a text, and what follows them. *)
Fixpoint takeDigits (s : string) : string * string :=
  match s with
  | EmptyString => (EmptyString, EmptyString)
  | String c s' =>
      if JS.isDigit c
      then let (d, r) := takeDigits s' in (String c d, r)
      else (EmptyString, s)
  end.

Definition invalidDuration {A} : Result A := Err "Invalid duration format".

(** Modelled from the spec: [parseDuration] of [../lib/utils], which is not
    among the sources (section 4.1: the shapes [<int>h<int>m], [<int>h],
    [<int>m] and a bare integer of minutes; surrounding whitespace ignored,
    unit letters in either case; anything else fails with
    [InvalidDurationFormat]). *)
Definition parseDurationText (text : string) : Result Z :=
  let s := AsciiText.toLowerCase (trimRight (trimLeft text)) in
  let (d1, r1) := takeDigits s in
  if (d1 =? "")%string then invalidDuration else
  match r1 with
  | EmptyString => Ok (JS.parseInt d1)
  | String "m" EmptyString => Ok (JS.parseInt d1)
  | String "h" EmptyString => Ok (60 * JS.parseInt d1)
  | String "h" r2 =>
      let (d2, r3) := takeDigits r2 in
      if negb (d2 =? "")%string && (r3 =? "m")%string
      then Ok (60 * JS.parseInt d1 + JS.parseInt d2)
      else invalidDuration
  | _ => invalidDuration
  end.

#[export] Instance utils : Utils :=
  {| sanitizeInput := stripControl; parseDuration := parseDurationText |}.

End SpecUtils.

(** The ISO 8601 texts of the runtime: [toISOString], and the parser
    restricted to the UTC date-time form the remote service and
    [toISOString] produce ([YYYY-MM-DDTHH:mm:ss] with optional [.sss], then
    [Z]); other texts are an Invalid Date in this instance.  With a year of
    four digits every such time is within the range of a Date.  The texts
    are ASCII. *)
Module Iso8601.

(** The civil date (year, month, day) of a day number counted from the
    epoch, in the proleptic Gregorian calendar. *)
Definition civilFromDays (days : Z) : Z * Z * Z :=
  let z := days + 719468 in
  let era := z / 146097 in
  let doe := z - era * 146097 in
  let yoe := (doe - doe / 1460 + doe / 36524 - doe / 146096) / 365 in
  let doy := doe - (365 * yoe + yoe / 4 - yoe / 100) in
  let mp := (5 * doy + 2) / 153 in
  let d := doy - (153 * mp + 2) / 5 + 1 in
  let m := if mp <? 10 then mp + 3 else mp - 9 in
  let y := yoe + era * 400 + (if m <=? 2 then 1 else 0) in
  (y, m, d).

Definition daysFromCivil (y m d : Z) : Z :=
  let y' := if m <=? 2 then y - 1 else y in
  let era := y' / 400 in
  let yoe := y' - era * 400 in
  let mp := if 2 <? m then m - 3 else m + 9 in
  let doy := (153 * mp + 2) / 5 + d - 1 in
  let doe := yoe * 365 + yoe / 4 - yoe / 100 + doy in
  era * 146097 + doe - 719468.

Definition digitChar (v : Z) : ascii := ascii_of_nat (48 + Z.to_nat (v mod 10)).

(** The last [width] decimal digits of [v], zero padded. *)
Fixpoint digits (width : nat) (v : Z) : string :=
  match width with
  | O => EmptyString
  | S n => (digits n (v / 10) ++ String (digitChar v) EmptyString)%string
  end.

Definition yearText (y : Z) : string :=
  if (0 <=? y) && (y <=? 9999) then digits 4 y
  else if y <? 0 then ("-" ++ digits 6 (- y))%string
  else ("+" ++ digits 6 y)%string.

(** [YYYY-MM-DD] *)
Definition dateText (date : Z * Z * Z) : string :=
  let '(y, m, d) := date in
  (yearText y ++ "-" ++ digits 2 m ++ "-" ++ digits 2 d)%string.

(** [HH:mm:ss.sssZ] *)
Definition timeText (t : Z) : string :=
  (digits 2 (DateOps.HourFromTime t) ++ ":"
   ++ digits 2 (DateOps.MinFromTime t) ++ ":"
   ++ digits 2 (DateOps.SecFromTime t) ++ "."
   ++ digits 3 (DateOps.msFromTime t) ++ "Z")%string.

(** The UTC date of an instant. *)
Definition utcDate (t : Z) : Z * Z * Z := civilFromDays (DateOps.Day t).

Definition utcYear (t : Z) : Z := fst (fst (utcDate t)).

Definition toISOStringZ (t : Z) : string :=
  (dateText (utcDate t) ++ "T" ++ timeText t)%string.

(** No character of the text is a [T]. *)
Fixpoint noT (s : string) : bool :=
  match s with
  | EmptyString => true
  | String c s' => negb (c =? "T")%char && noT s'
  end.

Definition allDigits (s : string) : bool :=
  (fix go (s : string) : bool :=
     match s with
     | EmptyString => true
     | String c s' => JS.isDigit c && go s'
     end) s.

(** A field of [n] digits at offset [i] of [s]. *)
Definition field (s : string) (i n : nat) : option Z :=
  let f := substring i n s in
  if (String.length f =? n)%nat && allDigits f then Some (JS.parseInt f)
  else None.

Definition separatorsOk (s : string) : bool :=
  (substring 4 1 s =? "-")%string && (substring 7 1 s =? "-")%string
  && (substring 10 1 s =? "T")%string && (substring 13 1 s =? ":")%string
  && (substring 16 1 s =? ":")%string.

Definition dateParseText (s : string) : option Z :=
  match field s 0 4, field s 5 2, field s 8 2,
        field s 11 2, field s 14 2, field s 17 2 with
  | Some y, Some m, Some d, Some hh, Some mm, Some ss =>
      let inRange :=
        (1 <=? m) && (m <=? 12) && (1 <=? d) && (d <=? 31)
        && (hh <=? 23) && (mm <=? 59) && (ss <=? 59) in
      let base :=
        DateOps.MakeDate (daysFromCivil y m d) (DateOps.MakeTime hh mm ss 0) in
      if negb (separatorsOk s && inRange) then None
      else if (substring 19 (String.length s) s =? "Z")%string then Some base
      else
        match field s 20 3 with
        | Some ms =>
            if (substring 19 1 s =? ".")%string
               && (substring 23 (String.length s) s =? "Z")%string
            then Some (base + ms)
            else None
        | None => None
        end
  | _, _, _, _, _, _ => None
  end.

(** The runtime in a zone given by its offsets. *)
Definition runtimeIn (zone : Z -> bool -> Z) : Runtime :=
  {| dateParse := dateParseText;
     toISOString := toISOStringZ;
     LocalTZA := zone;
     toLowerCase := AsciiText.toLowerCase |}.

(** The runtime with the zone at [offsetMinutes] east of UTC all year. *)
Definition runtime (offsetMinutes : Z) : Runtime :=
  runtimeIn (fun _ _ => offsetMinutes * DateOps.msPerMinute).

(** Central European time in 2024: one hour east of UTC, two hours from 31
    March, 01:00 UTC, to 27 October, 01:00 UTC.  At a local time value the
    offset is the one before the transition for a time that the transition
    skips (31 March, 02:00 to 03:00) or repeats (27 October, 02:00 to
    03:00), as ECMAScript has it. *)
Definition summerFrom : Z := 1711846800000.
Definition summerUntil : Z := 1729990800000.

Definition centralEuropean (t : Z) (isUTC : bool) : Z :=
  let shift := if isUTC then 0 else 2 * DateOps.msPerHour in
  if t <? summerFrom + shift then DateOps.msPerHour
  else if t <? summerUntil + shift then 2 * DateOps.msPerHour
  else DateOps.msPerHour.

End Iso8601.

(* ================================================================= *)
(** ** The specification's words *)

Module Spec.
Section Words.

Context {U : Utils} {R : Runtime}.

(** A closed entry: its interval's end holds a timestamp. *)
Definition closed (entry : TimeEntry) : bool :=
  JS.truthy (ti_end (timeInterval entry)).

(** The calendar day of an ISO 8601 text is its date part, the text before
    the [T]. *)
Definition calendarDay (text : string) : string := JS.beforeT text.

Definition startsOnDayOf (instant : Z) (entry : TimeEntry) : bool :=
  (calendarDay (ti_start (timeInterval entry))
   =? calendarDay (toISOString instant))%string.

(** [round((end - start) / 60000)] of one entry. *)
Definition entryMinutes (entry : TimeEntry) : JS.Num :=
  JS.roundMinutes
    (JS.sub (timerCommands.newDate (JS.ofText (ti_end (timeInterval entry))))
            (dateParse (ti_start (timeInterval entry)))).

Definition sum (l : list JS.Num) : JS.Num := fold_right JS.add (Some 0) l.

(** The closed entries that start on the calendar day of [instant]. *)
Definition closedOnDayOf (instant : Z) (entries : list TimeEntry)
  : list TimeEntry :=
  filter (fun entry => closed entry && startsOnDayOf instant entry) entries.

(** Today's total: the sum of the entries' rounded minutes. *)
Definition todayTotal (instant : Z) (entries : list TimeEntry) : JS.Num :=
  sum (map entryMinutes (closedOnDayOf instant entries)).

(** [s] contains [sub]. *)
Definition contains (s sub : string) : Prop :=
  exists before after, s = (before ++ sub ++ after)%string.

(** The project's name contains the requested text, letter case ignored, or
    its id is the requested text. *)
Definition matches (requested : string) (p : Project) : Prop :=
  contains (toLowerCase (project_name p)) (toLowerCase requested)
  \/ project_id p = requested.

(** [x] is the first element of [l] that satisfies [P]. *)
Definition firstSuchThat {A} (P : A -> Prop) (l : list A) (x : A) : Prop :=
  exists before after,
    l = (before ++ x :: after)%list /\ P x /\ Forall (fun y => ~ P y) before.

End Words.
End Spec.

(** Which collaborator operation an event is a call of. *)
Definition isStartTimerCall (e : Event) : bool :=
  match e with CallStartTimer _ _ => true | _ => false end.

Definition isUpdateCall (e : Event) : bool :=
  match e with CallUpdateTimeEntry _ _ _ => true | _ => false end.

Definition isCreateEntryCall (e : Event) : bool :=
  match e with CallCreateTimeEntry _ _ => true | _ => false end.

(** An entry with its interval's end removed. *)
Definition withoutEnd (entry : TimeEntry) : TimeEntry :=
  {| entry_id := entry_id entry; description := description entry;
     billable := billable entry; tagIds := tagIds entry;
     projectId := projectId entry; taskId := taskId entry;
     project := project entry; task := task entry;
     timeInterval := {| ti_start := ti_start (timeInterval entry);
                        ti_endValue := JS.Undefined |} |}.


(** Options with one override. *)
Definition descriptionOnly (text : string) : Options :=
  {| opt_description := Some text; opt_billable := None; opt_project := None;
     opt_startTime := None; opt_endTime := None |}.

Definition projectOnly (requested : string) : Options :=
  {| opt_description := None; opt_billable := None;
     opt_project := Some requested;
     opt_startTime := None; opt_endTime := None |}.

(* ================================================================= *)
(** ** Sample data *)

Module Sample.

Definition entry (id text : string) (startText : string)
    (endText : option string) : TimeEntry :=
  {| entry_id := id; description := text; billable := true;
     tagIds := ["tag1"]; projectId := Some "p1"; taskId := None;
     project := Some {| name := "Alpha" |}; task := None;
     timeInterval := {| ti_start := startText;
                        ti_endValue := JS.ofText endText |} |}.

Definition report : TimeEntry :=
  entry "e1" "Write report" "2023-11-14T09:00:00Z" (Some "2023-11-14T10:30:00Z").

Definition review : TimeEntry :=
  entry "e2" "Review" "2023-11-14T11:00:00Z" (Some "2023-11-14T11:00:30Z").

Definition standup : TimeEntry :=
  entry "e3" "Standup" "2023-11-14T11:30:00Z" (Some "2023-11-14T11:30:30Z").

Definition yesterday : TimeEntry :=
  entry "e4" "Planning" "2023-11-13T15:00:00Z" (Some "2023-11-13T16:00:00Z").

Definition running : TimeEntry :=
  entry "e5" "Coding" "2023-11-14T21:00:00Z" None.

Definition emptyEnd : TimeEntry :=
  entry "e6" "Coding" "2023-11-14T21:00:00Z" (Some "").

Definition alpha : Project := {| project_id := "p1"; project_name := "Alpha" |}.
Definition alphabet : Project :=
  {| project_id := "p2"; project_name := "The Alphabet" |}.
Definition beta : Project := {| project_id := "p3"; project_name := "Beta" |}.

Definition created (request : TimeEntryRequest) : TimeEntry :=
  {| entry_id := "e9"; description := req_description request;
     billable := req_billable request; tagIds := [];
     projectId := req_projectId request; taskId := None;
     project := None; task := None;
     timeInterval := {| ti_start := req_start request;
                        ti_endValue := JS.ofText (req_end request) |} |}.

Definition updated (id : string) (data : UpdateData) : TimeEntry :=
  {| entry_id := id; description := upd_description data;
     billable := upd_billable data; tagIds := upd_tagIds data;
     projectId := upd_projectId data; taskId := upd_taskId data;
     project := None; task := None;
     timeInterval := {| ti_start := upd_start data;
                        ti_endValue := JS.ofText (upd_end data) |} |}.

(** 2023-11-14T22:13:20.000Z *)
Definition clock : Z := 1700000000000.

(** An authenticated invocation in workspace [ws1] by user [u1], against a
    service that holds [entries] and [projects] and accepts every write. *)
Definition world (entries : list TimeEntry) (projects : list Project) : World :=
  {| hasApiKey := true;
     workspaceId := Some "ws1";
     billableByDefault := false;
     now := clock;
     getCurrentUser := Ok {| user_id := "u1" |};
     getTimeEntries := fun _ _ => Ok entries;
     getProjects := fun _ => Ok projects;
     createProject := fun _ request =>
       Ok {| project_id := "p9"; project_name := pr_name request |};
     startTimer := fun _ request => Ok (created request);
     stopTimer := fun _ _ => Ok report;
     createTimeEntry := fun _ request => Ok (created request);
     updateTimeEntry := fun _ id data => Ok (updated id data) |}.

(** The zone one hour east of UTC. *)
Definition zone : Runtime := Iso8601.runtime 60.

(** Central European time, with its transitions of 2024. *)
Definition berlin : Runtime := Iso8601.runtimeIn Iso8601.centralEuropean.

End Sample.

(* ================================================================= *)
(** ** Preconditions of a command *)

(** A command that is authenticated, has a workspace and whose first two
    collaborator calls succeed. *)
Definition ready (w : World) (ws : string) (user : User)
    (entries : list TimeEntry) : Prop :=
  hasApiKey w = true
  /\ JS.whenTruthy (workspaceId w) = Some ws
  /\ getCurrentUser w = Ok user
  /\ getTimeEntries w ws (user_id user) = Ok entries.

(** The trace up to the entries being fetched. *)
Definition fetched (c : Command) (ws : string) (user : User) : list Event :=
  [Log (MsgBanner c); CallGetCurrentUser; CallGetTimeEntries ws (user_id user)].

Ltac use_ready H :=
  destruct H as (?Hkey & ?Hws & ?Huser & ?Hentries);
  unfold timerCommands.configured;
  repeat match goal with
         | E : hasApiKey _ = _ |- _ => rewrite E
         | E : JS.whenTruthy (workspaceId _) = _ |- _ => rewrite E
         | E : getCurrentUser _ = _ |- _ => rewrite E
         end;
  simpl;
  repeat match goal with
         | E : getTimeEntries _ _ _ = _ |- _ => rewrite E
         end;
  simpl.

(* ================================================================= *)
(** ** What a whole command may do *)

Definition isLog (e : Event) : bool :=
  match e with Log _ => true | _ => false end.

Definition isStopTimerCall (e : Event) : bool :=
  match e with CallStopTimer _ _ => true | _ => false end.

Definition isCreateProjectCall (e : Event) : bool :=
  match e with CallCreateProject _ _ => true | _ => false end.

Definition isGetProjectsCall (e : Event) : bool :=
  match e with CallGetProjects _ => true | _ => false end.

(** The two calls every command but add opens with. *)
Definition isFetchCall (e : Event) : bool :=
  match e with
  | CallGetCurrentUser | CallGetTimeEntries _ _ => true
  | _ => false
  end.

(** The calls that change what the remote service holds. *)
Definition isWriteCall (e : Event) : bool :=
  match e with
  | CallCreateProject _ _ | CallStartTimer _ _ | CallStopTimer _ _
  | CallCreateTimeEntry _ _ | CallUpdateTimeEntry _ _ _ => true
  | _ => false
  end.

(** The messages that come with a non-zero exit status. *)
Definition isFailure (m : Message) : bool :=
  match m with
  | MsgNotAuthenticated | MsgNoWorkspace | MsgFailed _ _ => true
  | _ => false
  end.

(** The last thing on the trace is a failure message. *)
Definition endsWithFailure (t : list Event) : Prop :=
  exists before m, t = (before ++ [Log m])%list /\ isFailure m = true.

(** A block whose every event satisfies [P], whose value satisfies [Q] when
    it completes normally, and which exits, if it does, with status 1 after
    a failure message. *)
Definition Satisfies {A} (P : Event -> Prop) (Q : A -> Prop) (m : Cmd A)
  : Prop :=
  Forall P (trace m)
  /\ (forall a, completion m = Normal a -> Q a)
  /\ (forall code, completion m = Exited code ->
                   code = 1 /\ endsWithFailure (trace m)).

(** The project an edit selects, if any: the lookup of a truthy override in
    the projects the service answers with. *)
Definition selectedProject {R : Runtime} (w : World) (ws : string)
    (options : Options) : option Project :=
  match JS.whenTruthy (opt_project options) with
  | Some requested =>
      match getProjects w ws with
      | Ok projects => timerCommands.findProject projects requested
      | Err _ => None
      end
  | None => None
  end.

(** The labels of the changes an edit makes, in the order of the command:
    description, billable, project, start time, end time. *)
Definition changeLabels (options : Options) (selected : option Project)
  : list string :=
  ((match opt_description options with
    | Some _ => ["description"]
    | None => []
    end)
   ++ (match opt_billable options with
       | Some b => [if b then "marked billable" else "marked non-billable"]
       | None => []
       end)
   ++ (match selected with
       | Some p => [("project → " ++ project_name p)%string]
       | None => []
       end)
   ++ (if JS.truthy (opt_startTime options) then ["start time"] else [])
   ++ (if JS.truthy (opt_endTime options) then ["end time"] else []))%list.

(** *** What each command's events may be *)

(** The events of start: messages, the two fetches, the project lookup; a
    project creation only for a truthy override the lookup did not find; a
    [startTimer] only for an open entry stamped now, after a fetch that
    showed no open entry. *)
Definition startEvent {U : Utils} {R : Runtime}
    (w : World) (options : Options) (e : Event) : Prop :=
  match e with
  | Log _ | CallGetCurrentUser | CallGetTimeEntries _ _ | CallGetProjects _ =>
      True
  | CallCreateProject ws request =>
      exists requested projects,
        JS.whenTruthy (opt_project options) = Some requested
        /\ getProjects w ws = Ok projects
        /\ timerCommands.findProject projects requested = None
        /\ request = {| pr_name := sanitizeInput requested;
                        pr_isPublic := true;
                        pr_billable := timerCommands.requestBillable w options;
                        pr_color := "#4CAF50" |}
  | CallStartTimer ws request =>
      JS.whenTruthy (workspaceId w) = Some ws
      /\ req_start request = toISOString (now w)
      /\ req_end request = None
      /\ req_description request = timerCommands.requestDescription options
      /\ req_billable request = timerCommands.requestBillable w options
      /\ exists user entries,
           getCurrentUser w = Ok user
           /\ getTimeEntries w ws (user_id user) = Ok entries
           /\ timerCommands.runningEntry entries = None
  | _ => False
  end.

(** The events of stop: messages, the two fetches, and a [stopTimer] for the
    fetched user only after a fetch that showed an open entry. *)
Definition stopEvent (w : World) (e : Event) : Prop :=
  match e with
  | Log _ | CallGetCurrentUser | CallGetTimeEntries _ _ => True
  | CallStopTimer ws userId =>
      exists user entries running,
        JS.whenTruthy (workspaceId w) = Some ws
        /\ getCurrentUser w = Ok user
        /\ userId = user_id user
        /\ getTimeEntries w ws userId = Ok entries
        /\ timerCommands.runningEntry entries = Some running
  | _ => False
  end.

(** The events of add: messages, the project lookup, and the creation of a
    closed entry that lasts the parsed duration. *)
Definition addEvent {U : Utils} {R : Runtime}
    (w : World) (duration : string) (options : Options) (e : Event) : Prop :=
  match e with
  | Log _ | CallGetProjects _ => True
  | CallCreateTimeEntry ws request =>
      exists d s,
        JS.whenTruthy (workspaceId w) = Some ws
        /\ parseDuration duration = Ok d
        /\ req_start request = toISOString s
        /\ req_end request = Some (toISOString (s + d * DateOps.msPerMinute))
        /\ req_description request = timerCommands.requestDescription options
        /\ req_billable request = timerCommands.requestBillable w options
  | _ => False
  end.

(** The events of edit: messages, the two fetches, the project lookup, and
    an update of a fetched entry: the one of the given id, or a completed one
    for "last". *)
Definition editEvent {R : Runtime} (w : World) (entryId : string)
    (e : Event) : Prop :=
  match e with
  | Log _ | CallGetCurrentUser | CallGetTimeEntries _ _ | CallGetProjects _ =>
      True
  | CallUpdateTimeEntry ws id data =>
      exists user entries target,
        JS.whenTruthy (workspaceId w) = Some ws
        /\ getCurrentUser w = Ok user
        /\ getTimeEntries w ws (user_id user) = Ok entries
        /\ In target entries
        /\ entry_id target = id
        /\ (toLowerCase entryId <> "last" -> id = entryId)
        /\ (toLowerCase entryId = "last" -> Spec.closed target = true)
        /\ upd_tagIds data = tagIds target
        /\ upd_taskId data = JS.whenTruthy (taskId target)
  | _ => False
  end.

(** What the request and the change list of an edit are when the builder
    completes: the change labels in the command's order; tag ids and task id
    as on the entry; each other field from its override when there is one,
    else as on the entry (an optional field only when truthy there). *)
Definition Edited {U : Utils} {R : Runtime}
    (w : World) (ws : string) (target : TimeEntry) (options : Options)
    (s : UpdateData * list string) : Prop :=
  let selected := selectedProject w ws options in
  snd s = changeLabels options selected
  /\ upd_tagIds (fst s) = tagIds target
  /\ upd_taskId (fst s) = JS.whenTruthy (taskId target)
  /\ upd_description (fst s)
     = match opt_description options with
       | Some d => sanitizeInput d
       | None => description target
       end
  /\ upd_billable (fst s)
     = match opt_billable options with
       | Some b => b
       | None => billable target
       end
  /\ upd_projectId (fst s)
     = match selected with
       | Some p => Some (project_id p)
       | None => JS.whenTruthy (projectId target)
       end
  /\ match JS.whenTruthy (opt_startTime options) with
     | Some text =>
         exists t,
           timerCommands.resolveAnchor text
             (dateParse (ti_start (timeInterval target))) = Some t
           /\ upd_start (fst s) = toISOString t
     | None => upd_start (fst s) = ti_start (timeInterval target)
     end
  /\ match JS.whenTruthy (opt_endTime options) with
     | Some text =>
         exists t,
           timerCommands.resolveAnchor text
             (match JS.whenTruthy (ti_end (timeInterval target)) with
              | Some endText => dateParse endText
              | None => Some (now w)
              end) = Some t
           /\ upd_end (fst s) = Some (toISOString t)
     | None => upd_end (fst s) = JS.whenTruthy (ti_end (timeInterval target))
     end.

(** The instant [t] is the clock time [h]:[m] taken on the local day of
    [reference]: it is that day's local time at the given hours and minutes,
    read in the zone; and when the zone has that local time and the hours
    and minutes are below 24 and 60, the local time of [t] is on the local
    day of [reference], at those hours and minutes. *)
Definition ClockTimeOn {R : Runtime} (reference : Z) (h m : string) (t : Z)
  : Prop :=
  let hours := JS.parseInt h in
  let minutes := JS.parseInt m in
  let day := DateOps.Day (DateOps.LocalTime LocalTZA reference) in
  let local := DateOps.MakeDate day (DateOps.MakeTime hours minutes 0 0) in
  t = DateOps.UTC LocalTZA local
  /\ (DateOps.isLocalTime LocalTZA local ->
      DateOps.LocalTime LocalTZA t = local
      /\ (hours < 24 -> minutes < 60 ->
          DateOps.Day (DateOps.LocalTime LocalTZA t) = day
          /\ DateOps.HourFromTime (DateOps.LocalTime LocalTZA t) = hours
          /\ DateOps.MinFromTime (DateOps.LocalTime LocalTZA t) = minutes)).

(** The five commands as one function of the command's name. *)
Definition runCommand {U : Utils} {R : Runtime} (c : Command)
    (w : World) (duration entryId : string) (options : Options) : Cmd unit :=
  match c with
  | CmdStart => timerCommands.start w options
  | CmdStop => timerCommands.stop w options
  | CmdStatus => timerCommands.status w options
  | CmdAdd => timerCommands.add w duration options
  | CmdEdit => timerCommands.edit w entryId options
  end.

(** The first line a command prints. *)
Definition banner (c : Command) (duration : string) : Message :=
  match c with
  | CmdAdd => MsgAddBanner duration
  | _ => MsgBanner c
  end.

(** The collaborator operations each command may call. *)
Definition allowedCall (c : Command) (e : Event) : bool :=
  isLog e
  || match c with
     | CmdStatus => isFetchCall e
     | CmdStop => isFetchCall e || isStopTimerCall e
     | CmdStart =>
         isFetchCall e || isGetProjectsCall e || isCreateProjectCall e
         || isStartTimerCall e
     | CmdAdd => isGetProjectsCall e || isCreateEntryCall e
     | CmdEdit => isFetchCall e || isGetProjectsCall e || isUpdateCall e
     end.

(** A block that completes normally or throws: it has no [return] and no
    [process.exit] of its own. *)
Definition Straight {A} (m : Cmd A) : Prop :=
  match completion m with
  | Normal _ | Thrown _ => True
  | Returned | Exited _ => False
  end.

(** Worlds in which something is missing or fails. *)
Module Scenario.

Definition loggedOut (w : World) : World :=
  {| hasApiKey := false; workspaceId := workspaceId w;
     billableByDefault := billableByDefault w; now := now w;
     getCurrentUser := getCurrentUser w; getTimeEntries := getTimeEntries w;
     getProjects := getProjects w; createProject := createProject w;
     startTimer := startTimer w; stopTimer := stopTimer w;
     createTimeEntry := createTimeEntry w;
     updateTimeEntry := updateTimeEntry w |}.

Definition withWorkspace (ws : option string) (w : World) : World :=
  {| hasApiKey := hasApiKey w; workspaceId := ws;
     billableByDefault := billableByDefault w; now := now w;
     getCurrentUser := getCurrentUser w; getTimeEntries := getTimeEntries w;
     getProjects := getProjects w; createProject := createProject w;
     startTimer := startTimer w; stopTimer := stopTimer w;
     createTimeEntry := createTimeEntry w;
     updateTimeEntry := updateTimeEntry w |}.

Definition userFails (error : string) (w : World) : World :=
  {| hasApiKey := hasApiKey w; workspaceId := workspaceId w;
     billableByDefault := billableByDefault w; now := now w;
     getCurrentUser := Err error; getTimeEntries := getTimeEntries w;
     getProjects := getProjects w; createProject := createProject w;
     startTimer := startTimer w; stopTimer := stopTimer w;
     createTimeEntry := createTimeEntry w;
     updateTimeEntry := updateTimeEntry w |}.

Definition projectCreationFails (error : string) (w : World) : World :=
  {| hasApiKey := hasApiKey w; workspaceId := workspaceId w;
     billableByDefault := billableByDefault w; now := now w;
     getCurrentUser := getCurrentUser w; getTimeEntries := getTimeEntries w;
     getProjects := getProjects w; createProject := fun _ _ => Err error;
     startTimer := startTimer w; stopTimer := stopTimer w;
     createTimeEntry := createTimeEntry w;
     updateTimeEntry := updateTimeEntry w |}.


Definition updateFails (error : string) (w : World) : World :=
  {| hasApiKey := hasApiKey w; workspaceId := workspaceId w;
     billableByDefault := billableByDefault w; now := now w;
     getCurrentUser := getCurrentUser w; getTimeEntries := getTimeEntries w;
     getProjects := getProjects w; createProject := createProject w;
     startTimer := startTimer w; stopTimer := stopTimer w;
     createTimeEntry := createTimeEntry w;
     updateTimeEntry := fun _ _ _ => Err error |}.

(** Every option of edit set. *)
Definition everyOption : Options :=
  {| opt_description := Some "Retro"; opt_billable := Some false;
     opt_project := Some "beta"; opt_startTime := Some "08:15";
     opt_endTime := Some "2023-11-14T12:00:00Z" |}.

End Scenario.

(* ================================================================= *)
(** ** Properties *)

Import timerCommands.

(** *** Truthiness and first matches *)

Lemma whenTruthy_Some (o : option string) (s : string) :
  JS.whenTruthy o = Some s <-> o = Some s /\ s <> "".
Proof.
  destruct o as [t|]; simpl.
  - destruct (String.eqb_spec t ""); split.
    + discriminate.
    + intros [E N]. injection E as ->. contradiction.
    + intros E. injection E as ->. auto.
    + intros [E _]. exact E.
  - split; [discriminate | intros [E _]; discriminate].
Qed.

Lemma whenTruthy_None (o : option string) :
  JS.whenTruthy o = None <-> JS.truthy o = false.
Proof.
  destruct o as [t|]; simpl; [|tauto].
  destruct (String.eqb_spec t ""); simpl; split; congruence.
Qed.

Lemma truthy_whenTruthy (o : option string) :
  JS.truthy o = true -> JS.whenTruthy o = o.
Proof.
  destruct o as [t|]; simpl; [|discriminate].
  destruct (t =? "")%string; [discriminate | reflexivity].
Qed.

Lemma find_first {A} (f : A -> bool) (l : list A) (x : A) :
  find f l = Some x <->
  exists before after,
    l = (before ++ x :: after)%list /\ f x = true
    /\ Forall (fun y => f y = false) before.
Proof.
  split.
  - induction l as [|a l IH]; simpl; [discriminate|].
    destruct (f a) eqn:Fa.
    + intros E. injection E as ->.
      exists [], l. auto.
    + intros E. destruct (IH E) as (before & after & -> & Fx & Hb).
      exists (a :: before), after. auto.
  - intros (before & after & -> & Fx & Hb).
    induction Hb as [|a before Fa _ IH]; simpl.
    + now rewrite Fx.
    + now rewrite Fa.
Qed.

Lemma find_absent {A} (f : A -> bool) (l : list A) :
  find f l = None <-> Forall (fun y => f y = false) l.
Proof.
  induction l as [|a l IH]; simpl.
  - split; auto.
  - destruct (f a) eqn:Fa; split.
    + discriminate.
    + intros H. inversion H; congruence.
    + intros H. constructor; tauto.
    + intros H. inversion H; tauto.
Qed.

(** *** The running timer *)

Lemma absent_end_is_open (entry : TimeEntry) :
  ti_end (timeInterval entry) = None -> isOpen entry = true.
Proof. unfold isOpen. now intros ->. Qed.

Lemma open_entry_found (entries : list TimeEntry) (entry : TimeEntry) :
  In entry entries -> isOpen entry = true ->
  exists running, runningEntry entries = Some running /\ isOpen running = true.
Proof.
  intros Hin Hopen. unfold runningEntry.
  destruct (find isOpen entries) as [r|] eqn:E.
  - exists r. split; [reflexivity|]. now apply find_some in E.
  - rewrite (find_none _ _ E _ Hin) in Hopen. discriminate.
Qed.

(** C1: when the fetched entries hold an entry with no end timestamp, start
    is refused: it reports the running timer and returns, and its trace has no
    call of [startTimer]. *)
Theorem start_refused_when_timer_open {U : Utils} {R : Runtime}
    (w : World) (options : Options) (ws : string) (user : User)
    (entries : list TimeEntry) (entry : TimeEntry) :
  ready w ws user entries ->
  In entry entries ->
  ti_end (timeInterval entry) = None ->
  exists running,
    runningEntry entries = Some running
    /\ start w options
       = ((fetched CmdStart ws user ++ [Log (MsgAlreadyRunning running)])%list,
          Returned)
    /\ existsb isStartTimerCall (trace (start w options)) = false.
Proof.
  intros Hready Hin Hend.
  destruct (open_entry_found entries entry Hin (absent_end_is_open _ Hend))
    as (running & Hrun & _).
  exists running. split; [exact Hrun|].
  assert (E : start w options
              = ((fetched CmdStart ws user
                  ++ [Log (MsgAlreadyRunning running)])%list, Returned)).
  { unfold start. use_ready Hready. rewrite Hrun. reflexivity. }
  split; [exact E|]. rewrite E. reflexivity.
Qed.

Lemma start_refused_when_timer_open_witness :
  let w := Sample.world [Sample.report; Sample.running] [Sample.alpha] in
  let user := {| user_id := "u1" |} in
  (ready w "ws1" user [Sample.report; Sample.running]
   /\ In Sample.running [Sample.report; Sample.running]
   /\ ti_end (timeInterval Sample.running) = None)
  /\ exists running,
       runningEntry [Sample.report; Sample.running] = Some running
       /\ @start SpecUtils.utils Sample.zone w noOptions
          = ((fetched CmdStart "ws1" user
              ++ [Log (MsgAlreadyRunning running)])%list, Returned)
       /\ existsb isStartTimerCall
            (trace (@start SpecUtils.utils Sample.zone w noOptions)) = false.
Proof.
  assert (H1 : ready (Sample.world [Sample.report; Sample.running] [Sample.alpha])
                 "ws1" {| user_id := "u1" |} [Sample.report; Sample.running])
    by (repeat split).
  assert (H2 : In Sample.running [Sample.report; Sample.running])
    by (simpl; auto).
  assert (H3 : ti_end (timeInterval Sample.running) = None) by reflexivity.
  split; [auto|].
  exact (@start_refused_when_timer_open SpecUtils.utils Sample.zone
           _ noOptions _ _ _ _ H1 H2 H3).
Defined.

(** Whatever else happens (no API key, no workspace, a failing call), start
    makes no call of [startTimer] in a world whose entries always hold one
    without end. *)
Lemma start_makes_no_second_timer {U : Utils} {R : Runtime}
    (w : World) (options : Options) :
  (forall ws user entries,
      getTimeEntries w ws user = Ok entries ->
      exists entry, In entry entries /\ ti_end (timeInterval entry) = None) ->
  existsb isStartTimerCall (trace (start w options)) = false.
Proof.
  intros Hopen. unfold start, configured.
  destruct (hasApiKey w); [|reflexivity]. simpl.
  destruct (JS.whenTruthy (workspaceId w)) as [ws|]; [|reflexivity]. simpl.
  destruct (getCurrentUser w) as [user|error]; [|reflexivity]. simpl.
  destruct (getTimeEntries w ws (user_id user)) as [entries|error] eqn:E;
    [|reflexivity]. simpl.
  destruct (Hopen _ _ _ E) as (entry & Hin & Hend).
  destruct (open_entry_found entries entry Hin (absent_end_is_open _ Hend))
    as (running & -> & _).
  reflexivity.
Qed.

(** C10: an entry whose end is the empty string is the running entry, as it
    is with its end absent: the openness test holds for it, the finder of
    start, stop and status returns it when no earlier entry is open, start is
    refused, stop goes on to [stopTimer] and status reports the timer as
    running. *)
Theorem empty_end_counts_as_open {U : Utils} {R : Runtime}
    (w : World) (options : Options) (ws : string) (user : User)
    (before after : list TimeEntry) (entry : TimeEntry) :
  ready w ws user (before ++ entry :: after)%list ->
  ti_end (timeInterval entry) = Some "" ->
  Forall (fun e => isOpen e = false) before ->
  isOpen entry = true
  /\ isOpen (withoutEnd entry) = true
  /\ runningEntry (before ++ entry :: after) = Some entry
  /\ runningEntry (before ++ withoutEnd entry :: after) = Some (withoutEnd entry)
  /\ start w options
     = ((fetched CmdStart ws user ++ [Log (MsgAlreadyRunning entry)])%list,
        Returned)
  /\ (exists rest c,
        stop w options
        = ((fetched CmdStop ws user
            ++ CallStopTimer ws (user_id user) :: rest)%list, c))
  /\ status w options
     = ((fetched CmdStatus ws user
         ++ [Log (MsgTimerRunning entry
                    (JS.roundMinutes
                       (JS.sub (Some (now w))
                               (dateParse (ti_start (timeInterval entry))))))])%list,
        Returned).
Proof.
  intros Hready Hend Hbefore.
  assert (Hopen : isOpen entry = true) by (unfold isOpen; now rewrite Hend).
  assert (Hopen' : isOpen (withoutEnd entry) = true) by reflexivity.
  assert (Hrun : runningEntry (before ++ entry :: after) = Some entry).
  { apply find_first. exists before, after. auto. }
  assert (Hrun' : runningEntry (before ++ withoutEnd entry :: after)
                  = Some (withoutEnd entry)).
  { apply find_first. exists before, after. auto. }
  repeat split; trivial.
  - unfold start. use_ready Hready. now rewrite Hrun.
  - unfold stop. use_ready Hready. rewrite Hrun.
    destruct (stopTimer w ws (user_id user)) as [stopped|error]; simpl;
      eexists _, _; reflexivity.
  - unfold status. use_ready Hready. now rewrite Hrun.
Qed.

Lemma empty_end_counts_as_open_witness :
  let entries := ([Sample.report] ++ Sample.emptyEnd :: [Sample.review])%list in
  let w := Sample.world entries [] in
  let user := {| user_id := "u1" |} in
  (ready w "ws1" user entries
   /\ ti_end (timeInterval Sample.emptyEnd) = Some ""
   /\ Forall (fun e => isOpen e = false) [Sample.report])
  /\ isOpen Sample.emptyEnd = true
  /\ runningEntry entries = Some Sample.emptyEnd
  /\ @start SpecUtils.utils Sample.zone w noOptions
     = ((fetched CmdStart "ws1" user
         ++ [Log (MsgAlreadyRunning Sample.emptyEnd)])%list, Returned).
Proof.
  assert (H1 : ready (Sample.world ([Sample.report] ++ Sample.emptyEnd
                                      :: [Sample.review]) [])
                 "ws1" {| user_id := "u1" |}
                 ([Sample.report] ++ Sample.emptyEnd :: [Sample.review]))
    by (repeat split).
  assert (H2 : ti_end (timeInterval Sample.emptyEnd) = Some "") by reflexivity.
  assert (H3 : Forall (fun e => isOpen e = false) [Sample.report])
    by (repeat constructor).
  split; [auto|].
  destruct (@empty_end_counts_as_open SpecUtils.utils Sample.zone
              _ noOptions _ _ _ [Sample.review] _ H1 H2 H3)
    as (A & _ & B & _ & C & _).
  auto.
Defined.

(** *** Edit *)

(** Once the target is found, edit is [editTarget] on it. *)
Lemma edit_found {U : Utils} {R : Runtime}
    (w : World) (entryId : string) (options : Options) (ws : string)
    (user : User) (entries : list TimeEntry) (target : TimeEntry) :
  ready w ws user entries ->
  findTarget entries entryId = pure (Some target) ->
  edit w entryId options
  = tryCatch CmdEdit
      ((fetched CmdEdit ws user, Normal tt) ;; editTarget w ws target options).
Proof.
  intros Hready Hfound. unfold edit. use_ready Hready.
  rewrite Hfound. simpl.
  destruct (editTarget w ws target options) as [t c]. reflexivity.
Qed.

(** C3: an edit without any override reports that no changes were specified
    and returns; its trace has no call of [updateTimeEntry]. *)
Theorem edit_without_overrides {U : Utils} {R : Runtime}
    (w : World) (entryId : string) (ws : string) (user : User)
    (entries : list TimeEntry) (existing : TimeEntry) :
  ready w ws user entries ->
  findTarget entries entryId = pure (Some existing) ->
  buildUpdate w ws existing noOptions = pure (seedUpdate existing, [])
  /\ edit w entryId noOptions
     = ((fetched CmdEdit ws user
         ++ [Log (MsgEditingEntry (description existing)); Log MsgNoChanges])%list,
        Returned)
  /\ existsb isUpdateCall (trace (edit w entryId noOptions)) = false.
Proof.
  intros Hready Hfound.
  assert (E : edit w entryId noOptions
              = ((fetched CmdEdit ws user
                  ++ [Log (MsgEditingEntry (description existing));
                      Log MsgNoChanges])%list, Returned)).
  { rewrite (edit_found _ _ _ _ _ _ _ Hready Hfound). reflexivity. }
  split; [reflexivity|]. split; [exact E|]. now rewrite E.
Qed.

Lemma edit_without_overrides_witness :
  let w := Sample.world [Sample.report; Sample.review] [Sample.alpha] in
  let user := {| user_id := "u1" |} in
  (ready w "ws1" user [Sample.report; Sample.review]
   /\ @findTarget Sample.zone [Sample.report; Sample.review] "e2" = pure (Some Sample.review))
  /\ @edit SpecUtils.utils Sample.zone w "e2" noOptions
     = ((fetched CmdEdit "ws1" user
         ++ [Log (MsgEditingEntry "Review"); Log MsgNoChanges])%list, Returned)
  /\ existsb isUpdateCall
       (trace (@edit SpecUtils.utils Sample.zone w "e2" noOptions)) = false.
Proof.
  assert (H1 : ready (Sample.world [Sample.report; Sample.review] [Sample.alpha])
                 "ws1" {| user_id := "u1" |} [Sample.report; Sample.review])
    by (repeat split).
  assert (H2 : @findTarget Sample.zone [Sample.report; Sample.review] "e2"
               = pure (Some Sample.review)) by reflexivity.
  split; [auto|].
  exact (proj2 (@edit_without_overrides SpecUtils.utils Sample.zone
                  _ "e2" _ _ _ _ H1 H2)).
Defined.

(** C9: an edit whose only override is a project that matches none of the
    workspace's projects reports that no changes were specified and returns;
    the unmatched project adds nothing to the change list, and the trace has
    no call of [updateTimeEntry]. *)
Theorem edit_unmatched_project_only {U : Utils} {R : Runtime}
    (w : World) (entryId : string) (ws : string) (user : User)
    (entries : list TimeEntry) (existing : TimeEntry)
    (projects : list Project) (requested : string) :
  ready w ws user entries ->
  findTarget entries entryId = pure (Some existing) ->
  getProjects w ws = Ok projects ->
  findProject projects requested = None ->
  let lookup :=
    if (requested =? "")%string then []
    else [CallGetProjects ws; Log (MsgProjectNotFound CmdEdit requested)] in
  buildUpdate w ws existing (projectOnly requested)
  = (lookup, Normal (seedUpdate existing, []))
  /\ edit w entryId (projectOnly requested)
     = ((fetched CmdEdit ws user
         ++ [Log (MsgEditingEntry (description existing))]
         ++ lookup ++ [Log MsgNoChanges])%list,
        Returned)
  /\ existsb isUpdateCall (trace (edit w entryId (projectOnly requested)))
     = false.
Proof.
  intros Hready Hfound Hprojects Hnone lookup.
  assert (B : buildUpdate w ws existing (projectOnly requested)
              = (lookup, Normal (seedUpdate existing, []))).
  { unfold buildUpdate, applyProject, lookup. simpl.
    destruct (requested =? "")%string; [reflexivity|].
    rewrite Hprojects. simpl. rewrite Hnone. reflexivity. }
  assert (E : edit w entryId (projectOnly requested)
              = ((fetched CmdEdit ws user
                  ++ [Log (MsgEditingEntry (description existing))]
                  ++ lookup ++ [Log MsgNoChanges])%list, Returned)).
  { rewrite (edit_found _ _ _ _ _ _ _ Hready Hfound).
    unfold editTarget. rewrite B. reflexivity. }
  split; [exact B|]. split; [exact E|].
  rewrite E. unfold lookup, fetched.
  destruct (requested =? "")%string; reflexivity.
Qed.

Lemma edit_unmatched_project_only_witness :
  let w := Sample.world [Sample.report] [Sample.alpha; Sample.beta] in
  let user := {| user_id := "u1" |} in
  (ready w "ws1" user [Sample.report]
   /\ @findTarget Sample.zone [Sample.report] "last" = pure (Some Sample.report)
   /\ getProjects w "ws1" = Ok [Sample.alpha; Sample.beta]
   /\ @findProject Sample.zone [Sample.alpha; Sample.beta] "gamma" = None)
  /\ @edit SpecUtils.utils Sample.zone w "last" (projectOnly "gamma")
     = ((fetched CmdEdit "ws1" user
         ++ [Log (MsgEditingEntry "Write report")]
         ++ [CallGetProjects "ws1"; Log (MsgProjectNotFound CmdEdit "gamma")]
         ++ [Log MsgNoChanges])%list, Returned).
Proof.
  assert (H1 : ready (Sample.world [Sample.report] [Sample.alpha; Sample.beta])
                 "ws1" {| user_id := "u1" |} [Sample.report])
    by (repeat split).
  assert (H2 : @findTarget Sample.zone [Sample.report] "last" = pure (Some Sample.report))
    by reflexivity.
  assert (H3 : getProjects (Sample.world [Sample.report]
                              [Sample.alpha; Sample.beta]) "ws1"
               = Ok [Sample.alpha; Sample.beta]) by reflexivity.
  assert (H4 : @findProject Sample.zone [Sample.alpha; Sample.beta] "gamma" = None)
    by reflexivity.
  split; [auto|].
  exact (proj1 (proj2 (@edit_unmatched_project_only SpecUtils.utils Sample.zone
                         _ "last" _ _ _ _ _ "gamma" H1 H2 H3 H4))).
Defined.

(** With a change to apply, edit sends the update request it built. *)
Lemma edit_sends_update {U : Utils} {R : Runtime}
    (w : World) (entryId : string) (options : Options) (ws : string)
    (user : User) (entries : list TimeEntry) (target : TimeEntry)
    (t : list Event) (payload : UpdateData) (change : string)
    (changes : list string) :
  ready w ws user entries ->
  findTarget entries entryId = pure (Some target) ->
  buildUpdate w ws target options = (t, Normal (payload, change :: changes)) ->
  exists rest c,
    edit w entryId options
    = ((fetched CmdEdit ws user
        ++ [Log (MsgEditingEntry (description target))] ++ t
        ++ CallUpdateTimeEntry ws (entry_id target) payload :: rest)%list, c).
Proof.
  intros Hready Hfound Hbuild.
  rewrite (edit_found _ _ _ _ _ _ _ Hready Hfound).
  unfold editTarget. rewrite Hbuild. simpl.
  destruct (updateTimeEntry w ws (entry_id target) payload) as [updated|error];
    simpl; rewrite <- ?app_assoc; simpl; eexists _, _; reflexivity.
Qed.

(** C2 (as stated, refuted): an existing entry whose end is present and
    empty; the request built for the single override [description: "x"] has
    no end, and edit sends that request. *)
Lemma edit_description_only_counterexample :
  let w := Sample.world [Sample.emptyEnd] [] in
  exists payload,
    @buildUpdate SpecUtils.utils Sample.zone w "ws1" Sample.emptyEnd
      (descriptionOnly "x") = pure (payload, ["description"])
    /\ ti_end (timeInterval Sample.emptyEnd) = Some ""
    /\ upd_end payload = None
    /\ In (CallUpdateTimeEntry "ws1" "e6" payload)
          (trace (@edit SpecUtils.utils Sample.zone w "e6" (descriptionOnly "x"))).
Proof.
  eexists. split; [reflexivity|]. split; [reflexivity|].
  split; [reflexivity|]. simpl. auto 10.
Qed.

(** C2 (amended): for every existing entry, the request built for the single
    override [description: x], with [x] a text that [sanitizeInput] leaves as
    it is, has description [x]; its start, billable flag and tag ids are the
    entry's; its end, project id and task id are the entry's when those are
    present and not empty, and are left out otherwise; the change list is
    ["description"]; and this is the request edit sends. *)
Theorem edit_description_only {U : Utils} {R : Runtime}
    (w : World) (ws : string) (existing : TimeEntry) (x : string) :
  sanitizeInput x = x ->
  exists payload,
    buildUpdate w ws existing (descriptionOnly x)
    = pure (payload, ["description"])
    /\ upd_description payload = x
    /\ upd_start payload = ti_start (timeInterval existing)
    /\ upd_billable payload = billable existing
    /\ upd_tagIds payload = tagIds existing
    /\ upd_end payload = JS.whenTruthy (ti_end (timeInterval existing))
    /\ upd_projectId payload = JS.whenTruthy (projectId existing)
    /\ upd_taskId payload = JS.whenTruthy (taskId existing)
    /\ (forall entryId user entries,
          ready w ws user entries ->
          findTarget entries entryId = pure (Some existing) ->
          In (CallUpdateTimeEntry ws (entry_id existing) payload)
             (trace (edit w entryId (descriptionOnly x)))).
Proof.
  intros Hx.
  exists (setDescription (seedUpdate existing) x).
  assert (B : buildUpdate w ws existing (descriptionOnly x)
              = pure (setDescription (seedUpdate existing) x, ["description"])).
  { unfold buildUpdate, applyDescription. simpl. now rewrite Hx. }
  repeat split; trivial.
  intros entryId user entries Hready Hfound.
  destruct (edit_sends_update _ _ _ _ _ _ _ _ _ _ _ Hready Hfound B)
    as (rest & c & E).
  rewrite E. unfold trace. simpl. auto 10.
Qed.

Lemma edit_description_only_witness :
  @sanitizeInput SpecUtils.utils "x" = "x"
  /\ exists payload,
       @buildUpdate SpecUtils.utils Sample.zone
         (Sample.world [Sample.report] []) "ws1" Sample.report
         (descriptionOnly "x") = pure (payload, ["description"])
       /\ upd_description payload = "x"
       /\ upd_start payload = "2023-11-14T09:00:00Z"
       /\ upd_end payload = Some "2023-11-14T10:30:00Z"
       /\ upd_projectId payload = Some "p1"
       /\ upd_taskId payload = None.
Proof.
  assert (H : @sanitizeInput SpecUtils.utils "x" = "x") by reflexivity.
  split; [exact H|].
  destruct (@edit_description_only SpecUtils.utils Sample.zone
              (Sample.world [Sample.report] []) "ws1" Sample.report "x" H)
    as (payload & B & D & S & _ & _ & E & P & T & _).
  exists payload. repeat split; assumption.
Defined.

Lemma completed_first (before after : list TimeEntry) (first : TimeEntry) :
  Forall (fun e => Spec.closed e = false) before ->
  Spec.closed first = true ->
  completedEntries (before ++ first :: after)
  = first :: completedEntries after.
Proof.
  intros Hb Hf. unfold completedEntries.
  induction Hb as [|a before Ha _ IH]; simpl.
  - unfold Spec.closed in Hf. now rewrite Hf.
  - unfold Spec.closed in Ha. now rewrite Ha.
Qed.

Lemma completed_none (entries : list TimeEntry) :
  Forall (fun e => Spec.closed e = false) entries ->
  completedEntries entries = [].
Proof.
  intros H. unfold completedEntries.
  induction H as [|a l Ha _ IH]; simpl; [reflexivity|].
  unfold Spec.closed in Ha. now rewrite Ha.
Qed.

Lemma find_id_absent (entries : list TimeEntry) (entryId : string) :
  Forall (fun e => entry_id e <> entryId) entries ->
  find (fun e => (entry_id e =? entryId)%string) entries = None.
Proof.
  intros H. apply find_absent.
  eapply Forall_impl; [|exact H].
  intros e Hne. now apply String.eqb_neq.
Qed.

(** C4 (as stated, refuted).  The id ["LAST"] is not the text ["last"] and
    is the id of no entry, yet the edit is carried out on the first completed
    entry and [updateTimeEntry] is called.  And for ["e7"], which is not
    ["last"] and is the id of no entry either, the command does not fail: it
    prints that the entry was not found and returns, which is how a
    successful edit completes (exit status 0), where a failure of the
    command, such as the service rejecting the update, exits with status
    1. *)
Lemma edit_unknown_id_counterexample :
  let entries := [Sample.running; Sample.report] in
  let w := Sample.world entries [] in
  let rejecting := Scenario.updateFails "Request failed" w in
  ("LAST" <> "last"
   /\ Forall (fun e => entry_id e <> "LAST") entries
   /\ existsb isUpdateCall
        (trace (@edit SpecUtils.utils Sample.zone w "LAST" (descriptionOnly "x")))
      = true
   /\ In (CallUpdateTimeEntry "ws1" "e1"
            (setDescription (seedUpdate Sample.report) "x"))
         (trace (@edit SpecUtils.utils Sample.zone w "LAST" (descriptionOnly "x"))))
  /\ ("e7" <> "last"
      /\ Forall (fun e => entry_id e <> "e7") entries
      /\ @edit SpecUtils.utils Sample.zone w "e7" (descriptionOnly "x")
         = ([Log (MsgBanner CmdEdit); CallGetCurrentUser;
             CallGetTimeEntries "ws1" "u1"; Log (MsgEntryNotFound "e7")],
            Returned)
      /\ completion
           (@edit SpecUtils.utils Sample.zone w "e1" (descriptionOnly "x"))
         = Returned
      /\ completion
           (@edit SpecUtils.utils Sample.zone rejecting "e1"
              (descriptionOnly "x"))
         = Exited 1).
Proof.
  split.
  - split; [discriminate|].
    split; [repeat constructor; discriminate|].
    split; [reflexivity|]. simpl. auto 10.
  - split; [discriminate|].
    split; [repeat constructor; discriminate|].
    split; [reflexivity|]. split; reflexivity.
Qed.

(** C4 (amended): for an entry id that is not ["last"] in any letter case and
    is the id of no fetched entry, edit reports that the entry was not found
    and returns normally (it does not exit with an error status), with no
    call of [updateTimeEntry]; for an entry id that is ["last"] in any letter
    case, the target is the first fetched entry whose end is a timestamp
    (present and not empty), and when there is none edit reports that and
    returns. *)
Theorem edit_target_lookup {U : Utils} {R : Runtime}
    (w : World) (entryId : string) (options : Options) (ws : string)
    (user : User) (entries : list TimeEntry) :
  ready w ws user entries ->
  (toLowerCase entryId <> "last" ->
   Forall (fun e => entry_id e <> entryId) entries ->
   edit w entryId options
   = ((fetched CmdEdit ws user ++ [Log (MsgEntryNotFound entryId)])%list,
      Returned)
   /\ existsb isUpdateCall (trace (edit w entryId options)) = false)
  /\ (toLowerCase entryId = "last" ->
      (forall before first after,
          entries = (before ++ first :: after)%list ->
          Forall (fun e => Spec.closed e = false) before ->
          Spec.closed first = true ->
          findTarget entries entryId = pure (Some first)
          /\ edit w entryId options
             = tryCatch CmdEdit
                 ((fetched CmdEdit ws user, Normal tt) ;;
                  editTarget w ws first options))
      /\ (Forall (fun e => Spec.closed e = false) entries ->
          edit w entryId options
          = ((fetched CmdEdit ws user ++ [Log MsgNoCompletedEntries])%list,
             Returned))).
Proof.
  intros Hready. split.
  - intros Hlast Hids.
    assert (E : edit w entryId options
                = ((fetched CmdEdit ws user
                    ++ [Log (MsgEntryNotFound entryId)])%list, Returned)).
    { unfold edit. use_ready Hready. unfold findTarget.
      apply String.eqb_neq in Hlast. rewrite Hlast.
      rewrite (find_id_absent _ _ Hids). reflexivity. }
    split; [exact E|]. now rewrite E.
  - intros Hlast. split.
    + intros before first after -> Hbefore Hfirst.
      assert (F : findTarget (before ++ first :: after) entryId
                  = pure (Some first)).
      { unfold findTarget. apply String.eqb_eq in Hlast. rewrite Hlast.
        now rewrite (completed_first _ _ _ Hbefore Hfirst). }
      split; [exact F|].
      exact (edit_found _ _ _ _ _ _ _ Hready F).
    + intros Hnone. unfold edit. use_ready Hready. unfold findTarget.
      apply String.eqb_eq in Hlast. rewrite Hlast.
      now rewrite (completed_none _ Hnone).
Qed.

Lemma edit_target_lookup_witness :
  let entries := [Sample.running; Sample.report; Sample.review] in
  let w := Sample.world entries [] in
  let user := {| user_id := "u1" |} in
  ready w "ws1" user entries
  /\ @edit SpecUtils.utils Sample.zone w "e7" (descriptionOnly "x")
     = ((fetched CmdEdit "ws1" user ++ [Log (MsgEntryNotFound "e7")])%list,
        Returned)
  /\ @findTarget Sample.zone entries "last" = pure (Some Sample.report).
Proof.
  assert (H : ready (Sample.world [Sample.running; Sample.report; Sample.review] [])
                "ws1" {| user_id := "u1" |}
                [Sample.running; Sample.report; Sample.review])
    by (repeat split).
  split; [exact H|].
  destruct (@edit_target_lookup SpecUtils.utils Sample.zone
              _ "e7" (descriptionOnly "x") _ _ _ H) as [A _].
  destruct (@edit_target_lookup SpecUtils.utils Sample.zone
              _ "last" (descriptionOnly "x") _ _ _ H) as [_ B].
  split.
  - apply A; [discriminate | repeat constructor; discriminate].
  - apply (proj1 (B eq_refl)) with (before := [Sample.running])
                                   (after := [Sample.review]);
      [reflexivity | repeat constructor | reflexivity].
Defined.

(** *** Status *)

Lemma add_zero_r (a : JS.Num) : JS.add a (Some 0) = a.
Proof. destruct a as [x|]; simpl; [f_equal; lia | reflexivity]. Qed.

Lemma add_assoc (a b c : JS.Num) :
  JS.add (JS.add a b) c = JS.add a (JS.add b c).
Proof.
  destruct a as [x|], b as [y|], c as [z|]; simpl; try reflexivity.
  f_equal. lia.
Qed.

(** On a closed entry, whose end is a text, the minutes the command
    computes are the entry's minutes. *)
Lemma intervalMinutes_closed {R : Runtime} (entry : TimeEntry) :
  Spec.closed entry = true ->
  intervalMinutes (timeInterval entry) = Spec.entryMinutes entry.
Proof.
  unfold Spec.closed, intervalMinutes, Spec.entryMinutes, ti_end.
  destruct (ti_endValue (timeInterval entry)); simpl;
    [discriminate | discriminate | reflexivity].
Qed.

(** The reduction from the left, which the command runs on closed entries,
    is the sum of the entries' minutes. *)
Lemma totalMinutes_sum {R : Runtime} (l : list TimeEntry) :
  Forall (fun entry => Spec.closed entry = true) l ->
  totalMinutes l = Spec.sum (map Spec.entryMinutes l).
Proof.
  intros Hclosed. unfold totalMinutes.
  assert (G : forall a,
             fold_left
               (fun total entry =>
                  JS.add total (intervalMinutes (timeInterval entry))) l a
             = JS.add a (Spec.sum (map Spec.entryMinutes l))).
  { induction Hclosed as [|e l He _ IH]; intros a; simpl.
    - symmetry. apply add_zero_r.
    - rewrite IH, (intervalMinutes_closed _ He). apply add_assoc. }
  rewrite G. destruct (Spec.sum (map Spec.entryMinutes l)); reflexivity.
Qed.

Lemma closedOnDayOf_closed {R : Runtime} (instant : Z)
    (entries : list TimeEntry) :
  Forall (fun entry => Spec.closed entry = true)
    (Spec.closedOnDayOf instant entries).
Proof.
  apply Forall_forall. intros entry Hin.
  apply filter_In in Hin. destruct Hin as [_ H].
  now apply andb_true_iff in H.
Qed.

Lemma closedToday_filter {R : Runtime}
    (instant : Z) (entries : list TimeEntry) :
  filter (closedToday (JS.beforeT (toISOString instant))) entries
  = Spec.closedOnDayOf instant entries.
Proof.
  unfold Spec.closedOnDayOf. apply filter_ext. intros e.
  unfold closedToday, Spec.closed, Spec.startsOnDayOf, Spec.calendarDay.
  apply andb_comm.
Qed.

(** [Math.round] takes the nearest integer, the upper one on a tie. *)
Lemma roundMinutesZ_nearest (ms : Z) :
  60000 * JS.roundMinutesZ ms - 30000 <= ms
  < 60000 * JS.roundMinutesZ ms + 30000.
Proof.
  unfold JS.roundMinutesZ.
  pose proof (Z.div_mod (ms + 30000) 60000 ltac:(lia)) as E.
  pose proof (Z.mod_pos_bound (ms + 30000) 60000 ltac:(lia)) as B.
  lia.
Qed.

(** With every timestamp readable, the total is the integer sum of the
    entries' rounded minutes. *)
Lemma sum_of_readable {R : Runtime}
    (l : list TimeEntry) (minutes : list Z) :
  Forall2
    (fun entry m =>
       exists s e,
         dateParse (ti_start (timeInterval entry)) = Some s
         /\ newDate (JS.ofText (ti_end (timeInterval entry))) = Some e
         /\ m = JS.roundMinutesZ (e - s))
    l minutes ->
  Spec.sum (map Spec.entryMinutes l) = Some (fold_right Z.add 0 minutes).
Proof.
  induction 1 as [|entry m l minutes (s & e & Hs & He & ->) _ IH]; simpl.
  - reflexivity.
  - rewrite IH. unfold Spec.entryMinutes. now rewrite Hs, He.
Qed.

(** C5: when no fetched entry is open, status reports idle and returns; the
    total of today's summary is the sum, over the closed entries whose start
    is on the calendar day of now, of each entry's
    [round((end - start) / 60000)], every entry rounded before the sum is
    taken.  The summary is printed when there is such an entry. *)
Theorem status_idle_summary {R : Runtime}
    (w : World) (options : Options) (ws : string) (user : User)
    (entries : list TimeEntry) :
  ready w ws user entries ->
  runningEntry entries = None ->
  let today := Spec.closedOnDayOf (now w) entries in
  status w options
  = ((fetched CmdStatus ws user ++ [Log MsgIdle]
      ++ match today with
         | [] => []
         | _ :: _ => [Log (MsgTodaySummary (List.length today)
                             (Spec.todayTotal (now w) entries))]
         end)%list,
     Returned).
Proof.
  intros Hready Hrun today.
  unfold status. use_ready Hready. rewrite Hrun.
  rewrite closedToday_filter.
  rewrite (totalMinutes_sum _ (closedOnDayOf_closed (now w) entries)).
  unfold Spec.todayTotal. fold today.
  destruct today as [|e l]; reflexivity.
Qed.

Lemma status_idle_summary_witness :
  let entries :=
    [Sample.report; Sample.review; Sample.standup; Sample.yesterday] in
  let w := Sample.world entries [] in
  let user := {| user_id := "u1" |} in
  (ready w "ws1" user entries /\ runningEntry entries = None)
  /\ @status Sample.zone w noOptions
     = ((fetched CmdStatus "ws1" user
         ++ [Log MsgIdle; Log (MsgTodaySummary 3 (Some (90 + 1 + 1)))])%list,
        Returned).
Proof.
  assert (H1 : ready (Sample.world [Sample.report; Sample.review;
                                    Sample.standup; Sample.yesterday] [])
                 "ws1" {| user_id := "u1" |}
                 [Sample.report; Sample.review; Sample.standup;
                  Sample.yesterday]) by (repeat split).
  assert (H2 : runningEntry [Sample.report; Sample.review; Sample.standup;
                             Sample.yesterday] = None) by reflexivity.
  split; [auto|].
  exact (@status_idle_summary Sample.zone _ noOptions _ _ _ H1 H2).
Defined.

(** The three entries of the sample day last 90 minutes, 30 seconds and 30
    seconds: rounding their total gives 91 minutes, the summary's 92 comes
    from rounding each entry. *)
Example rounding_is_per_entry :
  @Spec.todayTotal Sample.zone Sample.clock
    [Sample.report; Sample.review; Sample.standup; Sample.yesterday]
  = Some 92
  /\ JS.roundMinutesZ (90 * 60000 + 30000 + 30000) = 91.
Proof. split; reflexivity. Qed.

(** *** The calendar day of an ISO 8601 text *)

Import Iso8601.

Lemma civil_roundtrip (days : Z) :
  let '(y, m, d) := civilFromDays days in daysFromCivil y m d = days.
Proof.
  unfold civilFromDays, daysFromCivil. cbv zeta.
  set (z := days + 719468).
  set (era := z / 146097).
  set (doe := z - era * 146097).
  assert (Hdoe : 0 <= doe < 146097)
    by (subst doe era; Z.div_mod_to_equations; lia).
  set (yoe := (doe - doe / 1460 + doe / 36524 - doe / 146096) / 365).
  assert (Hyoe : 0 <= yoe <= 399) by (subst yoe; Z.div_mod_to_equations; lia).
  set (doy := doe - (365 * yoe + yoe / 4 - yoe / 100)).
  assert (Hdoy : 0 <= doy <= 365)
    by (subst doy yoe; Z.div_mod_to_equations; lia).
  set (mp := (5 * doy + 2) / 153).
  assert (Hmp : 0 <= mp <= 11) by (subst mp; Z.div_mod_to_equations; lia).
  destruct (mp <? 10) eqn:E1.
  - apply Z.ltb_lt in E1.
    replace (mp + 3 <=? 2) with false by (symmetry; apply Z.leb_gt; lia).
    replace (2 <? mp + 3) with true by (symmetry; apply Z.ltb_lt; lia).
    replace (yoe + era * 400 + 0) with (era * 400 + yoe) by lia.
    replace ((era * 400 + yoe) / 400) with era
      by (Z.div_mod_to_equations; lia).
    replace (era * 400 + yoe - era * 400) with yoe by lia.
    replace (mp + 3 - 3) with mp by lia.
    subst doy doe z. lia.
  - apply Z.ltb_ge in E1.
    replace (mp - 9 <=? 2) with true by (symmetry; apply Z.leb_le; lia).
    replace (2 <? mp - 9) with false by (symmetry; apply Z.ltb_ge; lia).
    replace (yoe + era * 400 + 1 - 1) with (era * 400 + yoe) by lia.
    replace ((era * 400 + yoe) / 400) with era
      by (Z.div_mod_to_equations; lia).
    replace (era * 400 + yoe - era * 400) with yoe by lia.
    replace (mp - 9 + 9) with mp by lia.
    subst doy doe z. lia.
Qed.

Lemma civil_ranges (days : Z) :
  let '(y, m, d) := civilFromDays days in 1 <= m <= 12 /\ 1 <= d <= 31.
Proof.
  unfold civilFromDays. cbv zeta.
  set (z := days + 719468).
  set (era := z / 146097).
  set (doe := z - era * 146097).
  assert (Hdoe : 0 <= doe < 146097)
    by (subst doe era; Z.div_mod_to_equations; lia).
  set (yoe := (doe - doe / 1460 + doe / 36524 - doe / 146096) / 365).
  assert (Hyoe : 0 <= yoe <= 399) by (subst yoe; Z.div_mod_to_equations; lia).
  set (doy := doe - (365 * yoe + yoe / 4 - yoe / 100)).
  assert (Hdoy : 0 <= doy <= 365)
    by (subst doy yoe; Z.div_mod_to_equations; lia).
  set (mp := (5 * doy + 2) / 153).
  assert (Hmp : 0 <= mp <= 11) by (subst mp; Z.div_mod_to_equations; lia).
  split.
  - destruct (mp <? 10) eqn:E1; [apply Z.ltb_lt in E1 | apply Z.ltb_ge in E1]; lia.
  - subst mp. Z.div_mod_to_equations. lia.
Qed.

Lemma civil_injective (a b : Z) : civilFromDays a = civilFromDays b -> a = b.
Proof.
  intros E. pose proof (civil_roundtrip a) as Ha. pose proof (civil_roundtrip b) as Hb.
  rewrite E in Ha. destruct (civilFromDays b) as [[y m] d]. congruence.
Qed.

Lemma append_inj_length (s1 s2 r1 r2 : string) :
  String.length s1 = String.length s2 ->
  (s1 ++ r1 = s2 ++ r2)%string -> s1 = s2 /\ r1 = r2.
Proof.
  revert s2. induction s1 as [|c s1 IH]; intros [|c2 s2]; simpl;
    try discriminate.
  - auto.
  - intros L E. injection L as L. injection E as -> E.
    destruct (IH _ L E) as [-> ->]. auto.
Qed.

Lemma append_length (s r : string) :
  String.length (s ++ r) = (String.length s + String.length r)%nat.
Proof. induction s as [|c s IH]; simpl; [reflexivity | now rewrite IH]. Qed.

Lemma digits_length (n : nat) (v : Z) : String.length (digits n v) = n.
Proof.
  revert v. induction n as [|n IH]; intros v; simpl; [reflexivity|].
  rewrite append_length, IH. simpl. lia.
Qed.

Lemma digitChar_code (v : Z) :
  nat_of_ascii (digitChar v) = (48 + Z.to_nat (v mod 10))%nat.
Proof.
  unfold digitChar. apply nat_ascii_embedding.
  pose proof (Z.mod_pos_bound v 10 ltac:(lia)). lia.
Qed.

Lemma digitChar_injective (a b : Z) :
  digitChar a = digitChar b -> a mod 10 = b mod 10.
Proof.
  intros E. apply (f_equal nat_of_ascii) in E.
  rewrite !digitChar_code in E.
  pose proof (Z.mod_pos_bound a 10 ltac:(lia)).
  pose proof (Z.mod_pos_bound b 10 ltac:(lia)). lia.
Qed.

Lemma digits_injective (n : nat) (a b : Z) :
  0 <= a < 10 ^ Z.of_nat n -> 0 <= b < 10 ^ Z.of_nat n ->
  digits n a = digits n b -> a = b.
Proof.
  revert a b. induction n as [|n IH]; intros a b Ha Hb E.
  - simpl in Ha, Hb. lia.
  - simpl in E.
    destruct (append_inj_length _ _ _ _
                (eq_trans (digits_length n _) (eq_sym (digits_length n _))) E)
      as [E1 E2].
    injection E2 as E2. apply digitChar_injective in E2.
    rewrite Nat2Z.inj_succ, Z.pow_succ_r in Ha, Hb by lia.
    assert (B : forall v X, 0 <= v < 10 * X -> 0 <= v / 10 < X)
      by (intros v X HX; Z.div_mod_to_equations; lia).
    assert (a / 10 = b / 10) by (apply IH; auto).
    clear - H E2. Z.div_mod_to_equations; lia.
Qed.

Lemma noT_append (s r : string) : noT (s ++ r) = noT s && noT r.
Proof.
  induction s as [|c s IH]; simpl; [reflexivity|].
  now rewrite IH, andb_assoc.
Qed.

Lemma digitChar_noT (v : Z) : (digitChar v =? "T")%char = false.
Proof.
  apply Ascii.eqb_neq. intros E. apply (f_equal nat_of_ascii) in E.
  rewrite digitChar_code in E. change (nat_of_ascii "T") with 84%nat in E.
  pose proof (Z.mod_pos_bound v 10 ltac:(lia)). lia.
Qed.

Lemma digits_noT (n : nat) (v : Z) : noT (digits n v) = true.
Proof.
  revert v. induction n as [|n IH]; intros v; simpl; [reflexivity|].
  rewrite noT_append, IH. cbn [noT]. now rewrite digitChar_noT.
Qed.

Lemma beforeT_prefix (s rest : string) :
  noT s = true -> JS.beforeT (s ++ String "T" rest) = s.
Proof.
  induction s as [|c s IH]; simpl; [reflexivity|].
  intros H. apply andb_true_iff in H. destruct H as [Hc Hs].
  destruct (c =? "T")%char; [discriminate|]. now rewrite IH.
Qed.

Lemma dateText_noT (date : Z * Z * Z) : noT (dateText date) = true.
Proof.
  destruct date as [[y m] d]. unfold dateText, yearText.
  destruct ((0 <=? y) && (y <=? 9999)); [|destruct (y <? 0)];
    rewrite ?noT_append, ?digits_noT; reflexivity.
Qed.

Lemma calendarDay_toISOString (t : Z) :
  Spec.calendarDay (toISOStringZ t) = dateText (utcDate t).
Proof.
  unfold Spec.calendarDay, toISOStringZ.
  apply beforeT_prefix, dateText_noT.
Qed.

Lemma dateText_injective (y1 m1 d1 y2 m2 d2 : Z) :
  0 <= y1 <= 9999 -> 0 <= y2 <= 9999 ->
  1 <= m1 <= 12 -> 1 <= m2 <= 12 -> 1 <= d1 <= 31 -> 1 <= d2 <= 31 ->
  dateText (y1, m1, d1) = dateText (y2, m2, d2) ->
  (y1, m1, d1) = (y2, m2, d2).
Proof.
  intros Hy1 Hy2 Hm1 Hm2 Hd1 Hd2. unfold dateText, yearText.
  replace ((0 <=? y1) && (y1 <=? 9999)) with true
    by (symmetry; apply andb_true_iff; split; apply Z.leb_le; lia).
  replace ((0 <=? y2) && (y2 <=? 9999)) with true
    by (symmetry; apply andb_true_iff; split; apply Z.leb_le; lia).
  pose proof (digits_length 4 y1) as Ly1. pose proof (digits_length 4 y2) as Ly2.
  pose proof (digits_length 2 m1) as Lm1. pose proof (digits_length 2 m2) as Lm2.
  pose proof (digits_injective 4 y1 y2) as Iy.
  pose proof (digits_injective 2 m1 m2) as Im.
  pose proof (digits_injective 2 d1 d2) as Id.
  revert Ly1 Ly2 Lm1 Lm2 Iy Im Id.
  generalize (digits 4 y1) (digits 4 y2) (digits 2 m1) (digits 2 m2)
    (digits 2 d1) (digits 2 d2).
  intros Y1 Y2 M1 M2 D1 D2 Ly1 Ly2 Lm1 Lm2 Iy Im Id E.
  apply append_inj_length in E; [|congruence].
  destruct E as [Ey E]. injection E as E.
  apply append_inj_length in E; [|congruence].
  destruct E as [Em E]. injection E as Ed.
  rewrite (Iy ltac:(cbn; lia) ltac:(cbn; lia) Ey).
  rewrite (Im ltac:(cbn; lia) ltac:(cbn; lia) Em).
  rewrite (Id ltac:(cbn; lia) ltac:(cbn; lia) Ed).
  reflexivity.
Qed.

(** Within the years 0000 to 9999, two instants have the same ISO date
    exactly when they are on the same UTC day. *)
Lemma dateText_same_day (t1 t2 : Z) :
  0 <= utcYear t1 <= 9999 -> 0 <= utcYear t2 <= 9999 ->
  dateText (utcDate t1) = dateText (utcDate t2)
  <-> DateOps.Day t1 = DateOps.Day t2.
Proof.
  intros H1 H2. unfold utcYear, utcDate in *.
  split.
  - intros E. apply civil_injective.
    pose proof (civil_ranges (DateOps.Day t1)) as R1.
    pose proof (civil_ranges (DateOps.Day t2)) as R2.
    destruct (civilFromDays (DateOps.Day t1)) as [[y1 m1] d1].
    destruct (civilFromDays (DateOps.Day t2)) as [[y2 m2] d2].
    simpl in H1, H2.
    apply dateText_injective; tauto.
  - now intros ->.
Qed.

(** With the ISO 8601 runtime, an entry whose start text is the ISO text of
    an instant [s] (its date, a [T], then any time text) starts on the
    calendar day of [instant] exactly when both are on the same UTC day. *)
Lemma startsOnDayOf_utc_day (offsetMinutes instant s : Z) (timePart : string)
    (entry : TimeEntry) :
  ti_start (timeInterval entry)
  = (dateText (utcDate s) ++ String "T" timePart)%string ->
  0 <= utcYear s <= 9999 -> 0 <= utcYear instant <= 9999 ->
  @Spec.startsOnDayOf (runtime offsetMinutes) instant entry
  = (DateOps.Day s =? DateOps.Day instant).
Proof.
  intros Hstart Hs Hi. unfold Spec.startsOnDayOf. rewrite Hstart.
  change (@toISOString (runtime offsetMinutes) instant)
    with (toISOStringZ instant).
  rewrite calendarDay_toISOString. unfold Spec.calendarDay.
  rewrite (beforeT_prefix _ _ (dateText_noT _)).
  destruct (Z.eqb_spec (DateOps.Day s) (DateOps.Day instant)) as [E|N].
  - apply String.eqb_eq. now apply dateText_same_day.
  - apply String.eqb_neq. intros E. apply N. now apply dateText_same_day in E.
Qed.

(** *** Time anchors *)

Lemma digitValue_bounds (c : ascii) :
  JS.isDigit c = true -> 0 <= JS.digitValue c <= 9.
Proof.
  unfold JS.isDigit, JS.digitValue. cbv zeta. intros H.
  apply andb_true_iff in H. destruct H as [Lo Hi].
  apply Nat.leb_le in Lo. apply Nat.leb_le in Hi.
  generalize dependent (nat_of_ascii c). intros n Lo Hi. lia.
Qed.

(** What the pattern accepts: one or two digits, a colon, two digits. *)
Lemma matchClock_shape (text h m : string) :
  JS.matchClock text = Some (h, m) ->
  text = (h ++ ":" ++ m)%string
  /\ (String.length h = 1 \/ String.length h = 2)%nat
  /\ String.length m = 2%nat
  /\ 0 <= JS.parseInt h <= 99
  /\ 0 <= JS.parseInt m <= 99.
Proof.
  unfold JS.matchClock.
  destruct text as [|c1 [|c2 [|c3 [|c4 [|c5 [|c6 rest]]]]]]; try discriminate.
  - destruct (JS.isDigit c1) eqn:D1; [|discriminate].
    destruct (Ascii.eqb_spec c2 ":") as [->|]; [|discriminate].
    destruct (JS.isDigit c3) eqn:D3; [|discriminate].
    destruct (JS.isDigit c4) eqn:D4; [|discriminate].
    simpl. intros E. injection E as <- <-.
    pose proof (digitValue_bounds _ D1). pose proof (digitValue_bounds _ D3).
    pose proof (digitValue_bounds _ D4).
    unfold JS.parseInt. cbn [JS.parseDigits String.length].
    repeat split; auto; lia.
  - destruct (JS.isDigit c1) eqn:D1; [|discriminate].
    destruct (JS.isDigit c2) eqn:D2; [|discriminate].
    destruct (Ascii.eqb_spec c3 ":") as [->|]; [|discriminate].
    destruct (JS.isDigit c4) eqn:D4; [|discriminate].
    destruct (JS.isDigit c5) eqn:D5; [|discriminate].
    simpl. intros E. injection E as <- <-.
    pose proof (digitValue_bounds _ D1). pose proof (digitValue_bounds _ D2).
    pose proof (digitValue_bounds _ D4). pose proof (digitValue_bounds _ D5).
    unfold JS.parseInt. cbn [JS.parseDigits String.length].
    repeat split; auto; lia.
Qed.

(** The fields of a local time made of a day and hours and minutes as the
    pattern captures them. *)
Lemma makeDate_fields (day hours minutes : Z) :
  0 <= hours <= 99 -> 0 <= minutes <= 99 ->
  let local := DateOps.MakeDate day (DateOps.MakeTime hours minutes 0 0) in
  DateOps.SecFromTime local = 0
  /\ DateOps.msFromTime local = 0
  /\ (hours < 24 -> minutes < 60 ->
      DateOps.Day local = day
      /\ DateOps.HourFromTime local = hours
      /\ DateOps.MinFromTime local = minutes)
  /\ DateOps.Day local = day + (60 * hours + minutes) / 1440.
Proof.
  intros Hh Hm local. unfold local.
  unfold DateOps.MakeDate, DateOps.MakeTime, DateOps.SecFromTime,
    DateOps.msFromTime, DateOps.Day, DateOps.HourFromTime, DateOps.MinFromTime,
    DateOps.msPerDay, DateOps.msPerHour, DateOps.msPerMinute,
    DateOps.msPerSecond.
  repeat split; try lia; try (intros; Z.div_mod_to_equations; lia);
    Z.div_mod_to_equations; lia.
Qed.

Lemma TimeClip_inRange (t : Z) :
  DateOps.inRange t = true -> DateOps.TimeClip t = Some t.
Proof. unfold DateOps.TimeClip. now intros ->. Qed.

Lemma TimeClip_Some (t t' : Z) :
  DateOps.TimeClip t = Some t' -> t' = t /\ DateOps.inRange t = true.
Proof.
  unfold DateOps.TimeClip. destruct (DateOps.inRange t); [|discriminate].
  intros E. injection E as <-. auto.
Qed.

(** A zone at a fixed offset from UTC has every local time. *)
Lemma fixed_offset_isLocalTime (offset t : Z) :
  DateOps.isLocalTime (fun _ _ => offset) t.
Proof. unfold DateOps.isLocalTime, DateOps.LocalTime, DateOps.UTC. lia. Qed.

(** The anchor of a clock time is the reference day's local time at the
    given hours and minutes, read in the zone and clipped. *)
Lemma resolveAnchor_clock {R : Runtime} (text h m : string)
    (reference : option Z) :
  JS.matchClock text = Some (h, m) ->
  resolveAnchor text reference
  = DateOps.setHours LocalTZA reference (JS.parseInt h) (JS.parseInt m) 0 0.
Proof. intros H. unfold resolveAnchor. now rewrite H. Qed.

(** C7 (as stated, refuted).  In Central European time the clocks go from
    02:00 to 03:00 on 31 March 2024: for the reference date 12:00 UTC of
    that day, the text ["02:30"] is resolved to 01:30 UTC, which is 03:30
    local time on that day, not the given hours.  And one hour east of UTC,
    for the last date there is as reference date, ["23:59"] on its day is
    beyond the range of dates: the anchor is an Invalid Date, no
    timestamp. *)
Lemma clock_anchor_counterexample :
  let reference := 1711886400000 in
  JS.matchClock "02:30" = Some ("02", "30")
  /\ @toISOString Sample.berlin reference = "2024-03-31T12:00:00.000Z"
  /\ (exists t,
        @resolveAnchor Sample.berlin "02:30" (Some reference) = Some t
        /\ @toISOString Sample.berlin t = "2024-03-31T01:30:00.000Z"
        /\ DateOps.Day (DateOps.LocalTime (@LocalTZA Sample.berlin) t)
           = DateOps.Day (DateOps.LocalTime (@LocalTZA Sample.berlin) reference)
        /\ DateOps.HourFromTime (DateOps.LocalTime (@LocalTZA Sample.berlin) t)
           = 3
        /\ DateOps.MinFromTime (DateOps.LocalTime (@LocalTZA Sample.berlin) t)
           = 30)
  /\ JS.matchClock "23:59" = Some ("23", "59")
  /\ DateOps.TimeClip DateOps.maxTime = Some DateOps.maxTime
  /\ @resolveAnchor Sample.zone "23:59" (Some DateOps.maxTime) = None.
Proof.
  split; [reflexivity|]. split; [vm_compute; reflexivity|]. split.
  - eexists. split; [vm_compute; reflexivity|].
    split; [vm_compute; reflexivity|]. repeat split.
  - repeat split.
Qed.

(** C7 (amended): for a text of the form [H:MM] or [HH:MM] and a reference
    date, take the local time that is the reference date's day at the given
    hours and minutes with seconds and milliseconds zero.  When the zone has
    that local time and it is within the range of dates, the anchor is the
    timestamp with that local time.  The hours and minutes are taken as
    written (up to 99 each): below 24 and 60 the anchor is on the reference
    date's day at those hours and minutes, beyond them the surplus carries
    into the following days. *)
Theorem clock_anchor {R : Runtime} (text h m : string) (reference : Z) :
  JS.matchClock text = Some (h, m) ->
  let hours := JS.parseInt h in
  let minutes := JS.parseInt m in
  let day := DateOps.Day (DateOps.LocalTime LocalTZA reference) in
  let local := DateOps.MakeDate day (DateOps.MakeTime hours minutes 0 0) in
  DateOps.isLocalTime LocalTZA local ->
  DateOps.inRange (DateOps.UTC LocalTZA local) = true ->
  exists t,
    resolveAnchor text (Some reference) = Some t
    /\ 0 <= hours <= 99 /\ 0 <= minutes <= 99
    /\ DateOps.LocalTime LocalTZA t = local
    /\ DateOps.SecFromTime (DateOps.LocalTime LocalTZA t) = 0
    /\ DateOps.msFromTime (DateOps.LocalTime LocalTZA t) = 0
    /\ (hours < 24 -> minutes < 60 ->
        DateOps.Day (DateOps.LocalTime LocalTZA t) = day
        /\ DateOps.HourFromTime (DateOps.LocalTime LocalTZA t) = hours
        /\ DateOps.MinFromTime (DateOps.LocalTime LocalTZA t) = minutes)
    /\ DateOps.Day (DateOps.LocalTime LocalTZA t)
       = day + (60 * hours + minutes) / 1440.
Proof.
  intros Hmatch hours minutes day local Hlocal Hrange.
  destruct (matchClock_shape _ _ _ Hmatch) as (_ & _ & _ & Hh & Hm).
  fold hours in Hh. fold minutes in Hm.
  exists (DateOps.UTC LocalTZA local).
  split.
  { rewrite (resolveAnchor_clock _ _ _ _ Hmatch). unfold DateOps.setHours.
    fold hours minutes day local. now apply TimeClip_inRange. }
  unfold DateOps.isLocalTime in Hlocal. rewrite Hlocal.
  split; [exact Hh|]. split; [exact Hm|]. split; [reflexivity|].
  exact (makeDate_fields day hours minutes Hh Hm).
Qed.

Lemma clock_anchor_witness :
  let autumn := 1729989000000 in
  (JS.matchClock "09:30" = Some ("09", "30")
   /\ @toISOString Sample.berlin autumn = "2024-10-27T00:30:00.000Z")
  /\ (exists t,
        @resolveAnchor Sample.zone "09:30" (Some Sample.clock) = Some t
        /\ @toISOString Sample.zone t = "2023-11-14T08:30:00.000Z"
        /\ DateOps.Day (DateOps.LocalTime (@LocalTZA Sample.zone) t)
           = DateOps.Day (DateOps.LocalTime (@LocalTZA Sample.zone) Sample.clock)
        /\ DateOps.HourFromTime (DateOps.LocalTime (@LocalTZA Sample.zone) t) = 9
        /\ DateOps.MinFromTime (DateOps.LocalTime (@LocalTZA Sample.zone) t) = 30
        /\ DateOps.SecFromTime (DateOps.LocalTime (@LocalTZA Sample.zone) t) = 0
        /\ DateOps.msFromTime (DateOps.LocalTime (@LocalTZA Sample.zone) t) = 0)
  /\ (exists t,
        @resolveAnchor Sample.berlin "09:30" (Some autumn) = Some t
        /\ @toISOString Sample.berlin t = "2024-10-27T08:30:00.000Z"
        /\ DateOps.Day (DateOps.LocalTime (@LocalTZA Sample.berlin) t)
           = DateOps.Day (DateOps.LocalTime (@LocalTZA Sample.berlin) autumn)
        /\ DateOps.HourFromTime (DateOps.LocalTime (@LocalTZA Sample.berlin) t)
           = 9
        /\ DateOps.MinFromTime (DateOps.LocalTime (@LocalTZA Sample.berlin) t)
           = 30).
Proof.
  assert (H : JS.matchClock "09:30" = Some ("09", "30")) by reflexivity.
  split; [split; [exact H | vm_compute; reflexivity]|].
  split.
  - destruct (@clock_anchor Sample.zone "09:30" "09" "30" Sample.clock H)
      as (t & A & _ & _ & L & S & M & D & _);
      [vm_compute; reflexivity | vm_compute; reflexivity |].
    exists t.
    destruct D as (D1 & D2 & D3); [reflexivity | reflexivity |].
    split; [exact A|].
    split.
    { apply TimeClip_Some in A.
      unfold resolveAnchor, DateOps.setHours in A. simpl in A.
      vm_compute in A. destruct A as [-> _]. vm_compute. reflexivity. }
    repeat split; assumption.
  - destruct (@clock_anchor Sample.berlin "09:30" "09" "30" 1729989000000 H)
      as (t & A & _ & _ & L & S & M & D & _);
      [vm_compute; reflexivity | vm_compute; reflexivity |].
    exists t.
    destruct D as (D1 & D2 & D3); [reflexivity | reflexivity |].
    split; [exact A|].
    split.
    { vm_compute in A. injection A as <-. vm_compute. reflexivity. }
    repeat split; assumption.
Defined.

(** Hours and minutes beyond 24 and 60 are accepted and roll over: "25:75"
    on the sample day is 02:15 on the day after. *)
Example clock_anchor_rolls_over :
  exists t,
    @resolveAnchor Sample.zone "25:75" (Some Sample.clock) = Some t
    /\ DateOps.Day (DateOps.LocalTime (@LocalTZA Sample.zone) t)
       = DateOps.Day (DateOps.LocalTime (@LocalTZA Sample.zone) Sample.clock) + 1
    /\ DateOps.HourFromTime (DateOps.LocalTime (@LocalTZA Sample.zone) t) = 2
    /\ DateOps.MinFromTime (DateOps.LocalTime (@LocalTZA Sample.zone) t) = 15.
Proof. eexists. split; [vm_compute; reflexivity|]. repeat split. Qed.

(** *** Add *)

(** The project step of add completes when the lookup, if there is one, is
    answered; it keeps the interval of the request and makes no write. *)
Lemma addProject_completes {U : Utils} {R : Runtime}
    (w : World) (ws : string) (options : Options)
    (request : TimeEntryRequest) :
  (forall requested,
      JS.whenTruthy (opt_project options) = Some requested ->
      exists projects, getProjects w ws = Ok projects) ->
  exists t request',
    addProject w ws options request = (t, Normal request')
    /\ req_start request' = req_start request
    /\ req_end request' = req_end request
    /\ existsb isCreateEntryCall t = false.
Proof.
  intros Hprojects. unfold addProject.
  destruct (JS.whenTruthy (opt_project options)) as [requested|].
  - destruct (Hprojects requested eq_refl) as [projects E].
    rewrite E. simpl.
    destruct (findProject projects requested) as [p|]; simpl;
      eexists _, _; repeat split.
  - eexists _, _. repeat split.
Qed.

(** C6 (as stated, refuted): 200000000000 minutes is a duration the parser
    accepts, yet without a start time option add sets no start to now minus
    the duration: that time is beyond the range of dates, the start is an
    Invalid Date, [toISOString] throws and the command exits with status 1
    without creating an entry.  Likewise with a start time text that is no
    date: there is no start for the end to be [d] minutes after. *)
Lemma add_interval_counterexample :
  let w := Sample.world [] [] in
  let d := 200000000000 in
  let tomorrow :=
    {| opt_description := None; opt_billable := None; opt_project := None;
       opt_startTime := Some "tomorrow"; opt_endTime := None |} in
  (@parseDuration SpecUtils.utils "200000000000" = Ok d
   /\ DateOps.inRange (now w) = true
   /\ DateOps.inRange (now w - d * DateOps.msPerMinute) = false
   /\ @addInterval Sample.zone w noOptions d = (None, Some (now w))
   /\ @add SpecUtils.utils Sample.zone w "200000000000" noOptions
      = ([Log (MsgAddBanner "200000000000"); Log (MsgDuration d);
          Log (MsgFailed CmdAdd "Invalid time value")], Exited 1)
   /\ existsb isCreateEntryCall
        (trace (@add SpecUtils.utils Sample.zone w "200000000000" noOptions))
      = false)
  /\ (@parseDuration SpecUtils.utils "60" = Ok 60
      /\ @addInterval Sample.zone w tomorrow 60 = (None, None)
      /\ @add SpecUtils.utils Sample.zone w "60" tomorrow
         = ([Log (MsgAddBanner "60"); Log (MsgDuration 60);
             Log (MsgFailed CmdAdd "Invalid time value")], Exited 1)).
Proof. repeat split. Qed.

(** C6 (amended): for a duration text that parses to [d] minutes and for
    which the start and the end are dates (the start time text resolves to
    one, and neither is beyond the range of dates), add creates an entry
    whose end is [d] minutes after its start.  Without a start time option
    (or with an empty one) the end is now and the start is now minus [d]
    minutes; with a start time text the start is the text's anchor on today
    and the end is that start plus [d] minutes. *)
Theorem add_interval {U : Utils} {R : Runtime}
    (w : World) (duration : string) (options : Options) (ws : string)
    (d : Z) :
  hasApiKey w = true ->
  JS.whenTruthy (workspaceId w) = Some ws ->
  parseDuration duration = Ok d ->
  (forall requested,
      JS.whenTruthy (opt_project options) = Some requested ->
      exists projects, getProjects w ws = Ok projects) ->
  (forall text,
      JS.whenTruthy (opt_startTime options) = Some text ->
      exists s, resolveAnchor text (Some (now w)) = Some s
                /\ DateOps.inRange (s + d * DateOps.msPerMinute) = true) ->
  (JS.truthy (opt_startTime options) = false ->
   DateOps.inRange (now w - d * DateOps.msPerMinute) = true) ->
  exists s e request,
    addInterval w options d = (Some s, Some e)
    /\ e - s = d * DateOps.msPerMinute
    /\ (JS.truthy (opt_startTime options) = false ->
        e = now w /\ s = now w - d * DateOps.msPerMinute)
    /\ (forall text, JS.whenTruthy (opt_startTime options) = Some text ->
                     resolveAnchor text (Some (now w)) = Some s
                     /\ e = s + d * DateOps.msPerMinute)
    /\ req_start request = toISOString s
    /\ req_end request = Some (toISOString e)
    /\ In (CallCreateTimeEntry ws request) (trace (add w duration options)).
Proof.
  intros Hkey Hws Hparse Hprojects Hstart Hnow.
  assert (I : exists s e,
             addInterval w options d = (Some s, Some e)
             /\ e - s = d * DateOps.msPerMinute
             /\ (JS.truthy (opt_startTime options) = false ->
                 e = now w /\ s = now w - d * DateOps.msPerMinute)
             /\ (forall text,
                    JS.whenTruthy (opt_startTime options) = Some text ->
                    resolveAnchor text (Some (now w)) = Some s
                    /\ e = s + d * DateOps.msPerMinute)).
  { unfold addInterval, newDateNumber.
    destruct (JS.whenTruthy (opt_startTime options)) as [text|] eqn:T.
    - destruct (Hstart text eq_refl) as (s & A & Hrange).
      rewrite A. cbn [JS.add].
      change 60000 with DateOps.msPerMinute.
      rewrite (TimeClip_inRange _ Hrange).
      exists s, (s + d * DateOps.msPerMinute).
      split; [reflexivity|]. split; [lia|]. split.
      + intros N. apply whenTruthy_None in N. rewrite N in T. discriminate.
      + intros text' E. injection E as <-. auto.
    - assert (N : JS.truthy (opt_startTime options) = false)
        by now apply whenTruthy_None.
      cbn [JS.sub]. change 60000 with DateOps.msPerMinute.
      rewrite (TimeClip_inRange _ (Hnow N)).
      exists (now w - d * DateOps.msPerMinute), (now w).
      split; [reflexivity|]. split; [lia|]. split.
      + auto.
      + intros text' E. discriminate. }
  destruct I as (s & e & HI & Hlen & Hdefault & Hexplicit).
  set (seed := {| req_start := toISOString s;
                  req_end := Some (toISOString e);
                  req_description := requestDescription options;
                  req_billable := requestBillable w options;
                  req_projectId := None |}).
  destruct (addProject_completes w ws options seed Hprojects)
    as (t & request & HP & Hs & He & _).
  exists s, e, request.
  split; [exact HI|]. split; [exact Hlen|]. split; [exact Hdefault|].
  split; [exact Hexplicit|]. split; [now rewrite Hs|].
  split; [now rewrite He|].
  unfold add, configured. rewrite Hkey, Hws. simpl. rewrite Hparse. simpl.
  rewrite HI. simpl. fold seed. rewrite HP. simpl.
  destruct (createTimeEntry w ws request) as [entry|error];
    unfold trace; simpl; repeat (rewrite in_app_iff; simpl); auto 10.
Qed.

Lemma add_interval_witness :
  let w := Sample.world [] [Sample.alpha] in
  let at0930 :=
    {| opt_description := None; opt_billable := None; opt_project := None;
       opt_startTime := Some "09:30"; opt_endTime := None |} in
  (hasApiKey w = true
   /\ JS.whenTruthy (workspaceId w) = Some "ws1"
   /\ @parseDuration SpecUtils.utils "60" = Ok 60
   /\ @parseDuration SpecUtils.utils "1h30m" = Ok 90
   /\ DateOps.inRange (now w - 60 * DateOps.msPerMinute) = true)
  /\ (exists s e request,
        @addInterval Sample.zone w noOptions 60 = (Some s, Some e)
        /\ e - s = 60 * DateOps.msPerMinute
        /\ e = now w
        /\ req_start request = "2023-11-14T21:13:20.000Z"
        /\ req_end request = Some "2023-11-14T22:13:20.000Z"
        /\ In (CallCreateTimeEntry "ws1" request)
              (trace (@add SpecUtils.utils Sample.zone w "60" noOptions)))
  /\ (exists s e request,
        @addInterval Sample.zone w at0930 90 = (Some s, Some e)
        /\ @resolveAnchor Sample.zone "09:30" (Some (now w)) = Some s
        /\ e = s + 90 * DateOps.msPerMinute
        /\ req_start request = "2023-11-14T08:30:00.000Z"
        /\ req_end request = Some "2023-11-14T10:00:00.000Z"
        /\ In (CallCreateTimeEntry "ws1" request)
              (trace (@add SpecUtils.utils Sample.zone w "1h30m" at0930))).
Proof.
  set (w := Sample.world [] [Sample.alpha]).
  set (at0930 :=
         {| opt_description := None; opt_billable := None;
            opt_project := None; opt_startTime := Some "09:30";
            opt_endTime := None |}).
  assert (H1 : hasApiKey w = true) by reflexivity.
  assert (H2 : JS.whenTruthy (workspaceId w) = Some "ws1") by reflexivity.
  assert (H3 : @parseDuration SpecUtils.utils "60" = Ok 60) by reflexivity.
  assert (H3' : @parseDuration SpecUtils.utils "1h30m" = Ok 90)
    by reflexivity.
  assert (H4 : forall options requested,
             opt_project options = None ->
             JS.whenTruthy (opt_project options) = Some requested ->
             exists projects, getProjects w "ws1" = Ok projects)
    by (intros options requested N E; rewrite N in E; discriminate E).
  assert (H5 : forall text,
             JS.whenTruthy (opt_startTime noOptions) = Some text ->
             exists s, @resolveAnchor Sample.zone text (Some (now w)) = Some s
                       /\ DateOps.inRange (s + 60 * DateOps.msPerMinute) = true)
    by (intros text E; discriminate E).
  assert (H6 : DateOps.inRange (now w - 60 * DateOps.msPerMinute) = true)
    by reflexivity.
  assert (H5' : forall text,
             JS.whenTruthy (opt_startTime at0930) = Some text ->
             exists s, @resolveAnchor Sample.zone text (Some (now w)) = Some s
                       /\ DateOps.inRange (s + 90 * DateOps.msPerMinute) = true).
  { intros text E. injection E as <-. eexists.
    split; [vm_compute; reflexivity | vm_compute; reflexivity]. }
  assert (H6' : JS.truthy (opt_startTime at0930) = false ->
                DateOps.inRange (now w - 90 * DateOps.msPerMinute) = true)
    by (intros E; discriminate E).
  split; [auto 10|]. split.
  - destruct (@add_interval SpecUtils.utils Sample.zone
                w "60" noOptions "ws1" 60 H1 H2 H3
                (fun requested => H4 noOptions requested eq_refl)
                H5 (fun _ => H6))
      as (s & e & request & I & L & D & _ & S & E & C).
    exists s, e, request.
    destruct (D eq_refl) as [De Ds].
    repeat split; trivial.
    + rewrite S, Ds. vm_compute. reflexivity.
    + rewrite E, De. vm_compute. reflexivity.
  - destruct (@add_interval SpecUtils.utils Sample.zone
                w "1h30m" at0930 "ws1" 90 H1 H2 H3'
                (fun requested => H4 at0930 requested eq_refl)
                H5' H6')
      as (s & e & request & I & L & _ & X & S & E & C).
    exists s, e, request.
    destruct (X "09:30" eq_refl) as [Xs Xe].
    assert (Es : s = 1699950600000).
    { vm_compute in Xs. now injection Xs as <-. }
    repeat split; trivial.
    + rewrite S, Es. vm_compute. reflexivity.
    + rewrite E, Xe, Es. vm_compute. reflexivity.
Defined.

(** *** Project resolution *)

Lemma prefix_append (p s : string) :
  String.prefix p s = true <-> exists rest, s = (p ++ rest)%string.
Proof.
  revert s. induction p as [|a p IH]; intros s.
  - split; [intros _; exists s; reflexivity|].
    intros _. destruct s; reflexivity.
  - destruct s as [|b s]; simpl.
    + split; [discriminate | intros [rest E]; discriminate].
    + destruct (ascii_dec a b) as [->|N].
      * rewrite IH. split; intros [rest E]; exists rest.
        -- now rewrite E.
        -- now injection E.
      * split; [discriminate|]. intros [rest E]. injection E as E1 _.
        congruence.
Qed.

(** [includes] finds exactly the texts that contain the other. *)
Lemma includes_contains (s sub : string) :
  JS.includes s sub = true <-> Spec.contains s sub.
Proof.
  unfold Spec.contains. split.
  - induction s as [|c s IH]; cbn [JS.includes];
      rewrite orb_true_iff, prefix_append.
    + intros [[rest E]|F]; [|discriminate]. exists EmptyString, rest. exact E.
    + intros [[rest E]|F].
      * exists EmptyString, rest. exact E.
      * destruct (IH F) as (before & after & ->).
        exists (String c before), after. reflexivity.
  - intros (before & after & ->).
    induction before as [|c before IH].
    + assert (P : String.prefix sub (sub ++ after) = true)
        by (apply prefix_append; now exists after).
      cbn [append].
      destruct (sub ++ after)%string; cbn [JS.includes];
        rewrite orb_true_iff; now left.
    + cbn [append JS.includes]. rewrite orb_true_iff. now right.
Qed.

Lemma matchesProject_matches {R : Runtime} (requested : string)
    (p : Project) :
  matchesProject requested p = true <-> Spec.matches requested p.
Proof.
  unfold matchesProject, Spec.matches.
  now rewrite orb_true_iff, includes_contains, String.eqb_eq.
Qed.

Lemma matchesProject_no_match {R : Runtime} (requested : string)
    (p : Project) :
  matchesProject requested p = false <-> ~ Spec.matches requested p.
Proof.
  rewrite <- matchesProject_matches.
  destruct (matchesProject requested p); split; congruence.
Qed.

(** The lookup returns the first project that matches, and none exactly when
    no project matches. *)
Lemma findProject_first {R : Runtime} (projects : list Project)
    (requested : string) :
  (forall p, findProject projects requested = Some p
             <-> Spec.firstSuchThat (Spec.matches requested) projects p)
  /\ (findProject projects requested = None
      <-> Forall (fun p => ~ Spec.matches requested p) projects).
Proof.
  unfold findProject, Spec.firstSuchThat. split.
  - intros p. rewrite find_first.
    split; intros (before & after & E & M & B); exists before, after;
      (split; [exact E|]); split.
    + now apply matchesProject_matches.
    + eapply Forall_impl; [|exact B]. intros q. apply matchesProject_no_match.
    + now apply matchesProject_matches.
    + eapply Forall_impl; [|exact B]. intros q. apply matchesProject_no_match.
  - rewrite find_absent.
    split; intros B; (eapply Forall_impl; [|exact B]); intros q;
      apply matchesProject_no_match.
Qed.

(** A falsy project override (absent or empty) leaves the three commands
    without a lookup. *)
Lemma project_override_absent {U : Utils} {R : Runtime}
    (w : World) (ws : string) (options : Options) :
  JS.truthy (opt_project options) = false ->
  (forall draft, applyProject w ws options draft = pure draft)
  /\ (forall request, addProject w ws options request = pure request)
  /\ (forall request, startProject w ws options request = pure request).
Proof.
  intros H. apply whenTruthy_None in H.
  unfold applyProject, addProject, startProject. rewrite H. auto.
Qed.

(** In start, an override that matches no project has the project created;
    a failed creation leaves the request as it was. *)
Lemma startProject_creates {U : Utils} {R : Runtime}
    (w : World) (ws : string) (options : Options) (requested : string)
    (projects : list Project) (request : TimeEntryRequest) :
  JS.whenTruthy (opt_project options) = Some requested ->
  getProjects w ws = Ok projects ->
  findProject projects requested = None ->
  let spec := {| pr_name := sanitizeInput requested; pr_isPublic := true;
                 pr_billable := requestBillable w options;
                 pr_color := "#4CAF50" |} in
  startProject w ws options request
  = match createProject w ws spec with
    | Ok newProject =>
        ([CallGetProjects ws; Log (MsgCreatingProject requested);
          CallCreateProject ws spec;
          Log (MsgProjectCreated (project_name newProject))],
         Normal (withProjectId request (project_id newProject)))
    | Err error =>
        ([CallGetProjects ws; Log (MsgCreatingProject requested);
          CallCreateProject ws spec;
          Log (MsgProjectCreationFailed requested error)],
         Normal request)
    end.
Proof.
  intros Hreq Hprojects Hnone spec.
  unfold startProject. rewrite Hreq, Hprojects. simpl. rewrite Hnone.
  fold spec. destruct (createProject w ws spec); reflexivity.
Qed.

(** C8 (as stated, refuted): the empty override is contained in every name,
    so the first project matches it, yet edit makes no lookup and selects
    nothing; and in start an override that matches no project is not left
    alone with a warning: the project is created and assigned. *)
Lemma project_resolution_counterexample :
  let w := Sample.world [Sample.report] [Sample.alpha] in
  let draft := (seedUpdate Sample.report, []) in
  let request :=
    {| req_start := "2023-11-14T22:13:20.000Z"; req_end := None;
       req_description := ""; req_billable := false;
       req_projectId := None |} in
  Spec.firstSuchThat (@Spec.matches Sample.zone "") [Sample.alpha] Sample.alpha
  /\ @applyProject Sample.zone w "ws1" (projectOnly "") draft = pure draft
  /\ @findProject Sample.zone [Sample.alpha] "gamma" = None
  /\ @startProject SpecUtils.utils Sample.zone w "ws1" (projectOnly "gamma") request
     = ([CallGetProjects "ws1"; Log (MsgCreatingProject "gamma");
         CallCreateProject "ws1"
           {| pr_name := "gamma"; pr_isPublic := true; pr_billable := false;
              pr_color := "#4CAF50" |};
         Log (MsgProjectCreated "gamma")],
        Normal (withProjectId request "p9")).
Proof.
  split; [|repeat split].
  exists [], []. split; [reflexivity|]. split; [|constructor].
  left. exists EmptyString, "alpha". reflexivity.
Qed.

(** C8 (amended): for every project list and every override that is not the
    empty text, the lookup selects the first project whose name contains the
    override, letter case ignored (both are put in lower case), or whose id
    is the override; start, add and edit assign that project.  When no
    project matches, edit keeps its request and change list and add keeps
    its request, each with a warning and going on; start has the project
    created and assigns the new one, and when the creation is rejected it
    reports that and keeps its request without a project.  An empty override
    is no override: no lookup is made and nothing is printed. *)
Theorem project_resolution {U : Utils} {R : Runtime}
    (w : World) (ws : string) (options : Options) :
  (forall requested projects,
      JS.whenTruthy (opt_project options) = Some requested ->
      getProjects w ws = Ok projects ->
      (forall p, findProject projects requested = Some p
                 <-> Spec.firstSuchThat (Spec.matches requested) projects p)
      /\ (findProject projects requested = None
          <-> Forall (fun p => ~ Spec.matches requested p) projects)
      /\ (forall p, findProject projects requested = Some p ->
            (forall draft,
                applyProject w ws options draft
                = ([CallGetProjects ws],
                   Normal (setProjectId (fst draft) (project_id p),
                           (snd draft
                            ++ [("project → " ++ project_name p)%string])%list)))
            /\ (forall request,
                   addProject w ws options request
                   = ([CallGetProjects ws; Log (MsgProject (project_name p))],
                      Normal (withProjectId request (project_id p))))
            /\ (forall request,
                   startProject w ws options request
                   = ([CallGetProjects ws; Log (MsgProject (project_name p))],
                      Normal (withProjectId request (project_id p)))))
      /\ (findProject projects requested = None ->
            (forall draft,
                applyProject w ws options draft
                = ([CallGetProjects ws;
                    Log (MsgProjectNotFound CmdEdit requested)],
                   Normal draft))
            /\ (forall request,
                   addProject w ws options request
                   = ([CallGetProjects ws;
                       Log (MsgProjectNotFound CmdAdd requested)],
                      Normal request))
            /\ (forall request,
                   let spec :=
                     {| pr_name := sanitizeInput requested;
                        pr_isPublic := true;
                        pr_billable := requestBillable w options;
                        pr_color := "#4CAF50" |} in
                   startProject w ws options request
                   = match createProject w ws spec with
                     | Ok newProject =>
                         ([CallGetProjects ws;
                           Log (MsgCreatingProject requested);
                           CallCreateProject ws spec;
                           Log (MsgProjectCreated (project_name newProject))],
                          Normal (withProjectId request
                                    (project_id newProject)))
                     | Err error =>
                         ([CallGetProjects ws;
                           Log (MsgCreatingProject requested);
                           CallCreateProject ws spec;
                           Log (MsgProjectCreationFailed requested error)],
                          Normal request)
                     end)))
  /\ (JS.truthy (opt_project options) = false ->
      (forall draft, applyProject w ws options draft = pure draft)
      /\ (forall request, addProject w ws options request = pure request)
      /\ (forall request, startProject w ws options request = pure request)).
Proof.
  split; [|apply project_override_absent].
  intros requested projects Hreq Hprojects.
  destruct (findProject_first projects requested) as [F1 F2].
  split; [exact F1|]. split; [exact F2|]. split.
  - intros p Hp. repeat split; intros x.
    + unfold applyProject. rewrite Hreq, Hprojects. simpl. now rewrite Hp.
    + unfold addProject. rewrite Hreq, Hprojects. simpl. now rewrite Hp.
    + unfold startProject. rewrite Hreq, Hprojects. simpl. now rewrite Hp.
  - intros Hnone. split; [|split]; intros x.
    + unfold applyProject. rewrite Hreq, Hprojects. simpl. now rewrite Hnone.
    + unfold addProject. rewrite Hreq, Hprojects. simpl. now rewrite Hnone.
    + exact (startProject_creates w ws options requested projects x
               Hreq Hprojects Hnone).
Qed.

Lemma project_resolution_witness :
  let projects := [Sample.beta; Sample.alpha; Sample.alphabet] in
  let w := Sample.world [Sample.report] projects in
  let refusing := Scenario.projectCreationFails "Forbidden" w in
  let request :=
    {| req_start := "2023-11-14T22:13:20.000Z"; req_end := None;
       req_description := ""; req_billable := false;
       req_projectId := None |} in
  let spec :=
    {| pr_name := "gamma"; pr_isPublic := true; pr_billable := false;
       pr_color := "#4CAF50" |} in
  (JS.whenTruthy (opt_project (projectOnly "ALPHA")) = Some "ALPHA"
   /\ JS.whenTruthy (opt_project (projectOnly "gamma")) = Some "gamma"
   /\ JS.truthy (opt_project (projectOnly "")) = false
   /\ getProjects w "ws1" = Ok projects)
  /\ @findProject Sample.zone projects "ALPHA" = Some Sample.alpha
  /\ Spec.firstSuchThat (@Spec.matches Sample.zone "ALPHA") projects Sample.alpha
  /\ @applyProject Sample.zone w "ws1" (projectOnly "ALPHA")
       (seedUpdate Sample.report, [])
     = ([CallGetProjects "ws1"],
        Normal (setProjectId (seedUpdate Sample.report) "p1",
                ["project → Alpha"]))
  /\ @addProject Sample.zone w "ws1" (projectOnly "gamma") request
     = ([CallGetProjects "ws1"; Log (MsgProjectNotFound CmdAdd "gamma")],
        Normal request)
  /\ @startProject SpecUtils.utils Sample.zone refusing "ws1"
       (projectOnly "gamma") request
     = ([CallGetProjects "ws1"; Log (MsgCreatingProject "gamma");
         CallCreateProject "ws1" spec;
         Log (MsgProjectCreationFailed "gamma" "Forbidden")],
        Normal request)
  /\ @startProject SpecUtils.utils Sample.zone w "ws1" (projectOnly "") request
     = pure request.
Proof.
  set (projects := [Sample.beta; Sample.alpha; Sample.alphabet]).
  set (w := Sample.world [Sample.report] projects).
  set (refusing := Scenario.projectCreationFails "Forbidden" w).
  assert (H1 : JS.whenTruthy (opt_project (projectOnly "ALPHA")) = Some "ALPHA")
    by reflexivity.
  assert (H1' : JS.whenTruthy (opt_project (projectOnly "gamma")) = Some "gamma")
    by reflexivity.
  assert (H1'' : JS.truthy (opt_project (projectOnly "")) = false)
    by reflexivity.
  assert (H2 : getProjects w "ws1" = Ok projects) by reflexivity.
  assert (H2' : getProjects refusing "ws1" = Ok projects) by reflexivity.
  assert (H3 : @findProject Sample.zone projects "ALPHA" = Some Sample.alpha)
    by reflexivity.
  assert (H4 : @findProject Sample.zone projects "gamma" = None)
    by reflexivity.
  cbv zeta. split; [auto|]. split; [exact H3|].
  destruct (proj1 (@project_resolution SpecUtils.utils Sample.zone
                     w "ws1" (projectOnly "ALPHA")) _ _ H1 H2)
    as (A & _ & B & _).
  destruct (proj1 (@project_resolution SpecUtils.utils Sample.zone
                     w "ws1" (projectOnly "gamma")) _ _ H1' H2)
    as (_ & _ & _ & C).
  destruct (proj1 (@project_resolution SpecUtils.utils Sample.zone
                     refusing "ws1" (projectOnly "gamma")) _ _ H1' H2')
    as (_ & _ & _ & D).
  destruct (proj2 (@project_resolution SpecUtils.utils Sample.zone
                     w "ws1" (projectOnly "")) H1'')
    as (_ & _ & E).
  split; [apply A; exact H3|].
  split; [exact (proj1 (B _ H3) _)|].
  split; [exact (proj1 (proj2 (C H4)) _)|].
  split; [exact (proj2 (proj2 (D H4)) _)|].
  exact (E _).
Defined.

(* ================================================================= *)
(** ** Beyond the claims: a logic of command blocks *)

Lemma sat_intro {A} (P : Event -> Prop) (Q : A -> Prop) (t : list Event)
    (c : Completion A) :
  Forall P t ->
  (forall a, c = Normal a -> Q a) ->
  (forall code, c = Exited code -> code = 1 /\ endsWithFailure t) ->
  Satisfies P Q (t, c).
Proof. intros H1 H2 H3. split; [exact H1|]. split; [exact H2 | exact H3]. Qed.

Lemma sat_pure {A} (P : Event -> Prop) (Q : A -> Prop) (a : A) :
  Q a -> Satisfies P Q (pure a).
Proof.
  intros H. apply sat_intro.
  - constructor.
  - intros a' E. now injection E as <-.
  - discriminate.
Qed.

Lemma sat_log (P : Event -> Prop) (Q : unit -> Prop) (m : Message) :
  P (Log m) -> Q tt -> Satisfies P Q (log m).
Proof.
  intros HP HQ. apply sat_intro.
  - apply Forall_cons; [assumption | constructor].
  - intros [] _. exact HQ.
  - discriminate.
Qed.

Lemma sat_ret {A} (P : Event -> Prop) (Q : A -> Prop) : Satisfies P Q ret.
Proof. apply sat_intro; [constructor | discriminate | discriminate]. Qed.

Lemma sat_throw {A} (P : Event -> Prop) (Q : A -> Prop) (error : string) :
  Satisfies P Q (throw error).
Proof. apply sat_intro; [constructor | discriminate | discriminate]. Qed.

(** [console.log(failure); process.exit(1)] *)
Lemma sat_log_exit {A} (P : Event -> Prop) (Q : A -> Prop) (m : Message) :
  P (Log m) -> isFailure m = true -> Satisfies P Q (log m ;; exit 1).
Proof.
  intros HP HF. apply sat_intro.
  - apply Forall_cons; [assumption | constructor].
  - discriminate.
  - intros code E. injection E as <-. split; [reflexivity|].
    exists [], m. auto.
Qed.

Lemma sat_call {A} (P : Event -> Prop) (Q : A -> Prop) (e : Event)
    (r : Result A) :
  P e -> (forall a, r = Ok a -> Q a) -> Satisfies P Q (call e r).
Proof.
  intros HP HQ. destruct r as [a|error]; apply sat_intro;
    try (apply Forall_cons; [assumption | constructor]); try discriminate.
  intros a' E. injection E as <-. now apply HQ.
Qed.

Lemma sat_bind {A B} (P : Event -> Prop) (Q : A -> Prop) (Q' : B -> Prop)
    (m : Cmd A) (k : A -> Cmd B) :
  Satisfies P Q m -> (forall a, Q a -> Satisfies P Q' (k a)) ->
  Satisfies P Q' (bind m k).
Proof.
  intros (Ht & Hv & He) Hk. destruct m as [t [a| |code|error]];
    unfold trace, completion in *; simpl in *.
  - specialize (Hk a (Hv a eq_refl)).
    destruct (k a) as [t' c']. destruct Hk as (Ht' & Hv' & He').
    unfold trace, completion in *; simpl in *.
    apply sat_intro.
    + apply Forall_app. auto.
    + exact Hv'.
    + intros code E. destruct (He' code E) as (C & before & m & T & F).
      split; [exact C|].
      exists (t ++ before)%list, m. rewrite T. now rewrite app_assoc.
  - apply sat_intro; auto; discriminate.
  - apply sat_intro; auto; try discriminate.
    intros code' E. injection E as <-. now apply He.
  - apply sat_intro; auto; discriminate.
Qed.

Lemma sat_weaken {A} (P P' : Event -> Prop) (Q Q' : A -> Prop) (m : Cmd A) :
  Satisfies P Q m -> (forall e, P e -> P' e) -> (forall a, Q a -> Q' a) ->
  Satisfies P' Q' m.
Proof.
  intros (Ht & Hv & He) HP HQ. destruct m as [t c]. apply sat_intro.
  - eapply Forall_impl; [|exact Ht]. exact HP.
  - intros a E. auto.
  - exact He.
Qed.

Lemma sat_attempt {A} (P : Event -> Prop) (Q : A -> Prop)
    (Q' : Result A -> Prop) (body : Cmd A) :
  Satisfies P Q body -> (forall a, Q a -> Q' (Ok a)) ->
  (forall error, Q' (Err error)) -> Satisfies P Q' (attempt body).
Proof.
  intros (Ht & Hv & He) Hok Herr.
  destruct body as [t c]. unfold trace, completion in *. simpl in *.
  destruct c as [a| |code|error]; simpl; apply sat_intro; trivial;
    try discriminate;
    try (intros r E; injection E as <-; now auto).
Qed.

(** A command: its body, with a thrown error reported and turned into an
    exit. *)
Lemma sat_tryCatch (P : Event -> Prop) (Q : unit -> Prop) (c : Command)
    (body : Cmd unit) :
  Satisfies P Q body -> (forall error, P (Log (MsgFailed c error))) ->
  Satisfies P (fun _ => False) (tryCatch c body).
Proof.
  intros (Ht & Hv & He) HP.
  destruct body as [t k]. unfold trace, completion in *. simpl in *.
  destruct k as [a| |code|error]; simpl; apply sat_intro; trivial;
    try discriminate.
  - apply Forall_app. split; [exact Ht|].
    apply Forall_cons; [apply HP | constructor].
  - intros code E. injection E as <-. split; [reflexivity|].
    exists t, (MsgFailed c error). auto.
Qed.

(** The two precondition checks yield the configured workspace. *)
Lemma sat_configured (P : Event -> Prop) (w : World) :
  (forall m, P (Log m)) ->
  Satisfies P (fun ws => hasApiKey w = true
                         /\ JS.whenTruthy (workspaceId w) = Some ws)
    (configured w).
Proof.
  intros HP. unfold configured.
  destruct (hasApiKey w).
  - destruct (JS.whenTruthy (workspaceId w)) as [ws|].
    + apply sat_pure. auto.
    + apply (sat_log_exit P _ MsgNoWorkspace); auto.
  - apply (sat_bind P (fun _ => False)).
    + apply (sat_log_exit P _ MsgNotAuthenticated); auto.
    + intros _ [].
Qed.

Lemma sat_call_answer {A} (P : Event -> Prop) (e : Event) (r : Result A) :
  P e -> Satisfies P (fun a => r = Ok a) (call e r).
Proof. intros HP. apply sat_call; auto. Qed.

Lemma sat_log_any (P : Event -> Prop) (m : Message) :
  P (Log m) -> Satisfies P (fun _ => True) (log m).
Proof. intros HP. now apply sat_log. Qed.

(** One step through a block: the head of a sequence, a branch, or a leaf. *)
Ltac sat_step :=
  lazymatch goal with
  | |- Satisfies _ _ (tryCatch _ _) =>
      apply sat_tryCatch with (Q := fun _ => True)
  | |- Satisfies _ _ (bind (log _) (fun _ => exit 1)) => apply sat_log_exit
  | |- Satisfies _ _ (bind (log _) _) =>
      apply sat_bind with (Q := fun _ => True);
      [apply sat_log_any | intros _ _]
  | |- Satisfies _ _ (bind (call _ ?r) _) =>
      apply sat_bind with (Q := fun a => r = Ok a);
      [apply sat_call_answer | intros ? ?]
  | |- Satisfies _ _ (bind (configured ?w) _) =>
      apply sat_bind
        with (Q := fun ws => hasApiKey w = true
                             /\ JS.whenTruthy (workspaceId w) = Some ws);
      [apply sat_configured | intros ? [? ?]]
  | |- Satisfies _ _ (log _) => apply sat_log
  | |- Satisfies _ _ ret => apply sat_ret
  | |- Satisfies _ _ (throw _) => apply sat_throw
  | |- Satisfies _ _ (pure _) => apply sat_pure
  | |- Satisfies _ _ (call _ _) => apply sat_call
  | |- Satisfies _ _ (if ?x then _ else _) => destruct x eqn:?
  | |- Satisfies _ _ (match ?x with _ => _ end) => destruct x eqn:?
  end.

(** *** Status *)

Lemma status_events {R : Runtime} (w : World) (options : Options) :
  Satisfies (fun e => isLog e || isFetchCall e = true) (fun _ => False)
    (status w options).
Proof.
  unfold status. sat_step; [|reflexivity].
  sat_step; [reflexivity|].
  apply sat_bind with (Q := fun _ => True).
  { sat_step; [sat_step; exact I|].
    apply sat_bind with (Q := fun _ => True); [now apply sat_log_any|].
    intros _ _. apply sat_ret. }
  intros _ _.
  apply sat_bind with (Q := fun _ => True).
  { sat_step; [sat_step; exact I|].
    apply sat_bind with (Q := fun _ => True); [now apply sat_log_any|].
    intros _ _. apply sat_ret. }
  intros ws _.
  sat_step; [reflexivity|]. sat_step; [reflexivity|].
  sat_step.
  - sat_step; [reflexivity | exact I].
  - sat_step; [reflexivity|].
    apply sat_bind with (Q := fun _ => True); [|intros _ _; apply sat_ret].
    sat_step; [sat_step; [reflexivity | exact I] | sat_step; exact I].
Qed.

(** *** Stop *)

Lemma stop_events {R : Runtime} (w : World) (options : Options) :
  Satisfies (stopEvent w) (fun _ => False) (stop w options).
Proof.
  unfold stop. sat_step; [|intros; exact I].
  sat_step; [exact I|].
  sat_step; [intros; exact I|].
  sat_step; [exact I|].
  sat_step; [exact I|].
  sat_step.
  - sat_step; [simpl; eauto 12|].
    sat_step; exact I.
  - sat_step; [exact I|]. sat_step.
Qed.

(** *** Start *)

Lemma startProject_events {U : Utils} {R : Runtime}
    (w : World) (ws : string) (options : Options)
    (timeEntry : TimeEntryRequest) :
  Satisfies
    (fun e => startEvent w options e /\ isStartTimerCall e = false)
    (fun request =>
       req_start request = req_start timeEntry
       /\ req_end request = req_end timeEntry
       /\ req_description request = req_description timeEntry
       /\ req_billable request = req_billable timeEntry)
    (startProject w ws options timeEntry).
Proof.
  unfold startProject.
  sat_step; [|sat_step; auto].
  sat_step; [split; [exact I | reflexivity]|].
  sat_step.
  - sat_step; [split; [exact I | reflexivity]|].
    sat_step. auto.
  - sat_step; [split; [exact I | reflexivity]|].
    apply sat_bind with (Q := fun _ => True).
    { apply sat_attempt with (Q := fun _ => True).
      - apply sat_call; [|auto].
        split; [|reflexivity]. simpl. eauto 10.
      - auto.
      - auto. }
    intros created _. sat_step.
    + sat_step; [split; [exact I | reflexivity]|]. sat_step. auto.
    + sat_step; [split; [exact I | reflexivity]|]. sat_step. auto.
Qed.

Lemma start_events {U : Utils} {R : Runtime}
    (w : World) (options : Options) :
  Satisfies (startEvent w options) (fun _ => False) (start w options).
Proof.
  unfold start. sat_step; [|intros; exact I].
  sat_step; [exact I|].
  sat_step; [intros; exact I|].
  sat_step; [exact I|].
  sat_step; [exact I|].
  sat_step.
  - sat_step; [exact I|]. sat_step.
  - eapply sat_bind.
    + eapply sat_weaken; [apply startProject_events | |].
      * intros e [He _]. exact He.
      * intros request Hreq. exact Hreq.
    + intros request (Hs & He & Hd & Hb). simpl in Hs, He, Hd, Hb.
      sat_step; [simpl; eauto 12|].
      sat_step; exact I.
Qed.

(** *** Add *)

Lemma sat_isoString {R : Runtime} (P : Event -> Prop) (d : option Z) :
  Satisfies P (fun text => exists t, d = Some t /\ text = toISOString t)
    (isoString d).
Proof.
  unfold isoString. destruct d as [t|].
  - apply sat_pure. eauto.
  - apply sat_throw.
Qed.

Lemma addInterval_length {R : Runtime} (w : World) (options : Options)
    (d s e : Z) :
  addInterval w options d = (Some s, Some e) ->
  e = s + d * DateOps.msPerMinute.
Proof.
  unfold addInterval, newDateNumber, DateOps.msPerMinute.
  destruct (JS.whenTruthy (opt_startTime options)) as [text|].
  - destruct (resolveAnchor text (Some (now w))) as [t|]; cbn [JS.add];
      intros E; [|discriminate]. injection E as <- E.
    apply TimeClip_Some in E. now destruct E as [-> _].
  - cbn [JS.sub]. intros E. injection E as E <-.
    apply TimeClip_Some in E. destruct E as [-> _]. lia.
Qed.

Lemma addProject_events {R : Runtime} (P : Event -> Prop) (w : World) (ws : string)
    (options : Options) (timeEntry : TimeEntryRequest) :
  (forall m, P (Log m)) -> P (CallGetProjects ws) ->
  Satisfies P
    (fun request =>
       req_start request = req_start timeEntry
       /\ req_end request = req_end timeEntry
       /\ req_description request = req_description timeEntry
       /\ req_billable request = req_billable timeEntry)
    (addProject w ws options timeEntry).
Proof.
  intros HL HG. unfold addProject.
  sat_step; [|sat_step; auto].
  sat_step; [exact HG|].
  sat_step.
  - sat_step; [apply HL|]. sat_step. auto.
  - sat_step; [apply HL|]. sat_step. auto.
Qed.

Lemma add_events {U : Utils} {R : Runtime}
    (w : World) (duration : string) (options : Options) :
  Satisfies (addEvent w duration options) (fun _ => False)
    (add w duration options).
Proof.
  unfold add. sat_step; [|intros; exact I].
  sat_step; [exact I|].
  sat_step; [intros; exact I|].
  apply sat_bind with (Q := fun d => parseDuration duration = Ok d).
  { destruct (parseDuration duration); [now apply sat_pure | apply sat_throw]. }
  intros d Hd.
  sat_step; [exact I|].
  destruct (addInterval w options d) as [startTime endTime] eqn:HI.
  eapply sat_bind; [apply sat_isoString|].
  intros startText (s & -> & ->).
  eapply sat_bind; [apply sat_isoString|].
  intros endText (e & -> & ->).
  pose proof (addInterval_length _ _ _ _ _ HI) as ->.
  eapply sat_bind.
  - apply addProject_events; [intros; exact I | exact I].
  - intros request (Hs & He & Hdesc & Hb). simpl in Hs, He, Hdesc, Hb.
    sat_step; [simpl; eauto 12|].
    sat_step; exact I.
Qed.

(** *** Edit *)

Lemma findTarget_sat {R : Runtime} (P : Event -> Prop) (entries : list TimeEntry)
    (entryId : string) :
  (forall m, P (Log m)) ->
  Satisfies P
    (fun found =>
       forall target, found = Some target ->
         In target entries
         /\ (toLowerCase entryId <> "last" -> entry_id target = entryId)
         /\ (toLowerCase entryId = "last" -> Spec.closed target = true))
    (findTarget entries entryId).
Proof.
  intros HL. unfold findTarget.
  destruct (String.eqb_spec (toLowerCase entryId) "last") as [E|N].
  - destruct (completedEntries entries) as [|first rest] eqn:C.
    + sat_step; [apply HL|]. sat_step.
    + apply sat_pure. intros target T. injection T as <-.
      assert (F : In first (completedEntries entries))
        by (rewrite C; now left).
      apply filter_In in F. destruct F as [F1 F2].
      split; [exact F1|]. split; [contradiction|]. intros _. exact F2.
  - apply sat_pure. intros target T. apply find_some in T.
    destruct T as [T1 T2]. apply String.eqb_eq in T2.
    split; [exact T1|]. split; [auto | contradiction].
Qed.

Lemma applyProject_sat {R : Runtime} (P : Event -> Prop) (w : World) (ws : string)
    (options : Options) (s : Draft) :
  (forall m, P (Log m)) -> P (CallGetProjects ws) ->
  Satisfies P
    (fun s' =>
       s' = match selectedProject w ws options with
            | Some p => (setProjectId (fst s) (project_id p),
                         (snd s ++ [("project → " ++ project_name p)%string])%list)
            | None => s
            end)
    (applyProject w ws options s).
Proof.
  intros HL HG. unfold applyProject, selectedProject.
  destruct (JS.whenTruthy (opt_project options)) as [requested|];
    [|now apply sat_pure].
  apply sat_bind with (Q := fun projects => getProjects w ws = Ok projects);
    [now apply sat_call_answer|].
  intros projects ->.
  destruct (findProject projects requested) as [p|].
  - now apply sat_pure.
  - sat_step; [apply HL|]. now apply sat_pure.
Qed.

Lemma applyStartTime_sat {R : Runtime} (P : Event -> Prop)
    (target : TimeEntry) (options : Options) (s : Draft) :
  Satisfies P
    (fun s' =>
       match JS.whenTruthy (opt_startTime options) with
       | Some text =>
           exists t,
             resolveAnchor text (dateParse (ti_start (timeInterval target)))
             = Some t
             /\ s' = (setStart (fst s) (toISOString t),
                      (snd s ++ ["start time"])%list)
       | None => s' = s
       end)
    (applyStartTime target options s).
Proof.
  unfold applyStartTime.
  destruct (JS.whenTruthy (opt_startTime options)) as [text|];
    [|now apply sat_pure].
  eapply sat_bind; [apply sat_isoString|].
  intros startText (t & E & ->). apply sat_pure. eauto.
Qed.

Lemma applyEndTime_sat {R : Runtime} (P : Event -> Prop) (w : World)
    (target : TimeEntry) (options : Options) (s : Draft) :
  Satisfies P
    (fun s' =>
       match JS.whenTruthy (opt_endTime options) with
       | Some text =>
           exists t,
             resolveAnchor text
               (match JS.whenTruthy (ti_end (timeInterval target)) with
                | Some endText => dateParse endText
                | None => Some (now w)
                end) = Some t
             /\ s' = (setEnd (fst s) (toISOString t),
                      (snd s ++ ["end time"])%list)
       | None => s' = s
       end)
    (applyEndTime w target options s).
Proof.
  unfold applyEndTime.
  destruct (JS.whenTruthy (opt_endTime options)) as [text|];
    [|now apply sat_pure].
  eapply sat_bind; [apply sat_isoString|].
  intros endText (t & E & ->). apply sat_pure. eauto.
Qed.

Lemma truthy_of_whenTruthy (o : option string) :
  JS.truthy o = match JS.whenTruthy o with Some _ => true | None => false end.
Proof.
  destruct o as [t|]; simpl; [|reflexivity].
  destruct (t =? "")%string; reflexivity.
Qed.

(** The builder, step by step: what it completes with. *)
Lemma buildUpdate_sat {U : Utils} {R : Runtime} (P : Event -> Prop)
    (w : World) (ws : string) (target : TimeEntry) (options : Options) :
  (forall m, P (Log m)) -> P (CallGetProjects ws) ->
  Satisfies P (Edited w ws target options)
    (buildUpdate w ws target options).
Proof.
  intros HL HG. unfold buildUpdate.
  apply sat_bind
    with (Q := fun s1 =>
                 s1 = match opt_description options with
                      | Some d => (setDescription (seedUpdate target)
                                     (sanitizeInput d), ["description"])
                      | None => (seedUpdate target, [])
                      end).
  { unfold applyDescription. destruct (opt_description options);
      now apply sat_pure. }
  intros s1 E1.
  apply sat_bind
    with (Q := fun s2 =>
                 s2 = match opt_billable options with
                      | Some b =>
                          (setBillable (fst s1) b,
                           (snd s1 ++ [if b then "marked billable"
                                       else "marked non-billable"])%list)
                      | None => s1
                      end).
  { unfold applyBillable. destruct (opt_billable options);
      now apply sat_pure. }
  intros s2 E2.
  eapply sat_bind; [now apply applyProject_sat|].
  intros s3 E3.
  eapply sat_bind; [apply applyStartTime_sat|].
  intros s4 E4.
  eapply sat_weaken; [apply (applyEndTime_sat P) | auto |].
  intros s5 E5. unfold Edited, changeLabels. cbv zeta.
  rewrite !truthy_of_whenTruthy.
  destruct (selectedProject w ws options) as [p|];
    destruct (JS.whenTruthy (opt_startTime options)) as [startText|];
    destruct (JS.whenTruthy (opt_endTime options)) as [endText|];
    destruct (opt_description options) as [d|];
    destruct (opt_billable options) as [b|];
    repeat match goal with
           | H : exists _, _ |- _ => destruct H as (? & ? & ?)
           end;
    subst; simpl; repeat split; eauto.
Qed.

Lemma edit_events {U : Utils} {R : Runtime}
    (w : World) (entryId : string) (options : Options) :
  Satisfies (editEvent w entryId) (fun _ => False) (edit w entryId options).
Proof.
  unfold edit. sat_step; [|intros; exact I].
  sat_step; [exact I|].
  sat_step; [intros; exact I|].
  sat_step; [exact I|].
  sat_step; [exact I|].
  eapply sat_bind; [apply findTarget_sat; intros; exact I|].
  intros found Hfound.
  destruct found as [target|]; [|sat_step; [exact I|]; sat_step].
  destruct (Hfound target eq_refl) as (Hin & Hid & Hlast).
  unfold editTarget.
  sat_step; [exact I|].
  eapply sat_bind;
    [apply buildUpdate_sat; [intros; exact I | exact I]|].
  intros [updateData changes] (_ & Htags & Htask & _). simpl in Htags, Htask.
  destruct changes as [|change changes].
  - sat_step; [exact I|]. sat_step.
  - sat_step; [simpl; eauto 14|].
    sat_step; exact I.
Qed.

(* ================================================================= *)
(** ** Beyond the claims: the commands as a whole *)

Lemma tryCatch_completion (c : Command) (body : Cmd unit) :
  completion (tryCatch c body) = Returned
  \/ exists code, completion (tryCatch c body) = Exited code.
Proof.
  destruct body as [t [a| |code|error]]; simpl; eauto.
Qed.

Lemma runCommand_guarded {U : Utils} {R : Runtime} (c : Command)
    (w : World) (duration entryId : string) (options : Options) :
  exists body, runCommand c w duration entryId options = tryCatch c body.
Proof. destruct c; eexists; reflexivity. Qed.

(** The events of each command, in general. *)
Lemma runCommand_events {U : Utils} {R : Runtime} (c : Command)
    (w : World) (duration entryId : string) (options : Options) :
  Satisfies
    (match c with
     | CmdStart => startEvent w options
     | CmdStop => stopEvent w
     | CmdStatus => fun e => isLog e || isFetchCall e = true
     | CmdAdd => addEvent w duration options
     | CmdEdit => editEvent w entryId
     end)
    (fun _ => False) (runCommand c w duration entryId options).
Proof.
  destruct c; simpl.
  - apply start_events.
  - apply stop_events.
  - apply status_events.
  - apply add_events.
  - apply edit_events.
Qed.

(** X1.  A command that finds no API key, or no workspace id (absent or
    empty), prints its banner and the failure and makes no collaborator
    call; the API key is checked first.  start, stop, add and edit then exit
    with status 1, status returns. *)
Theorem unconfigured_command_makes_no_call {U : Utils} {R : Runtime}
    (c : Command) (w : World) (duration entryId : string)
    (options : Options) :
  hasApiKey w = false \/ JS.truthy (workspaceId w) = false ->
  runCommand c w duration entryId options
  = ([Log (banner c duration);
      Log (if hasApiKey w then MsgNoWorkspace else MsgNotAuthenticated)],
     match c with CmdStatus => Returned | _ => Exited 1 end).
Proof.
  intros H.
  assert (K : hasApiKey w = false
              \/ (hasApiKey w = true
                  /\ JS.whenTruthy (workspaceId w) = None)).
  { destruct (hasApiKey w); [right | now left].
    destruct H as [H|H]; [discriminate|].
    split; [reflexivity|]. now apply whenTruthy_None. }
  destruct K as [K|[K1 K2]].
  - destruct c; simpl; unfold start, stop, status, add, edit, configured;
      rewrite K; reflexivity.
  - destruct c; simpl; unfold start, stop, status, add, edit, configured;
      rewrite K1, K2; reflexivity.
Qed.

Lemma unconfigured_command_makes_no_call_witness :
  let w := Scenario.withWorkspace (Some "") (Sample.world [Sample.running] []) in
  (hasApiKey w = false \/ JS.truthy (workspaceId w) = false)
  /\ @runCommand SpecUtils.utils Sample.zone CmdStop w "" "" noOptions
     = ([Log (MsgBanner CmdStop); Log MsgNoWorkspace], Exited 1)
  /\ @runCommand SpecUtils.utils Sample.zone CmdStatus w "" "" noOptions
     = ([Log (MsgBanner CmdStatus); Log MsgNoWorkspace], Returned).
Proof.
  assert (H : hasApiKey (Scenario.withWorkspace (Some "")
                           (Sample.world [Sample.running] [])) = false
              \/ JS.truthy (workspaceId
                              (Scenario.withWorkspace (Some "")
                                 (Sample.world [Sample.running] []))) = false)
    by (right; reflexivity).
  split; [exact H|]. split.
  - exact (@unconfigured_command_makes_no_call SpecUtils.utils Sample.zone
             CmdStop _ "" "" noOptions H).
  - exact (@unconfigured_command_makes_no_call SpecUtils.utils Sample.zone
             CmdStatus _ "" "" noOptions H).
Defined.

(** X2.  start, stop, status and edit open with the same two fetches; when
    either is rejected the command prints the error and exits with status 1
    without another call. *)
Theorem fetch_failure_ends_command {U : Utils} {R : Runtime}
    (c : Command) (w : World) (duration entryId : string)
    (options : Options) (ws : string) :
  c <> CmdAdd ->
  hasApiKey w = true ->
  JS.whenTruthy (workspaceId w) = Some ws ->
  (forall error,
      getCurrentUser w = Err error ->
      runCommand c w duration entryId options
      = ([Log (MsgBanner c); CallGetCurrentUser; Log (MsgFailed c error)],
         Exited 1))
  /\ (forall user error,
         getCurrentUser w = Ok user ->
         getTimeEntries w ws (user_id user) = Err error ->
         runCommand c w duration entryId options
         = ((fetched c ws user ++ [Log (MsgFailed c error)])%list, Exited 1)).
Proof.
  intros Hc Hkey Hws. split.
  - intros error Hu.
    destruct c; try contradiction; simpl;
      unfold start, stop, status, edit, configured;
      rewrite Hkey, Hws; simpl; rewrite Hu; reflexivity.
  - intros user error Hu He.
    destruct c; try contradiction; simpl;
      unfold start, stop, status, edit, configured;
      rewrite Hkey, Hws; simpl; rewrite Hu; simpl; rewrite He; reflexivity.
Qed.

Lemma fetch_failure_ends_command_witness :
  let w := Scenario.userFails "Network Error"
             (Sample.world [Sample.running] []) in
  (CmdStop <> CmdAdd /\ hasApiKey w = true
   /\ JS.whenTruthy (workspaceId w) = Some "ws1")
  /\ @runCommand SpecUtils.utils Sample.zone CmdStop w "" "" noOptions
     = ([Log (MsgBanner CmdStop); CallGetCurrentUser;
         Log (MsgFailed CmdStop "Network Error")], Exited 1).
Proof.
  assert (H1 : CmdStop <> CmdAdd) by discriminate.
  assert (H2 : hasApiKey (Scenario.userFails "Network Error"
                            (Sample.world [Sample.running] [])) = true)
    by reflexivity.
  assert (H3 : JS.whenTruthy
                 (workspaceId (Scenario.userFails "Network Error"
                                 (Sample.world [Sample.running] [])))
               = Some "ws1") by reflexivity.
  split; [auto|].
  exact (proj1 (@fetch_failure_ends_command SpecUtils.utils Sample.zone
                  CmdStop _ "" "" noOptions "ws1" H1 H2 H3)
           "Network Error" eq_refl).
Defined.

(** X3.  Every command ends by returning or by exiting with status 1, never
    another status; and when it exits, the last thing it printed is the
    failure: not authenticated, no workspace, or the error of the failed
    step. *)
Theorem exit_status_is_explained {U : Utils} {R : Runtime} (c : Command)
    (w : World) (duration entryId : string) (options : Options) :
  (completion (runCommand c w duration entryId options) = Returned
   \/ completion (runCommand c w duration entryId options) = Exited 1)
  /\ (completion (runCommand c w duration entryId options) = Exited 1 ->
      endsWithFailure (trace (runCommand c w duration entryId options))).
Proof.
  destruct (runCommand_events c w duration entryId options) as (_ & _ & He).
  split.
  - destruct (runCommand_guarded c w duration entryId options) as [body E].
    destruct (tryCatch_completion c body) as [Hr|[code Hx]];
      rewrite <- E in *; [now left|].
    right. rewrite Hx. f_equal. now apply (He code).
  - intros Hx. now apply (He 1).
Qed.

(** X4.  Each command calls only its own collaborator operations: status
    the two fetches; stop those and [stopTimer]; start those, the project
    lookup, [createProject] and [startTimer]; add the project lookup and
    [createTimeEntry]; edit the two fetches, the project lookup and
    [updateTimeEntry]. *)
Theorem commands_call_only_their_operations {U : Utils} {R : Runtime}
    (c : Command) (w : World) (duration entryId : string)
    (options : Options) :
  forallb (allowedCall c) (trace (runCommand c w duration entryId options))
  = true.
Proof.
  apply forallb_forall. intros e He.
  destruct (runCommand_events c w duration entryId options) as (Ht & _ & _).
  rewrite Forall_forall in Ht. specialize (Ht e He).
  destruct c, e; simpl in Ht |- *; try reflexivity; try contradiction;
    try discriminate.
Qed.

(** *** Start *)

Lemma find_none_existsb {A} (f : A -> bool) (l : list A) :
  existsb f l = match find f l with Some _ => true | None => false end.
Proof.
  induction l as [|a l IH]; simpl; [reflexivity|].
  destruct (f a); [reflexivity | exact IH].
Qed.

Lemma existsb_middle {A} (f : A -> bool) (before after : list A) (x : A) :
  f x = true -> existsb f (before ++ x :: after) = true.
Proof.
  intros H. rewrite existsb_app. simpl. rewrite H.
  now rewrite orb_true_r.
Qed.

(** X5.  In every world, a [startTimer] call of start carries an open entry
    (no end) that starts now, with the description and billable flag of the
    options, in the configured workspace; and the entries fetched just
    before held no open entry. *)
Theorem start_opens_an_entry_stamped_now {U : Utils} {R : Runtime}
    (w : World) (options : Options) (ws : string)
    (request : TimeEntryRequest) :
  In (CallStartTimer ws request) (trace (start w options)) ->
  JS.whenTruthy (workspaceId w) = Some ws
  /\ req_start request = toISOString (now w)
  /\ req_end request = None
  /\ req_description request = requestDescription options
  /\ req_billable request = requestBillable w options
  /\ exists user entries,
       getCurrentUser w = Ok user
       /\ getTimeEntries w ws (user_id user) = Ok entries
       /\ runningEntry entries = None.
Proof.
  intros Hin.
  destruct (start_events w options) as (Ht & _ & _).
  rewrite Forall_forall in Ht. exact (Ht _ Hin).
Qed.

Lemma start_opens_an_entry_stamped_now_witness :
  let w := Sample.world [Sample.report] [Sample.alpha] in
  let request :=
    {| req_start := "2023-11-14T22:13:20.000Z"; req_end := None;
       req_description := "Deep work"; req_billable := true;
       req_projectId := Some "p1" |} in
  let options :=
    {| opt_description := Some "Deep work"; opt_billable := Some true;
       opt_project := Some "alp"; opt_startTime := None;
       opt_endTime := None |} in
  In (CallStartTimer "ws1" request)
     (trace (@start SpecUtils.utils Sample.zone w options))
  /\ req_end request = None
  /\ exists user entries,
       getCurrentUser w = Ok user
       /\ getTimeEntries w "ws1" (user_id user) = Ok entries
       /\ runningEntry entries = None.
Proof.
  assert (H : In (CallStartTimer "ws1"
                    {| req_start := "2023-11-14T22:13:20.000Z";
                       req_end := None; req_description := "Deep work";
                       req_billable := true; req_projectId := Some "p1" |})
                 (trace (@start SpecUtils.utils Sample.zone
                           (Sample.world [Sample.report] [Sample.alpha])
                           {| opt_description := Some "Deep work";
                              opt_billable := Some true;
                              opt_project := Some "alp";
                              opt_startTime := None;
                              opt_endTime := None |})))
    by (simpl; auto 10).
  split; [exact H|].
  destruct (@start_opens_an_entry_stamped_now SpecUtils.utils Sample.zone
              _ _ _ _ H) as (_ & _ & E & _ & _ & F).
  split; [exact E | exact F].
Defined.

(** X6.  In every world, start creates a project only for a non-empty
    project option that the workspace's projects did not match; the new
    project is public, green ([#4CAF50]), named by the sanitized option and
    billable like the entry. *)
Theorem start_creates_only_a_missing_project {U : Utils} {R : Runtime}
    (w : World) (options : Options) (ws : string)
    (request : ProjectRequest) :
  In (CallCreateProject ws request) (trace (start w options)) ->
  exists requested projects,
    JS.whenTruthy (opt_project options) = Some requested
    /\ getProjects w ws = Ok projects
    /\ findProject projects requested = None
    /\ request = {| pr_name := sanitizeInput requested;
                    pr_isPublic := true;
                    pr_billable := requestBillable w options;
                    pr_color := "#4CAF50" |}.
Proof.
  intros Hin.
  destruct (start_events w options) as (Ht & _ & _).
  rewrite Forall_forall in Ht. exact (Ht _ Hin).
Qed.

Lemma start_creates_only_a_missing_project_witness :
  let w := Sample.world [Sample.report] [Sample.alpha] in
  let request := {| pr_name := "gamma"; pr_isPublic := true;
                    pr_billable := false; pr_color := "#4CAF50" |} in
  In (CallCreateProject "ws1" request)
     (trace (@start SpecUtils.utils Sample.zone w (projectOnly "gamma")))
  /\ exists requested projects,
       JS.whenTruthy (opt_project (projectOnly "gamma")) = Some requested
       /\ getProjects w "ws1" = Ok projects
       /\ @findProject Sample.zone projects requested = None.
Proof.
  assert (H : In (CallCreateProject "ws1"
                    {| pr_name := "gamma"; pr_isPublic := true;
                       pr_billable := false; pr_color := "#4CAF50" |})
                 (trace (@start SpecUtils.utils Sample.zone
                           (Sample.world [Sample.report] [Sample.alpha])
                           (projectOnly "gamma"))))
    by (simpl; auto 10).
  split; [exact H|].
  destruct (@start_creates_only_a_missing_project SpecUtils.utils Sample.zone
              _ _ _ _ H) as (requested & projects & A & B & C & _).
  exists requested, projects. auto.
Defined.

Lemma startProject_completes {U : Utils} {R : Runtime}
    (w : World) (ws : string) (options : Options)
    (timeEntry : TimeEntryRequest) :
  (forall requested,
      JS.whenTruthy (opt_project options) = Some requested ->
      exists projects, getProjects w ws = Ok projects) ->
  exists t request, startProject w ws options timeEntry = (t, Normal request).
Proof.
  intros Hp. unfold startProject.
  destruct (JS.whenTruthy (opt_project options)) as [requested|];
    [|eexists _, _; reflexivity].
  destruct (Hp requested eq_refl) as [projects ->]. simpl.
  destruct (findProject projects requested) as [p|]; simpl;
    [eexists _, _; reflexivity|].
  match goal with
  | |- context [createProject w ws ?spec] =>
      destruct (createProject w ws spec)
  end; simpl; eexists _, _; reflexivity.
Qed.

(** X7.  With the fetches answered and the project lookup answered when
    there is a project option, start calls [startTimer] exactly when no
    fetched entry is open: a failed project creation does not prevent it. *)
Theorem start_calls_startTimer_iff_idle {U : Utils} {R : Runtime}
    (w : World) (options : Options) (ws : string) (user : User)
    (entries : list TimeEntry) :
  ready w ws user entries ->
  (forall requested,
      JS.whenTruthy (opt_project options) = Some requested ->
      exists projects, getProjects w ws = Ok projects) ->
  existsb isStartTimerCall (trace (start w options))
  = negb (existsb isOpen entries).
Proof.
  intros Hready Hp.
  rewrite (find_none_existsb isOpen entries). fold (runningEntry entries).
  unfold start. use_ready Hready.
  destruct (runningEntry entries) as [running|]; [reflexivity|].
  match goal with
  | |- context [startProject w ws options ?te] =>
      destruct (startProject_completes w ws options te Hp)
        as (t & request & ->)
  end.
  simpl.
  destruct (startTimer w ws request) as [entry|error]; simpl;
    unfold trace; simpl; rewrite <- ?app_assoc; simpl;
    now apply existsb_middle.
Qed.

Lemma start_calls_startTimer_iff_idle_witness :
  let entries := [Sample.report; Sample.review] in
  let w := Scenario.projectCreationFails "Forbidden"
             (Sample.world entries [Sample.alpha]) in
  let user := {| user_id := "u1" |} in
  (ready w "ws1" user entries
   /\ (forall requested,
          JS.whenTruthy (opt_project (projectOnly "gamma")) = Some requested ->
          exists projects, getProjects w "ws1" = Ok projects))
  /\ existsb isStartTimerCall
       (trace (@start SpecUtils.utils Sample.zone w (projectOnly "gamma")))
     = true.
Proof.
  assert (H1 : ready (Scenario.projectCreationFails "Forbidden"
                        (Sample.world [Sample.report; Sample.review]
                           [Sample.alpha]))
                 "ws1" {| user_id := "u1" |} [Sample.report; Sample.review])
    by (repeat split).
  assert (H2 : forall requested,
             JS.whenTruthy (opt_project (projectOnly "gamma")) = Some requested ->
             exists projects,
               getProjects (Scenario.projectCreationFails "Forbidden"
                              (Sample.world [Sample.report; Sample.review]
                                 [Sample.alpha])) "ws1" = Ok projects)
    by (intros requested _; eexists; reflexivity).
  split; [auto|].
  exact (@start_calls_startTimer_iff_idle SpecUtils.utils Sample.zone
           _ (projectOnly "gamma") _ _ _ H1 H2).
Defined.

(** X8.  When the project option matches no project, start has it created:
    on success the timer is started in the new project; when the creation is
    rejected, start reports the rejection and still starts the timer, without
    a project. *)
Theorem start_with_a_missing_project {U : Utils} {R : Runtime}
    (w : World) (options : Options) (ws : string) (user : User)
    (entries : list TimeEntry) (requested : string)
    (projects : list Project) :
  ready w ws user entries ->
  runningEntry entries = None ->
  JS.whenTruthy (opt_project options) = Some requested ->
  getProjects w ws = Ok projects ->
  findProject projects requested = None ->
  let spec := {| pr_name := sanitizeInput requested; pr_isPublic := true;
                 pr_billable := requestBillable w options;
                 pr_color := "#4CAF50" |} in
  let request (projectId : option string) :=
    {| req_start := toISOString (now w); req_end := None;
       req_description := requestDescription options;
       req_billable := requestBillable w options;
       req_projectId := projectId |} in
  let lookup := [CallGetProjects ws; Log (MsgCreatingProject requested);
                 CallCreateProject ws spec] in
  (forall newProject entry,
      createProject w ws spec = Ok newProject ->
      startTimer w ws (request (Some (project_id newProject))) = Ok entry ->
      start w options
      = ((fetched CmdStart ws user ++ lookup
          ++ [Log (MsgProjectCreated (project_name newProject));
              CallStartTimer ws (request (Some (project_id newProject)));
              Log (MsgTimerStarted entry)])%list, Returned))
  /\ (forall error entry,
         createProject w ws spec = Err error ->
         startTimer w ws (request None) = Ok entry ->
         start w options
         = ((fetched CmdStart ws user ++ lookup
             ++ [Log (MsgProjectCreationFailed requested error);
                 CallStartTimer ws (request None);
                 Log (MsgTimerStarted entry)])%list, Returned)).
Proof.
  intros Hready Hrun Hreq Hprojects Hnone spec request lookup.
  split.
  - intros newProject entry Hc Hs.
    unfold start. use_ready Hready. rewrite Hrun.
    rewrite (startProject_creates _ _ _ _ _ _ Hreq Hprojects Hnone).
    fold spec. rewrite Hc. simpl. fold (request None).
    change (withProjectId (request None) (project_id newProject))
      with (request (Some (project_id newProject))).
    rewrite Hs. reflexivity.
  - intros error entry Hc Hs.
    unfold start. use_ready Hready. rewrite Hrun.
    rewrite (startProject_creates _ _ _ _ _ _ Hreq Hprojects Hnone).
    fold spec. rewrite Hc. simpl. fold (request None).
    rewrite Hs. reflexivity.
Qed.

Lemma start_with_a_missing_project_witness :
  let w := Scenario.projectCreationFails "Forbidden"
             (Sample.world [Sample.report] [Sample.alpha]) in
  let user := {| user_id := "u1" |} in
  let request :=
    {| req_start := "2023-11-14T22:13:20.000Z"; req_end := None;
       req_description := ""; req_billable := false;
       req_projectId := None |} in
  (ready w "ws1" user [Sample.report]
   /\ runningEntry [Sample.report] = None
   /\ JS.whenTruthy (opt_project (projectOnly "gamma")) = Some "gamma"
   /\ getProjects w "ws1" = Ok [Sample.alpha]
   /\ @findProject Sample.zone [Sample.alpha] "gamma" = None)
  /\ @start SpecUtils.utils Sample.zone w (projectOnly "gamma")
     = ((fetched CmdStart "ws1" user
         ++ [CallGetProjects "ws1"; Log (MsgCreatingProject "gamma");
             CallCreateProject "ws1"
               {| pr_name := "gamma"; pr_isPublic := true;
                  pr_billable := false; pr_color := "#4CAF50" |}]
         ++ [Log (MsgProjectCreationFailed "gamma" "Forbidden");
             CallStartTimer "ws1" request;
             Log (MsgTimerStarted (Sample.created request))])%list,
        Returned).
Proof.
  assert (H1 : ready (Scenario.projectCreationFails "Forbidden"
                        (Sample.world [Sample.report] [Sample.alpha]))
                 "ws1" {| user_id := "u1" |} [Sample.report])
    by (repeat split).
  assert (H2 : runningEntry [Sample.report] = None) by reflexivity.
  assert (H3 : JS.whenTruthy (opt_project (projectOnly "gamma"))
               = Some "gamma") by reflexivity.
  assert (H4 : getProjects (Scenario.projectCreationFails "Forbidden"
                              (Sample.world [Sample.report] [Sample.alpha]))
                 "ws1" = Ok [Sample.alpha]) by reflexivity.
  assert (H5 : @findProject Sample.zone [Sample.alpha] "gamma" = None) by reflexivity.
  split; [auto 6|].
  exact (proj2 (@start_with_a_missing_project SpecUtils.utils Sample.zone
                  _ (projectOnly "gamma") _ _ _ _ _ H1 H2 H3 H4 H5)
           "Forbidden" _ eq_refl eq_refl).
Defined.

(** *** Stop and status *)

(** X9.  In every world, stop calls [stopTimer] only for the fetched user,
    in the configured workspace, after a fetch of that user's entries that
    showed an open one. *)
Theorem stop_only_stops_a_running_timer {R : Runtime}
    (w : World) (options : Options) (ws userId : string) :
  In (CallStopTimer ws userId) (trace (stop w options)) ->
  exists user entries running,
    JS.whenTruthy (workspaceId w) = Some ws
    /\ getCurrentUser w = Ok user
    /\ userId = user_id user
    /\ getTimeEntries w ws userId = Ok entries
    /\ runningEntry entries = Some running.
Proof.
  intros Hin.
  destruct (stop_events w options) as (Ht & _ & _).
  rewrite Forall_forall in Ht. exact (Ht _ Hin).
Qed.

Lemma stop_only_stops_a_running_timer_witness :
  let w := Sample.world [Sample.running; Sample.report] [] in
  In (CallStopTimer "ws1" "u1") (trace (@stop Sample.zone w noOptions))
  /\ exists user entries running,
       JS.whenTruthy (workspaceId w) = Some "ws1"
       /\ getCurrentUser w = Ok user
       /\ "u1" = user_id user
       /\ getTimeEntries w "ws1" "u1" = Ok entries
       /\ runningEntry entries = Some running.
Proof.
  assert (H : In (CallStopTimer "ws1" "u1")
                 (trace (@stop Sample.zone
                           (Sample.world [Sample.running; Sample.report] [])
                           noOptions)))
    by (simpl; auto 10).
  split; [exact H|].
  exact (@stop_only_stops_a_running_timer Sample.zone _ _ _ _ H).
Defined.

(** X10.  With the fetches answered, stop calls [stopTimer] exactly when a
    fetched entry is open; with none open it only reports that no timer is
    running and returns. *)
Theorem stop_calls_stopTimer_iff_running {R : Runtime}
    (w : World) (options : Options) (ws : string) (user : User)
    (entries : list TimeEntry) :
  ready w ws user entries ->
  existsb isStopTimerCall (trace (stop w options)) = existsb isOpen entries
  /\ (existsb isOpen entries = false ->
      stop w options
      = ((fetched CmdStop ws user ++ [Log MsgNoTimerRunning])%list,
         Returned)).
Proof.
  intros Hready.
  rewrite (find_none_existsb isOpen entries). fold (runningEntry entries).
  unfold stop. use_ready Hready.
  destruct (runningEntry entries) as [running|]; simpl.
  - split; [|discriminate].
    destruct (stopTimer w ws (user_id user)); reflexivity.
  - split; reflexivity.
Qed.

Lemma stop_calls_stopTimer_iff_running_witness :
  let entries := [Sample.report; Sample.review] in
  let w := Sample.world entries [] in
  let user := {| user_id := "u1" |} in
  ready w "ws1" user entries
  /\ existsb isStopTimerCall (trace (@stop Sample.zone w noOptions)) = false
  /\ @stop Sample.zone w noOptions
     = ((fetched CmdStop "ws1" user ++ [Log MsgNoTimerRunning])%list, Returned).
Proof.
  assert (H : ready (Sample.world [Sample.report; Sample.review] [])
                "ws1" {| user_id := "u1" |} [Sample.report; Sample.review])
    by (repeat split).
  split; [exact H|].
  destruct (@stop_calls_stopTimer_iff_running Sample.zone
              _ noOptions _ _ _ H) as [A B].
  split; [exact A | exact (B eq_refl)].
Defined.



(** X12.  When a fetched entry is open, status reports the first open one
    with the time elapsed since its start, [round((now - start) / 60000)]
    minutes (NaN when the start is unreadable), prints no summary of the
    day, and returns. *)
Theorem status_reports_the_running_timer {R : Runtime}
    (w : World) (options : Options) (ws : string) (user : User)
    (entries : list TimeEntry) (running : TimeEntry) :
  ready w ws user entries ->
  runningEntry entries = Some running ->
  status w options
  = ((fetched CmdStatus ws user
      ++ [Log (MsgTimerRunning running
                 (option_map (fun s => JS.roundMinutesZ (now w - s))
                    (dateParse (ti_start (timeInterval running)))))])%list,
     Returned).
Proof.
  intros Hready Hrun.
  unfold status. use_ready Hready. rewrite Hrun.
  destruct (dateParse (ti_start (timeInterval running))); reflexivity.
Qed.

Lemma status_reports_the_running_timer_witness :
  let entries := [Sample.report; Sample.running] in
  let w := Sample.world entries [] in
  let user := {| user_id := "u1" |} in
  (ready w "ws1" user entries
   /\ runningEntry entries = Some Sample.running)
  /\ @status Sample.zone w noOptions
     = ((fetched CmdStatus "ws1" user
         ++ [Log (MsgTimerRunning Sample.running (Some 73))])%list, Returned).
Proof.
  assert (H1 : ready (Sample.world [Sample.report; Sample.running] [])
                 "ws1" {| user_id := "u1" |}
                 [Sample.report; Sample.running]) by (repeat split).
  assert (H2 : runningEntry [Sample.report; Sample.running]
               = Some Sample.running) by reflexivity.
  split; [auto|].
  exact (@status_reports_the_running_timer Sample.zone
           _ noOptions _ _ _ _ H1 H2).
Defined.

(** *** Add *)

(** X13.  In every world, a [createTimeEntry] call of add carries a closed
    entry in the configured workspace whose end is the parsed duration after
    its start, with the description and billable flag of the options. *)
Theorem add_creates_a_closed_entry_of_the_duration
    {U : Utils} {R : Runtime}
    (w : World) (duration : string) (options : Options) (ws : string)
    (request : TimeEntryRequest) :
  In (CallCreateTimeEntry ws request) (trace (add w duration options)) ->
  exists d s,
    JS.whenTruthy (workspaceId w) = Some ws
    /\ parseDuration duration = Ok d
    /\ req_start request = toISOString s
    /\ req_end request = Some (toISOString (s + d * DateOps.msPerMinute))
    /\ req_description request = requestDescription options
    /\ req_billable request = requestBillable w options.
Proof.
  intros Hin.
  destruct (add_events w duration options) as (Ht & _ & _).
  rewrite Forall_forall in Ht. exact (Ht _ Hin).
Qed.

Lemma add_creates_a_closed_entry_of_the_duration_witness :
  let w := Sample.world [Sample.running] [Sample.alpha] in
  let options :=
    {| opt_description := Some "Call"; opt_billable := None;
       opt_project := Some "alpha"; opt_startTime := Some "09:30";
       opt_endTime := None |} in
  let request :=
    {| req_start := "2023-11-14T08:30:00.000Z";
       req_end := Some "2023-11-14T09:15:00.000Z";
       req_description := "Call"; req_billable := false;
       req_projectId := Some "p1" |} in
  In (CallCreateTimeEntry "ws1" request)
     (trace (@add SpecUtils.utils Sample.zone w "45m" options))
  /\ exists d s,
       @parseDuration SpecUtils.utils "45m" = Ok d
       /\ req_start request = @toISOString Sample.zone s
       /\ req_end request
          = Some (@toISOString Sample.zone (s + d * DateOps.msPerMinute)).
Proof.
  assert (H : In (CallCreateTimeEntry "ws1"
                    {| req_start := "2023-11-14T08:30:00.000Z";
                       req_end := Some "2023-11-14T09:15:00.000Z";
                       req_description := "Call"; req_billable := false;
                       req_projectId := Some "p1" |})
                 (trace (@add SpecUtils.utils Sample.zone
                           (Sample.world [Sample.running] [Sample.alpha])
                           "45m"
                           {| opt_description := Some "Call";
                              opt_billable := None;
                              opt_project := Some "alpha";
                              opt_startTime := Some "09:30";
                              opt_endTime := None |})))
    by (simpl; auto 10).
  split; [exact H|].
  destruct (@add_creates_a_closed_entry_of_the_duration
              SpecUtils.utils Sample.zone _ _ _ _ _ H)
    as (d & s & _ & A & B & C & _).
  exists d, s. auto.
Defined.

(** X14.  add creates nothing from bad input: a duration [parseDuration]
    rejects, or a start time text that resolves to no valid date, makes it
    print the error and exit with status 1 before any collaborator call, the
    project lookup included. *)
Theorem add_rejects_bad_input {U : Utils} {R : Runtime}
    (w : World) (duration : string) (options : Options) (ws : string) :
  hasApiKey w = true ->
  JS.whenTruthy (workspaceId w) = Some ws ->
  (forall error,
      parseDuration duration = Err error ->
      add w duration options
      = ([Log (MsgAddBanner duration); Log (MsgFailed CmdAdd error)],
         Exited 1))
  /\ (forall d text,
         parseDuration duration = Ok d ->
         JS.whenTruthy (opt_startTime options) = Some text ->
         resolveAnchor text (Some (now w)) = None ->
         add w duration options
         = ([Log (MsgAddBanner duration); Log (MsgDuration d);
             Log (MsgFailed CmdAdd "Invalid time value")], Exited 1)).
Proof.
  intros Hkey Hws. split.
  - intros error Hp. unfold add, configured. rewrite Hkey, Hws. simpl.
    rewrite Hp. reflexivity.
  - intros d text Hp Ht Ha. unfold add, configured. rewrite Hkey, Hws. simpl.
    rewrite Hp. simpl. unfold addInterval. rewrite Ht, Ha. reflexivity.
Qed.

Lemma add_rejects_bad_input_witness :
  let w := Sample.world [] [Sample.alpha] in
  let options :=
    {| opt_description := None; opt_billable := None;
       opt_project := Some "alpha"; opt_startTime := Some "yesterday";
       opt_endTime := None |} in
  (hasApiKey w = true /\ JS.whenTruthy (workspaceId w) = Some "ws1")
  /\ @add SpecUtils.utils Sample.zone w "abc" options
     = ([Log (MsgAddBanner "abc");
         Log (MsgFailed CmdAdd "Invalid duration format")], Exited 1)
  /\ @add SpecUtils.utils Sample.zone w "1h" options
     = ([Log (MsgAddBanner "1h"); Log (MsgDuration 60);
         Log (MsgFailed CmdAdd "Invalid time value")], Exited 1).
Proof.
  assert (H1 : hasApiKey (Sample.world [] [Sample.alpha]) = true)
    by reflexivity.
  assert (H2 : JS.whenTruthy (workspaceId (Sample.world [] [Sample.alpha]))
               = Some "ws1") by reflexivity.
  split; [auto|]. split.
  - exact (proj1 (@add_rejects_bad_input SpecUtils.utils Sample.zone
                    _ "abc"
                    {| opt_description := None; opt_billable := None;
                       opt_project := Some "alpha";
                       opt_startTime := Some "yesterday";
                       opt_endTime := None |} _ H1 H2) _ eq_refl).
  - exact (proj2 (@add_rejects_bad_input SpecUtils.utils Sample.zone
                    _ "1h"
                    {| opt_description := None; opt_billable := None;
                       opt_project := Some "alpha";
                       opt_startTime := Some "yesterday";
                       opt_endTime := None |} _ H1 H2)
             60 "yesterday" eq_refl eq_refl eq_refl).
Defined.

(** *** Edit *)

Lemma buildUpdate_result {U : Utils} {R : Runtime}
    (w : World) (ws : string) (target : TimeEntry) (options : Options)
    (s : Draft) :
  completion (buildUpdate w ws target options) = Normal s ->
  Edited w ws target options s.
Proof.
  destruct (buildUpdate_sat (fun _ => True) w ws target options) as (_ & H & _);
    auto.
Qed.

(** X15.  In every world, an [updateTimeEntry] call of edit goes to an entry
    that was just fetched for the current user: the one whose id was given,
    or for "last" (in any letter case) a completed one; and the request
    carries that entry's tag ids and task id. *)
Theorem edit_updates_only_a_fetched_entry {U : Utils} {R : Runtime}
    (w : World) (entryId : string) (options : Options) (ws id : string)
    (data : UpdateData) :
  In (CallUpdateTimeEntry ws id data) (trace (edit w entryId options)) ->
  exists user entries target,
    JS.whenTruthy (workspaceId w) = Some ws
    /\ getCurrentUser w = Ok user
    /\ getTimeEntries w ws (user_id user) = Ok entries
    /\ In target entries
    /\ entry_id target = id
    /\ (toLowerCase entryId <> "last" -> id = entryId)
    /\ (toLowerCase entryId = "last" -> Spec.closed target = true)
    /\ upd_tagIds data = tagIds target
    /\ upd_taskId data = JS.whenTruthy (taskId target).
Proof.
  intros Hin.
  destruct (edit_events w entryId options) as (Ht & _ & _).
  rewrite Forall_forall in Ht. exact (Ht _ Hin).
Qed.

Lemma edit_updates_only_a_fetched_entry_witness :
  let entries := [Sample.running; Sample.report; Sample.review] in
  let w := Sample.world entries [] in
  let data := setDescription (seedUpdate Sample.report) "x" in
  In (CallUpdateTimeEntry "ws1" "e1" data)
     (trace (@edit SpecUtils.utils Sample.zone w "Last" (descriptionOnly "x")))
  /\ exists target,
       In target entries /\ entry_id target = "e1"
       /\ Spec.closed target = true.
Proof.
  assert (H : In (CallUpdateTimeEntry "ws1" "e1"
                    (setDescription (seedUpdate Sample.report) "x"))
                 (trace (@edit SpecUtils.utils Sample.zone
                           (Sample.world [Sample.running; Sample.report;
                                          Sample.review] [])
                           "Last" (descriptionOnly "x"))))
    by (simpl; auto 10).
  split; [exact H|].
  destruct (@edit_updates_only_a_fetched_entry SpecUtils.utils Sample.zone
              _ _ _ _ _ _ H)
    as (user & entries & target & _ & _ & E & A & B & _ & C & _).
  exists target. injection E as <-.
  split; [exact A|]. split; [exact B|]. apply C. reflexivity.
Defined.

(** X16.  When the builder completes, the change list names the overrides
    in the fixed order description, billable, project, start time, end time,
    whatever order they were given in: a label for a description or billable
    option that is set (an empty description included), for a project option
    only when the lookup selected a project, for a start or end time option
    only when it is not empty. *)
Theorem edit_lists_changes_in_a_fixed_order {U : Utils} {R : Runtime}
    (w : World) (ws : string) (target : TimeEntry) (options : Options)
    (payload : UpdateData) (changes : list string) :
  completion (buildUpdate w ws target options) = Normal (payload, changes) ->
  changes
  = ((match opt_description options with
      | Some _ => ["description"]
      | None => []
      end)
     ++ (match opt_billable options with
         | Some b => [if b then "marked billable" else "marked non-billable"]
         | None => []
         end)
     ++ (match selectedProject w ws options with
         | Some p => [("project → " ++ project_name p)%string]
         | None => []
         end)
     ++ (if JS.truthy (opt_startTime options) then ["start time"] else [])
     ++ (if JS.truthy (opt_endTime options) then ["end time"] else []))%list.
Proof.
  intros H. apply buildUpdate_result in H.
  destruct H as (H & _). exact H.
Qed.

Lemma edit_lists_changes_in_a_fixed_order_witness :
  let w := Sample.world [Sample.report] [Sample.alpha; Sample.beta] in
  exists payload changes,
    completion (@buildUpdate SpecUtils.utils Sample.zone w "ws1"
                  Sample.report Scenario.everyOption)
    = Normal (payload, changes)
    /\ changes = ["description"; "marked non-billable"; "project → Beta";
                  "start time"; "end time"].
Proof.
  eexists _, _. split; [reflexivity|].
  exact (@edit_lists_changes_in_a_fixed_order SpecUtils.utils Sample.zone
           (Sample.world [Sample.report] [Sample.alpha; Sample.beta])
           "ws1" Sample.report Scenario.everyOption _ _ eq_refl).
Defined.

(** X17.  When the builder completes, every field without an override is
    the entry's own: tag ids and task id always (no option changes them),
    the description and the billable flag when their option is not set, the
    project when no project was selected, the start and the end when their
    option is absent or empty.  The optional fields (end, project id, task
    id) are there only when truthy on the entry. *)
Theorem edit_keeps_fields_without_override {U : Utils} {R : Runtime}
    (w : World) (ws : string) (target : TimeEntry) (options : Options)
    (payload : UpdateData) (changes : list string) :
  completion (buildUpdate w ws target options) = Normal (payload, changes) ->
  upd_tagIds payload = tagIds target
  /\ upd_taskId payload = JS.whenTruthy (taskId target)
  /\ (opt_description options = None ->
      upd_description payload = description target)
  /\ (opt_billable options = None -> upd_billable payload = billable target)
  /\ (selectedProject w ws options = None ->
      upd_projectId payload = JS.whenTruthy (projectId target))
  /\ (JS.truthy (opt_startTime options) = false ->
      upd_start payload = ti_start (timeInterval target))
  /\ (JS.truthy (opt_endTime options) = false ->
      upd_end payload = JS.whenTruthy (ti_end (timeInterval target))).
Proof.
  intros H. apply buildUpdate_result in H.
  destruct H as (_ & Htags & Htask & Hd & Hb & Hp & Hs & He).
  simpl in *.
  split; [exact Htags|]. split; [exact Htask|].
  split; [intros E; now rewrite E in Hd|].
  split; [intros E; now rewrite E in Hb|].
  split; [intros E; now rewrite E in Hp|].
  split.
  - intros E. apply whenTruthy_None in E. now rewrite E in Hs.
  - intros E. apply whenTruthy_None in E. now rewrite E in He.
Qed.

Lemma edit_keeps_fields_without_override_witness :
  let w := Sample.world [Sample.report] [Sample.alpha] in
  let options :=
    {| opt_description := None; opt_billable := Some false;
       opt_project := Some ""; opt_startTime := None;
       opt_endTime := Some "" |} in
  exists payload changes,
    completion (@buildUpdate SpecUtils.utils Sample.zone w "ws1"
                  Sample.report options) = Normal (payload, changes)
    /\ upd_tagIds payload = ["tag1"]
    /\ upd_description payload = "Write report"
    /\ upd_projectId payload = Some "p1"
    /\ upd_start payload = "2023-11-14T09:00:00Z"
    /\ upd_end payload = Some "2023-11-14T10:30:00Z".
Proof.
  eexists _, _. split; [reflexivity|].
  destruct (@edit_keeps_fields_without_override SpecUtils.utils Sample.zone
              (Sample.world [Sample.report] [Sample.alpha]) "ws1"
              Sample.report
              {| opt_description := None; opt_billable := Some false;
                 opt_project := Some ""; opt_startTime := None;
                 opt_endTime := Some "" |} _ _ eq_refl)
    as (A & _ & B & _ & C & D & E).
  split; [exact A|]. split; [exact (B eq_refl)|].
  split; [exact (C eq_refl)|]. split; [exact (D eq_refl) | exact (E eq_refl)].
Defined.

(** X18.  When the builder completes, every override is in the request:
    the sanitized description, the billable flag, the id of the selected
    project, and the ISO text of the resolved start and end times.  A start
    time text is resolved against the entry's start; an end time text
    against the entry's end, or against now when the entry is open. *)
Theorem edit_applies_each_override {U : Utils} {R : Runtime}
    (w : World) (ws : string) (target : TimeEntry) (options : Options)
    (payload : UpdateData) (changes : list string) :
  completion (buildUpdate w ws target options) = Normal (payload, changes) ->
  (forall d, opt_description options = Some d ->
             upd_description payload = sanitizeInput d)
  /\ (forall b, opt_billable options = Some b -> upd_billable payload = b)
  /\ (forall p, selectedProject w ws options = Some p ->
                upd_projectId payload = Some (project_id p))
  /\ (forall text,
         JS.whenTruthy (opt_startTime options) = Some text ->
         exists t,
           resolveAnchor text (dateParse (ti_start (timeInterval target)))
           = Some t
           /\ upd_start payload = toISOString t)
  /\ (forall text,
         JS.whenTruthy (opt_endTime options) = Some text ->
         exists t,
           resolveAnchor text
             (match JS.whenTruthy (ti_end (timeInterval target)) with
              | Some endText => dateParse endText
              | None => Some (now w)
              end) = Some t
           /\ upd_end payload = Some (toISOString t)).
Proof.
  intros H. apply buildUpdate_result in H.
  destruct H as (_ & _ & _ & Hd & Hb & Hp & Hs & He).
  simpl in *.
  split; [intros d E; now rewrite E in Hd|].
  split; [intros b E; now rewrite E in Hb|].
  split; [intros p E; now rewrite E in Hp|].
  split.
  - intros text E. now rewrite E in Hs.
  - intros text E. now rewrite E in He.
Qed.

Lemma edit_applies_each_override_witness :
  let w := Sample.world [Sample.running] [Sample.alpha; Sample.beta] in
  exists payload changes,
    completion (@buildUpdate SpecUtils.utils Sample.zone w "ws1"
                  Sample.running Scenario.everyOption)
    = Normal (payload, changes)
    /\ upd_description payload = "Retro"
    /\ upd_billable payload = false
    /\ upd_projectId payload = Some "p3".
Proof.
  eexists _, _. split; [reflexivity|].
  destruct (@edit_applies_each_override SpecUtils.utils Sample.zone
              (Sample.world [Sample.running] [Sample.alpha; Sample.beta])
              "ws1" Sample.running Scenario.everyOption _ _ eq_refl)
    as (A & B & C & _).
  split; [exact (A _ eq_refl)|]. split; [exact (B _ eq_refl)|].
  exact (C Sample.beta eq_refl).
Defined.

Lemma setHours_clock {R : Runtime} (reference : option Z) (text h m : string)
    (t : Z) :
  JS.matchClock text = Some (h, m) ->
  resolveAnchor text reference = Some t ->
  exists r, reference = Some r /\ ClockTimeOn r h m t.
Proof.
  intros M A. rewrite (resolveAnchor_clock _ _ _ _ M) in A.
  destruct (matchClock_shape _ _ _ M) as (_ & _ & _ & Hh & Hm).
  destruct reference as [r|]; [|discriminate].
  exists r. split; [reflexivity|].
  unfold DateOps.setHours in A. apply TimeClip_Some in A.
  destruct A as [-> _]. unfold ClockTimeOn. cbv zeta.
  split; [reflexivity|]. intros L. unfold DateOps.isLocalTime in L.
  rewrite L. split; [reflexivity|].
  exact (proj1 (proj2 (proj2 (makeDate_fields _ _ _ Hh Hm)))).
Qed.

(** X19.  A clock time given to edit is taken on the entry's own day, not
    on today: for a start time text [H:MM] or [HH:MM] the new start is the
    local time "day of the entry's start, at the given hours and minutes"
    read in the zone; for such an end time text the day is that of the
    entry's end, or of now when the entry has no end.  When the zone has
    that local time and the hours and minutes are below 24 and 60, the new
    time is on that local day at those hours and minutes. *)
Theorem edit_clock_time_keeps_the_entry_day {U : Utils} {R : Runtime}
    (w : World) (ws : string) (target : TimeEntry) (options : Options)
    (payload : UpdateData) (changes : list string) :
  completion (buildUpdate w ws target options) = Normal (payload, changes) ->
  (forall text h m,
      JS.whenTruthy (opt_startTime options) = Some text ->
      JS.matchClock text = Some (h, m) ->
      exists s t,
        dateParse (ti_start (timeInterval target)) = Some s
        /\ upd_start payload = toISOString t
        /\ ClockTimeOn s h m t)
  /\ (forall text h m,
         JS.whenTruthy (opt_endTime options) = Some text ->
         JS.matchClock text = Some (h, m) ->
         exists e t,
           match JS.whenTruthy (ti_end (timeInterval target)) with
           | Some endText => dateParse endText
           | None => Some (now w)
           end = Some e
           /\ upd_end payload = Some (toISOString t)
           /\ ClockTimeOn e h m t).
Proof.
  intros H. apply buildUpdate_result in H.
  destruct H as (_ & _ & _ & _ & _ & _ & Hs & He).
  split.
  - intros text h m E M. rewrite E in Hs. destruct Hs as (t & A & S).
    destruct (setHours_clock _ _ _ _ _ M A) as (s & Es & L).
    exists s, t. auto.
  - intros text h m E M. rewrite E in He. destruct He as (t & A & S).
    destruct (setHours_clock _ _ _ _ _ M A) as (e & Ee & L).
    exists e, t. auto.
Qed.

Lemma edit_clock_time_keeps_the_entry_day_witness :
  let w := Sample.world [Sample.yesterday] [] in
  let options :=
    {| opt_description := None; opt_billable := None; opt_project := None;
       opt_startTime := Some "14:45"; opt_endTime := None |} in
  exists payload changes,
    completion (@buildUpdate SpecUtils.utils Sample.zone w "ws1"
                  Sample.yesterday options) = Normal (payload, changes)
    /\ JS.matchClock "14:45" = Some ("14", "45")
    /\ upd_start payload = "2023-11-13T13:45:00.000Z"
    /\ exists s t,
         @dateParse Sample.zone "2023-11-13T15:00:00Z" = Some s
         /\ upd_start payload = @toISOString Sample.zone t
         /\ DateOps.Day (DateOps.LocalTime (@LocalTZA Sample.zone) t)
            = DateOps.Day (DateOps.LocalTime (@LocalTZA Sample.zone) s)
         /\ DateOps.HourFromTime (DateOps.LocalTime (@LocalTZA Sample.zone) t)
            = 14
         /\ DateOps.MinFromTime (DateOps.LocalTime (@LocalTZA Sample.zone) t)
            = 45.
Proof.
  eexists _, _. split; [reflexivity|]. split; [reflexivity|].
  split; [reflexivity|].
  destruct (proj1 (@edit_clock_time_keeps_the_entry_day
                     SpecUtils.utils Sample.zone
                     (Sample.world [Sample.yesterday] []) "ws1"
                     Sample.yesterday
                     {| opt_description := None; opt_billable := None;
                        opt_project := None; opt_startTime := Some "14:45";
                        opt_endTime := None |} _ _ eq_refl)
              "14:45" "14" "45" eq_refl eq_refl)
    as (s & t & A & B & _ & C).
  exists s, t. split; [exact A|]. split; [exact B|].
  injection A as <-.
  destruct C as [_ C]; [vm_compute; reflexivity|].
  exact (C eq_refl eq_refl).
Defined.

Lemma straight_bind {A B} (m : Cmd A) (k : A -> Cmd B) :
  Straight m -> (forall a, Straight (k a)) -> Straight (bind m k).
Proof.
  unfold Straight. destruct m as [t [a| |code|error]]; simpl; trivial.
  intros _ Hk. specialize (Hk a). destruct (k a) as [t' c']. exact Hk.
Qed.

Lemma straight_isoString {R : Runtime} (d : option Z) :
  Straight (isoString d).
Proof. destruct d; exact I. Qed.

Lemma buildUpdate_straight {U : Utils} {R : Runtime}
    (w : World) (ws : string) (target : TimeEntry) (options : Options) :
  Straight (buildUpdate w ws target options).
Proof.
  unfold buildUpdate.
  apply straight_bind.
  { unfold applyDescription. destruct (opt_description options); exact I. }
  intros s1. apply straight_bind.
  { unfold applyBillable. destruct (opt_billable options); exact I. }
  intros s2. apply straight_bind.
  { unfold applyProject.
    destruct (JS.whenTruthy (opt_project options)) as [requested|];
      [|exact I].
    apply straight_bind.
    - destruct (getProjects w ws); exact I.
    - intros projects. destruct (findProject projects requested); exact I. }
  intros s3. apply straight_bind.
  { unfold applyStartTime.
    destruct (JS.whenTruthy (opt_startTime options)); [|exact I].
    apply straight_bind; [apply straight_isoString | intros; exact I]. }
  intros s4. unfold applyEndTime.
  destruct (JS.whenTruthy (opt_endTime options)); [|exact I].
  apply straight_bind; [apply straight_isoString | intros; exact I].
Qed.

(** X20.  An edit whose start or end time text resolves to no valid date
    (an unreadable text, or a clock time on an entry whose own timestamp is
    unreadable) writes nothing: the command exits with status 1 without a
    call of [updateTimeEntry], whatever the other options are. *)
Theorem edit_with_a_bad_time_writes_nothing {U : Utils} {R : Runtime}
    (w : World) (entryId : string) (options : Options) (ws : string)
    (user : User) (entries : list TimeEntry) (target : TimeEntry) :
  ready w ws user entries ->
  findTarget entries entryId = pure (Some target) ->
  (exists text,
      JS.whenTruthy (opt_startTime options) = Some text
      /\ resolveAnchor text (dateParse (ti_start (timeInterval target)))
         = None)
  \/ (exists text,
         JS.whenTruthy (opt_endTime options) = Some text
         /\ resolveAnchor text
              (match JS.whenTruthy (ti_end (timeInterval target)) with
               | Some endText => dateParse endText
               | None => Some (now w)
               end) = None) ->
  completion (edit w entryId options) = Exited 1
  /\ existsb isUpdateCall (trace (edit w entryId options)) = false.
Proof.
  intros Hready Hfound Hbad.
  rewrite (edit_found _ _ _ _ _ _ _ Hready Hfound). unfold editTarget.
  pose proof (buildUpdate_straight w ws target options) as Hstraight.
  destruct (buildUpdate_sat (fun e => isUpdateCall e = false)
              w ws target options) as (Hquiet & _ & _);
    [reflexivity | reflexivity |].
  pose proof (buildUpdate_result w ws target options) as Hresult.
  destruct (buildUpdate w ws target options) as [t c].
  unfold Straight, trace, completion in *. simpl in *.
  destruct c as [s| |code|error]; try contradiction.
  - exfalso. destruct (Hresult s eq_refl) as (_ & _ & _ & _ & _ & _ & Hs & He).
    destruct Hbad as [(text & E & N)|(text & E & N)].
    + rewrite E in Hs. destruct Hs as (x & A & _). congruence.
    + rewrite E in He. destruct He as (x & A & _). congruence.
  - split; [reflexivity|].
    cbn [tryCatch fst]. rewrite existsb_app. simpl. rewrite orb_false_r.
    apply not_true_is_false. intros X. apply existsb_exists in X.
    destruct X as (e & Hin & He). rewrite Forall_forall in Hquiet.
    rewrite (Hquiet e Hin) in He. discriminate.
Qed.

Lemma edit_with_a_bad_time_writes_nothing_witness :
  let w := Sample.world [Sample.report] [Sample.alpha] in
  let user := {| user_id := "u1" |} in
  let options :=
    {| opt_description := Some "x"; opt_billable := None;
       opt_project := Some "alpha"; opt_startTime := Some "noon";
       opt_endTime := None |} in
  (ready w "ws1" user [Sample.report]
   /\ @findTarget Sample.zone [Sample.report] "e1" = pure (Some Sample.report)
   /\ @resolveAnchor Sample.zone "noon"
        (@dateParse Sample.zone "2023-11-14T09:00:00Z") = None)
  /\ completion (@edit SpecUtils.utils Sample.zone w "e1" options) = Exited 1
  /\ existsb isUpdateCall
       (trace (@edit SpecUtils.utils Sample.zone w "e1" options)) = false.
Proof.
  assert (H1 : ready (Sample.world [Sample.report] [Sample.alpha])
                 "ws1" {| user_id := "u1" |} [Sample.report])
    by (repeat split).
  assert (H2 : @findTarget Sample.zone [Sample.report] "e1" = pure (Some Sample.report))
    by reflexivity.
  assert (H3 : @resolveAnchor Sample.zone "noon"
                 (@dateParse Sample.zone "2023-11-14T09:00:00Z") = None)
    by reflexivity.
  split; [auto|].
  apply (@edit_with_a_bad_time_writes_nothing SpecUtils.utils Sample.zone
           _ "e1"
           {| opt_description := Some "x"; opt_billable := None;
              opt_project := Some "alpha"; opt_startTime := Some "noon";
              opt_endTime := None |} _ _ _ Sample.report H1 H2).
  left. exists "noon". split; [reflexivity | exact H3].
Defined.



(** *** The finder and the clock pattern *)

(** X22.  The running entry is the first fetched entry whose end is absent
    or empty, so with several open entries the earliest in the returned
    order counts; there is none exactly when every entry's end is a
    non-empty text. *)
Theorem runningEntry_is_the_first_open_entry (entries : list TimeEntry) :
  (forall entry,
      runningEntry entries = Some entry
      <-> exists before after,
            entries = (before ++ entry :: after)%list
            /\ JS.truthy (ti_end (timeInterval entry)) = false
            /\ Forall (fun e => JS.truthy (ti_end (timeInterval e)) = true)
                 before)
  /\ (runningEntry entries = None
      <-> Forall (fun e => JS.truthy (ti_end (timeInterval e)) = true)
            entries).
Proof.
  assert (O : forall e, isOpen e = true
                        <-> JS.truthy (ti_end (timeInterval e)) = false).
  { intros e. unfold isOpen. apply negb_true_iff. }
  assert (C : forall e, isOpen e = false
                        <-> JS.truthy (ti_end (timeInterval e)) = true).
  { intros e. unfold isOpen. apply negb_false_iff. }
  unfold runningEntry. split.
  - intros entry. rewrite find_first.
    split; intros (before & after & E & Hx & Hb); exists before, after;
      (split; [exact E|]); (split; [now apply O|]);
      (eapply Forall_impl; [|exact Hb]); intros e; apply C.
  - rewrite find_absent.
    split; intros H; (eapply Forall_impl; [|exact H]); intros e; apply C.
Qed.

Lemma allDigits_cons (c : ascii) (s : string) :
  Iso8601.allDigits (String c s) = JS.isDigit c && Iso8601.allDigits s.
Proof. reflexivity. Qed.

(** X23.  The clock pattern accepts exactly the texts made of one or two
    digits, a colon and two digits, and captures the two digit groups; a
    text such as "9:5", "12:345" or " 9:30" is not a clock time and is left
    to the date parser. *)
Theorem matchClock_accepts_exactly_clock_times (text h m : string) :
  JS.matchClock text = Some (h, m)
  <-> text = (h ++ ":" ++ m)%string
      /\ (String.length h = 1 \/ String.length h = 2)%nat
      /\ String.length m = 2%nat
      /\ Iso8601.allDigits h = true
      /\ Iso8601.allDigits m = true.
Proof.
  split.
  - unfold JS.matchClock.
    destruct text as [|c1 [|c2 [|c3 [|c4 [|c5 [|c6 rest]]]]]];
      try discriminate.
    + destruct (JS.isDigit c1) eqn:D1; [|discriminate].
      destruct (Ascii.eqb_spec c2 ":") as [->|]; [|discriminate].
      destruct (JS.isDigit c3) eqn:D3; [|discriminate].
      destruct (JS.isDigit c4) eqn:D4; [|discriminate].
      simpl. intros E. injection E as <- <-.
      rewrite !allDigits_cons, D1, D3, D4. simpl. auto.
    + destruct (JS.isDigit c1) eqn:D1; [|discriminate].
      destruct (JS.isDigit c2) eqn:D2; [|discriminate].
      destruct (Ascii.eqb_spec c3 ":") as [->|]; [|discriminate].
      destruct (JS.isDigit c4) eqn:D4; [|discriminate].
      destruct (JS.isDigit c5) eqn:D5; [|discriminate].
      simpl. intros E. injection E as <- <-.
      rewrite !allDigits_cons, D1, D2, D4, D5. simpl. auto.
  - intros (-> & Lh & Lm & Dh & Dm).
    destruct m as [|m1 [|m2 [|m3 m]]]; try discriminate.
    rewrite !allDigits_cons in Dm.
    apply andb_true_iff in Dm. destruct Dm as [Dm1 Dm].
    apply andb_true_iff in Dm. destruct Dm as [Dm2 _].
    destruct Lh as [Lh|Lh].
    + destruct h as [|h1 [|h2 h]]; try discriminate.
      rewrite !allDigits_cons in Dh.
      apply andb_true_iff in Dh. destruct Dh as [Dh1 _].
      cbn [append JS.matchClock]. rewrite Dh1, Dm1, Dm2, Ascii.eqb_refl.
      reflexivity.
    + destruct h as [|h1 [|h2 [|h3 h]]]; try discriminate.
      rewrite !allDigits_cons in Dh.
      apply andb_true_iff in Dh. destruct Dh as [Dh1 Dh].
      apply andb_true_iff in Dh. destruct Dh as [Dh2 _].
      cbn [append JS.matchClock]. rewrite Dh1, Dh2, Dm1, Dm2, Ascii.eqb_refl.
      reflexivity.
Qed.
